(** * rauc-disk-updater: hotplug monitor, bundle discovery and install hook

    A shallow embedding of [src/udev.c] (the [UdevMonitor] class: udev event
    handler, debounce check, mount/unmount worker) and of
    [src/rauc-disk-updater.c] (bundle validation, recursive bundle search,
    install hook, attach/detach handlers), with the properties the
    specification states about them.

    Conventions.
    - A [guint] is a [Z] in [0, 2^32); every arithmetic operation on it writes
      its wrap-around out ([guint_wrap]).
    - Everything the program does to the outside world (syscalls, D-Bus calls,
      log lines, signals) is recorded as an [event]; a function returns the
      events it produced in program order.
    - What the outside world answers (file contents, syscall results, the
      installer's replies, the hook's exit status, the moment a cancellable is
      triggered) is taken from explicit oracle records.
    - [Disk] structs are shared by address between the monitor's hash table
      and the worker's queue, so they live in a heap; using a freed one is an
      outcome of its own.
    - Undefined behaviour is the result [None]: the use of a freed [Disk],
      and the [g_free] of the uninitialised [interface_path] on the rejecting
      exits of [check_rauc_bundle], which makes the search that meets a
      rejected file and the attach handler running it undefined as well.
    - Leaks are not modelled: [find_rauc_bundles] leaks [file] on a
      symlink. *)

From Stdlib Require Import ZArith String Ascii List Bool Lia.
From stdpp Require Import base option list gmap strings fin_maps.

Local Open Scope Z_scope.

(* ===================================================================== *)
(** * GLib helpers used by the sources *)
(* ===================================================================== *)

Module Glib.

(** ** guint arithmetic *)

Definition GUINT_MODULUS : Z := 2 ^ 32.

Definition guint_wrap (z : Z) : Z := z mod GUINT_MODULUS.

(** [++x] and [x--] on a [guint]. *)
Definition guint_incr (x : Z) : Z := guint_wrap (x + 1).
Definition guint_decr (x : Z) : Z := guint_wrap (x - 1).

(** A [guint] handed to a [%d] conversion is read back as a [gint]. *)
Definition printf_d (x : Z) : Z :=
  if x <? 2 ^ 31 then x else x - GUINT_MODULUS.

(** ** GSList *)

Definition g_slist_prepend {A} (l : list A) (x : A) : list A := x :: l.
Definition g_slist_concat {A} (l1 l2 : list A) : list A := l1 ++ l2.

(** [g_slist_nth_data (list, n)] with [n] a [guint]: the element's data, or
    NULL when the position is off the end of the list. *)
Definition g_slist_nth_data {A} (l : list A) (n : Z) : option A :=
  nth_error l (Z.to_nat n).

(** ** C strings *)

(** [str + n]: the string that starts [n] characters further. *)
Fixpoint str_offset (n : nat) (s : string) : string :=
  match n, s with
  | O, _ => s
  | S n', String _ r => str_offset n' r
  | S _, EmptyString => EmptyString
  end.

(** [g_str_has_suffix]: compares lengths first, then [strcmp]s the tail of
    [str] of the suffix' length with the suffix. *)
Definition g_str_has_suffix (str suffix : string) : bool :=
  let str_len := String.length str in
  let suffix_len := String.length suffix in
  if (str_len <? suffix_len)%nat then false
  else String.eqb (str_offset (str_len - suffix_len) str) suffix.

(** [g_strcmp0]: [strcmp] that accepts NULL ([None]); NULL sorts first. Only
    the sign of the result is meaningful. *)
Definition g_strcmp0 (a b : option string) : Z :=
  match a, b with
  | None, None => 0
  | None, Some _ => -1
  | Some _, None => 1
  | Some x, Some y =>
      match String.compare x y with Eq => 0 | Lt => -1 | Gt => 1 end
  end.

(** [g_strsplit (s, d, -1)] for a one-character delimiter. A non-empty string
    always yields its last piece, even when that piece is empty; the empty
    string yields the empty vector. *)
Fixpoint split_pieces (d : ascii) (s : string) : list string :=
  match s with
  | EmptyString => [EmptyString]
  | String c r =>
      if Ascii.eqb c d then EmptyString :: split_pieces d r
      else match split_pieces d r with
           | h :: t => String c h :: t
           | [] => [String c EmptyString]
           end
  end.

Definition g_strsplit (s : string) (d : ascii) : list string :=
  match s with
  | EmptyString => []
  | _ => split_pieces d s
  end.

(** [g_strdelimit (s, delimiters, new)]: every character of [s] that occurs
    in [delimiters] becomes [new]. *)
Fixpoint str_mem (c : ascii) (set : string) : bool :=
  match set with
  | EmptyString => false
  | String d r => Ascii.eqb c d || str_mem c r
  end.

Fixpoint g_strdelimit (s delimiters : string) (new : ascii) : string :=
  match s with
  | EmptyString => EmptyString
  | String c r =>
      String (if str_mem c delimiters then new else c)
             (g_strdelimit r delimiters new)
  end.

(** [g_ascii_isspace]: space, tab, newline, form feed, carriage return. *)
Definition g_ascii_isspace (c : ascii) : bool :=
  let n := nat_of_ascii c in
  (n =? 32)%nat || (n =? 9)%nat || (n =? 10)%nat || (n =? 12)%nat || (n =? 13)%nat.

(** [g_strchug]: drop leading white space. *)
Fixpoint g_strchug (s : string) : string :=
  match s with
  | EmptyString => EmptyString
  | String c r => if g_ascii_isspace c then g_strchug r else s
  end.

(** [g_strchomp]: drop trailing white space. *)
Fixpoint g_strchomp (s : string) : string :=
  match s with
  | EmptyString => EmptyString
  | String c r =>
      match g_strchomp r with
      | EmptyString => if g_ascii_isspace c then EmptyString else String c EmptyString
      | r' => String c r'
      end
  end.

Definition g_strstrip (s : string) : string := g_strchomp (g_strchug s).

End Glib.

(* ===================================================================== *)
(** * The outside world: devices, syscall outcomes, observable events *)
(* ===================================================================== *)

(** What the sources read from a [GUdevDevice]. [ID_PART_TABLE_UUID] is the
    [DISK_ID] macro; both files hand it to a string-keyed hash table without a
    NULL test, so the embedding takes it as a string. *)
Record GUdevDevice := {
  subsystem : option string;            (* g_udev_device_get_subsystem *)
  DEVTYPE : option string;              (* property "DEVTYPE" *)
  ID_PART_TABLE_UUID : string;          (* property "ID_PART_TABLE_UUID" *)
  device_file : string;                 (* g_udev_device_get_device_file *)
  device_name : string;                 (* g_udev_device_get_name *)
  ID_FS_TYPE : option string            (* property "ID_FS_TYPE" *)
}.

Definition DISK_ID (device : GUdevDevice) : string := ID_PART_TABLE_UUID device.

Inductive errno := EEXIST | EINVAL | EBUSY | ENOENT | EPERM | ENODEV.

(** Result of a syscall that returns 0 or sets [errno]. *)
Inductive sysret := Ok | Err (e : errno).

(** The environment variables handed to the hook, [BUNDLE_PATH_<n>],
    [BUNDLE_VERSION_<n>] and [BUNDLES], with their values. *)
Inductive env_var :=
| BUNDLE_PATH_ (n : Z) (path : string)
| BUNDLE_VERSION_ (n : Z) (version : string)
| BUNDLES (count : Z).

Inductive event :=
(* logging *)
| g_warning (msg : string)
| g_message (msg : string)
(* udev.c *)
| read_file (path : string)                          (* g_file_get_contents *)
| sys_mkdir (dir : string)                           (* g_mkdir_with_parents *)
| sys_mount (src dir : string) (type : option string)
| sys_umount2 (dir : string)                         (* umount2 (dir, MNT_DETACH) *)
| emit_attach (device : GUdevDevice) (mount_points : list string)
| emit_detach (device : GUdevDevice)
(* rauc-disk-updater.c *)
| cancel_check (cancelled : bool)                    (* g_cancellable_is_cancelled *)
| dir_open (path : string)
| dir_read (path name : string)                      (* g_dir_read_name gave [name] *)
| dir_close (path : string)
| call_info (path : string)                          (* rauc_installer_call_info_sync *)
| dbus_export (object_number : Z) (path : string)    (* .../bundles/<n> *)
| dbus_unexport (object_number : Z)
| launcher_setenv (var : env_var)
| launcher_spawn (script : string)
| subprocess_force_exit
| call_install (path : string)                       (* rauc_installer_call_install_sync *)
| set_device_count (n : Z)
| set_status (status : string).

(* ===================================================================== *)
(** * udev.c *)
(* ===================================================================== *)

Module Udev.
Import Glib.

(** [UDEV_TIMEOUT] is [1.0f] seconds. [g_timer_elapsed] divides a difference
    of monotonic microsecond stamps by 10^6, so with stamps kept in
    microseconds [elapsed > UDEV_TIMEOUT] is [now - start > 1000000]. *)
Definition UDEV_TIMEOUT : Z := 1000000.

Definition addr := nat.

Record Disk := {
  attached : bool;
  gudev_device : GUdevDevice;
  cancellable : bool;                   (* TRUE once g_cancellable_cancel ran *)
  partitions : list GUdevDevice;
  mount_points : list string;
  initialized : Z                       (* start stamp of the GTimer *)
}.

Definition set_attached (b : bool) (d : Disk) : Disk :=
  {| attached := b; gudev_device := gudev_device d;
     cancellable := cancellable d; partitions := partitions d;
     mount_points := mount_points d; initialized := initialized d |}.

Definition g_cancellable_cancel (d : Disk) : Disk :=
  {| attached := attached d; gudev_device := gudev_device d;
     cancellable := true; partitions := partitions d;
     mount_points := mount_points d; initialized := initialized d |}.

Definition g_timer_start (now : Z) (d : Disk) : Disk :=
  {| attached := attached d; gudev_device := gudev_device d;
     cancellable := cancellable d; partitions := partitions d;
     mount_points := mount_points d; initialized := now |}.

Definition set_partitions (l : list GUdevDevice) (d : Disk) : Disk :=
  {| attached := attached d; gudev_device := gudev_device d;
     cancellable := cancellable d; partitions := l;
     mount_points := mount_points d; initialized := initialized d |}.

Definition set_mount_points (l : list string) (d : Disk) : Disk :=
  {| attached := attached d; gudev_device := gudev_device d;
     cancellable := cancellable d; partitions := partitions d;
     mount_points := l; initialized := initialized d |}.

Definition g_timer_elapsed (d : Disk) (now : Z) : Z := now - initialized d.

(** An entry of [process_device_queue]: a [Disk *] or the [0xdeadbeef]
    sentinel. *)
Inductive job := JobDisk (a : addr) | JobQuit.

(** [struct _UdevMonitor]. The [Disk] structs live in [heap] and are shared by
    address between the hash table [disks] and the queue. [timeouts] counts
    the live [on_disk_initialized] timeout sources. *)
Record UdevMonitor := {
  disks : gmap string addr;
  process_device_queue : list job;
  heap : gmap addr Disk;
  next_addr : addr;
  timeouts : nat
}.

Definition udev_monitor_new : UdevMonitor :=
  {| disks := ∅; process_device_queue := []; heap := ∅;
     next_addr := 0%nat; timeouts := 0%nat |}.

(** What the operating system answers. *)
Record OS := {
  file_contents : string -> option string;
  mkdir_result : string -> sysret;
  mount_result : string -> string -> option string -> sysret;
  umount2_result : string -> sysret
}.

(** One line of the filesystems file: tabs become blanks, the line is
    stripped and split at blanks; it names [fstype] when exactly one token
    remains and that token is [fstype]. *)
Definition line_names_fstype (fstype : option string) (line : string) : bool :=
  let stripped := g_strstrip (g_strdelimit line (String " " (String "009" "")) " ") in
  let tokens := g_strsplit stripped " " in
  match tokens with
  | [tok] => g_strcmp0 (Some tok) fstype =? 0
  | _ => false
  end.

(** The [for] loop stops at the first matching line. *)
Fixpoint scan_lines (fstype : option string) (lines : list string) : bool :=
  match lines with
  | [] => false
  | l :: r => if line_names_fstype fstype l then true else scan_lines fstype r
  end.

(** [g_mkdir_with_parents (dir, 0755) != 0 && errno != EEXIST]. *)
Definition mkdir_failed (r : sysret) : bool :=
  match r with
  | Ok => false
  | Err EEXIST => false
  | Err _ => true
  end.

(** [umount2 (dir, MNT_DETACH) != 0 && errno != EINVAL]. *)
Definition umount_failed (r : sysret) : bool :=
  match r with
  | Ok => false
  | Err EINVAL => false
  | Err _ => true
  end.

Definition is_in_filesystem_file (os : OS) (filesystems_file : string)
    (fstype : option string) : bool * list event :=
  match file_contents os filesystems_file with
  | None =>
      (false, [read_file filesystems_file;
               g_warning ("Error reading " +:+ filesystems_file)])
  | Some filesystems =>
      (scan_lines fstype (g_strsplit filesystems "010"),
       [read_file filesystems_file])
  end.

Definition mount_partition (os : OS) (device : GUdevDevice) (disk : Disk)
    : Disk * list event :=
  let path := device_file device in
  let name := device_name device in
  let type := ID_FS_TYPE device in
  let '(supported, ev_fs) := is_in_filesystem_file os "/proc/filesystems" type in
  if negb supported then (disk, ev_fs)      (* type not supported by OS *)
  else
    let mount_dir := "/run/media/disk-updater/" +:+ name in
    if mkdir_failed (mkdir_result os mount_dir) then
      (disk, ev_fs ++ [sys_mkdir mount_dir;
                       g_warning ("Could not create directory " +:+ mount_dir)])
    else
      match mount_result os path mount_dir type with
      | Err _ =>
          (disk, ev_fs ++ [sys_mkdir mount_dir; sys_mount path mount_dir type;
                           g_warning ("Could not mount " +:+ path)])
      | Ok =>
          (set_mount_points (g_slist_prepend (mount_points disk) mount_dir) disk,
           ev_fs ++ [sys_mkdir mount_dir; sys_mount path mount_dir type])
      end.

(** [g_slist_foreach (disk->partitions, mount_partition, disk)]. *)
Fixpoint mount_partitions (os : OS) (l : list GUdevDevice) (disk : Disk)
    : Disk * list event :=
  match l with
  | [] => (disk, [])
  | p :: r =>
      let '(disk1, ev1) := mount_partition os p disk in
      let '(disk2, ev2) := mount_partitions os r disk1 in
      (disk2, ev1 ++ ev2)
  end.

Definition umount_partition (os : OS) (mount_dir : string) : list event :=
  if umount_failed (umount2_result os mount_dir)
  then [sys_umount2 mount_dir; g_warning ("Could not unmount " +:+ mount_dir)]
  else [sys_umount2 mount_dir].

(** [free_disk]: the syscalls it makes; the caller drops the struct from the
    heap. *)
Definition free_disk (os : OS) (disk : Disk) : list event :=
  flat_map (umount_partition os) (mount_points disk).

(** *** The worker thread *)

(** Outcome of one pass through the [do ... while (TRUE)] loop. *)
Inductive iteration (H : Type) :=
| Blocked                                   (* g_async_queue_pop waits *)
| Exited                                    (* the sentinel was popped *)
| UseAfterFree                              (* the popped Disk was already freed *)
| Processed (self : UdevMonitor) (h : H) (evs : list event).
Arguments Blocked {H}.
Arguments Exited {H}.
Arguments UseAfterFree {H}.
Arguments Processed {H} self h evs.

Section Worker.
(** The handlers connected to the "attach" and "detach" signals and the
    state they work on. [g_signal_emit] runs them in the worker thread
    before it returns. The attach handler receives the device, the mount
    points and the cancellable (here: whether it is already triggered). *)
Context {H : Type}.
Variable attach_handler : GUdevDevice -> list string -> bool -> H -> H * list event.
Variable detach_handler : GUdevDevice -> H -> H * list event.

Definition process_disk_thread_func (os : OS) (self : UdevMonitor) (h : H)
    : iteration H :=
  match process_device_queue self with
  | [] => Blocked
  | JobQuit :: _ => Exited
  | JobDisk a :: rest =>
      match heap self !! a with
      | None => UseAfterFree
      | Some disk =>
          if attached disk then
            let '(disk', ev_mount) := mount_partitions os (partitions disk) disk in
            let '(h', ev_handler) :=
              attach_handler (gudev_device disk') (mount_points disk')
                             (cancellable disk') h in
            Processed
              {| disks := disks self; process_device_queue := rest;
                 heap := <[a := disk']> (heap self);
                 next_addr := next_addr self; timeouts := timeouts self |}
              h'
              (ev_mount
               ++ emit_attach (gudev_device disk') (mount_points disk') :: ev_handler)
          else
            let '(h', ev_handler) := detach_handler (gudev_device disk) h in
            Processed
              {| disks := disks self; process_device_queue := rest;
                 heap := delete a (heap self);
                 next_addr := next_addr self; timeouts := timeouts self |}
              h'
              (emit_detach (gudev_device disk) :: ev_handler ++ free_disk os disk)
      end
  end.
End Worker.

(** *** The debounce check *)

(** The [while (g_hash_table_iter_next ...)] loop: the first disk, in the
    table's iteration order, that is not attached and whose timer shows more
    than [UDEV_TIMEOUT]. The outer [None] is a dangling table entry. *)
Fixpoint find_initialized (hp : gmap addr Disk) (now : Z) (l : list (string * addr))
    : option (option addr) :=
  match l with
  | [] => Some None
  | (_, a) :: r =>
      match hp !! a with
      | None => None
      | Some disk =>
          if negb (attached disk) && (UDEV_TIMEOUT <? g_timer_elapsed disk now)
          then Some (Some a)
          else find_initialized hp now r
      end
  end.

(** Returns the new state and the callback's return value ([TRUE]: call me
    again). The iteration order of the GHashTable is unspecified;
    [map_to_list] stands for it. *)
Definition on_disk_initialized (self : UdevMonitor) (now : Z)
    : option (UdevMonitor * bool) :=
  match find_initialized (heap self) now (map_to_list (disks self)) with
  | None => None
  | Some None => Some (self, true)            (* no disk found..wait another second *)
  | Some (Some a) =>
      match heap self !! a with
      | None => None
      | Some disk =>
          Some ({| disks := disks self;
                   process_device_queue := process_device_queue self ++ [JobDisk a];
                   heap := <[a := set_attached true disk]> (heap self);
                   next_addr := next_addr self; timeouts := timeouts self |},
                false)
      end
  end.

(** One firing of one of the timeout sources added by [g_timeout_add_seconds]:
    a source whose callback returns [FALSE] is removed. *)
Definition timeout_dispatch (self : UdevMonitor) (now : Z) : option UdevMonitor :=
  match timeouts self with
  | O => Some self
  | S n =>
      match on_disk_initialized self now with
      | None => None
      | Some (self', true) => Some self'
      | Some (self', false) =>
          Some {| disks := disks self'; process_device_queue := process_device_queue self';
                  heap := heap self'; next_addr := next_addr self'; timeouts := n |}
      end
  end.

(** *** The uevent callback *)

Definition new_disk (device : GUdevDevice) (now : Z) : Disk :=
  {| attached := false; gudev_device := device; cancellable := false;
     partitions := []; mount_points := []; initialized := now |}.

Definition on_uevent (os : OS) (self : UdevMonitor) (now : Z)
    (action : option string) (device : GUdevDevice)
    : option (UdevMonitor * list event) :=
  if negb (g_strcmp0 (subsystem device) (Some "block"%string) =? 0) then Some (self, [])
  else if g_strcmp0 action (Some "add"%string) =? 0 then
    if g_strcmp0 (DEVTYPE device) (Some "disk"%string) =? 0 then
      (* new disk *)
      let a := next_addr self in
      let inserted hp :=
        {| disks := <[DISK_ID device := a]> (disks self);
           process_device_queue := process_device_queue self;
           heap := <[a := new_disk device now]> hp;
           next_addr := S a; timeouts := S (timeouts self) |} in
      match disks self !! DISK_ID device with
      | None => Some (inserted (heap self), [])
      | Some old =>
          (* g_hash_table_insert destroys the value it replaces with free_disk *)
          match heap self !! old with
          | None => None
          | Some old_disk => Some (inserted (delete old (heap self)), free_disk os old_disk)
          end
      end
    else if g_strcmp0 (DEVTYPE device) (Some "partition"%string) =? 0 then
      (* new partition *)
      match disks self !! DISK_ID device with
      | None => Some (self, [g_warning "Ignore partition due to udev timeout"])
      | Some a =>
          match heap self !! a with
          | None => None
          | Some disk =>
              if negb (attached disk) then
                Some ({| disks := disks self;
                         process_device_queue := process_device_queue self;
                         heap := <[a := set_partitions
                                          (g_slist_prepend (partitions disk) device)
                                          (g_timer_start now disk)]> (heap self);
                         next_addr := next_addr self; timeouts := timeouts self |}, [])
              else Some (self, [g_warning "Ignore partition due to udev timeout"])
          end
      end
    else Some (self, [])
  else if g_strcmp0 action (Some "remove"%string) =? 0 then
    (* remove disk *)
    match disks self !! DISK_ID device with
    | None => Some (self, [])
    | Some a =>
        match heap self !! a with
        | None => None
        | Some disk =>
            Some ({| disks := delete (DISK_ID device) (disks self);
                     process_device_queue := process_device_queue self ++ [JobDisk a];
                     heap := <[a := g_cancellable_cancel (set_attached false disk)]> (heap self);
                     next_addr := next_addr self; timeouts := timeouts self |}, [])
        end
    end
  else Some (self, []).

(** *** Shutdown *)

(** [g_hash_table_foreach (self->disks, cancel_disk, NULL)]: the cancellable
    of every disk in the table is triggered. [None]: a dangling table entry. *)
Fixpoint cancel_disks (l : list (string * addr)) (hp : gmap addr Disk)
    : option (gmap addr Disk) :=
  match l with
  | [] => Some hp
  | (_, a) :: r =>
      match hp !! a with
      | None => None
      | Some disk => cancel_disks r (<[a := g_cancellable_cancel disk]> hp)
      end
  end.

(** [udev_monitor_quit] up to the [g_thread_join]: the sentinel goes to the
    front of the queue and the disks of the table are cancelled. *)
Definition udev_monitor_quit (self : UdevMonitor) : option UdevMonitor :=
  match cancel_disks (map_to_list (disks self)) (heap self) with
  | None => None
  | Some hp =>
      Some {| disks := disks self;
              process_device_queue := JobQuit :: process_device_queue self;
              heap := hp; next_addr := next_addr self; timeouts := timeouts self |}
  end.

(** [g_hash_table_destroy (self->disks)]: [free_disk] on every value. *)
Fixpoint destroy_disks (os : OS) (l : list (string * addr)) (hp : gmap addr Disk)
    : option (gmap addr Disk * list event) :=
  match l with
  | [] => Some (hp, [])
  | (_, a) :: r =>
      match hp !! a with
      | None => None
      | Some disk =>
          match destroy_disks os r (delete a hp) with
          | None => None
          | Some (hp', evs) => Some (hp', free_disk os disk ++ evs)
          end
      end
  end.

(** [udev_monitor_finalize]: the queue is dropped and the table destroyed;
    what the queue still held is not looked at. *)
Definition udev_monitor_finalize (os : OS) (self : UdevMonitor)
    : option (UdevMonitor * list event) :=
  match destroy_disks os (map_to_list (disks self)) (heap self) with
  | None => None
  | Some (hp, evs) =>
      Some ({| disks := ∅; process_device_queue := []; heap := hp;
               next_addr := next_addr self; timeouts := timeouts self |}, evs)
  end.

End Udev.

(* ===================================================================== *)
(** * rauc-disk-updater.c *)
(* ===================================================================== *)

Module Updater.
Import Glib.

(** A [DiskUpdaterBundle] skeleton: its two properties and the number in the
    object path it is exported at. *)
Record Bundle := {
  bundle_path : string;
  bundle_version : string;
  object_number : Z
}.

Record MainContext := {
  compatible : option string;           (* system compatible *)
  bundle_dbus_count : Z;
  device_count : Z;
  bundles_by_disk : gmap string (list Bundle)
}.

Definition set_bundle_dbus_count (n : Z) (c : MainContext) : MainContext :=
  {| compatible := compatible c; bundle_dbus_count := n;
     device_count := device_count c; bundles_by_disk := bundles_by_disk c |}.

Definition set_device_count_field (n : Z) (c : MainContext) : MainContext :=
  {| compatible := compatible c; bundle_dbus_count := bundle_dbus_count c;
     device_count := n; bundles_by_disk := bundles_by_disk c |}.

Definition set_bundles_by_disk (m : gmap string (list Bundle)) (c : MainContext)
    : MainContext :=
  {| compatible := compatible c; bundle_dbus_count := bundle_dbus_count c;
     device_count := device_count c; bundles_by_disk := m |}.

(** What [g_file_test] says about a path, and for a directory what
    [g_dir_open] and [g_dir_read_name] deliver: [None] when the directory
    cannot be opened, else its entries in read order. *)
#[warnings="-register-all"]
Inductive node :=
| Symlink
| Dir (entries : option (list (string * node)))
| Regular
| Special.

(** How the hook subprocess ended: it could not be spawned, the wait failed
    (it is cancellable), or it exited with a status. *)
Inductive hook_outcome := SpawnFailed | WaitFailed | HookExited (status : Z).

(** A [GCancellable] as the worker thread sees it. The event thread triggers
    it at a moment of its own; the worker learns of it through
    [g_cancellable_is_cancelled]. [Some k]: the first [k] polls answer FALSE,
    every later one TRUE. [None]: never triggered. *)
Definition GCancellable := option nat.

Definition is_cancelled (cancellable : GCancellable) (polls : nat) : bool :=
  match cancellable with
  | Some k => (k <=? polls)%nat
  | None => false
  end.

Record World := {
  script_file : option string;                          (* --script *)
  installer_info : string -> option (string * string);  (* Info: compatible, version *)
  installer_install : string -> bool;                   (* Install succeeded *)
  fs_root : string -> node;                             (* what lies at a mount point *)
  hook : list env_var -> hook_outcome;
  worker_cancel : GCancellable
}.

(** Returned by the functions that poll the cancellable: the result, the
    context, the number of polls made so far, the events. *)
Definition polled (A : Type) : Type := A * MainContext * nat * list event.

(** [check_rauc_bundle]. [interface_path] is declared without an initialiser
    and set only on the accepting path, but every path ends at [out:] with
    [g_free (interface_path)]. The three rejecting exits (no ".raucb"
    suffix, Info failed, other compatible) therefore hand an uninitialised
    pointer to [g_free]: the behaviour is undefined from there on, which is
    [None]. On the one defined return the bundle is not [NULL]. Whether the
    Info call succeeds is the world's answer, whatever makes it fail; the
    cancellable handed to it is observed through the polls of the search
    only. *)
Definition check_rauc_bundle (w : World) (context : MainContext) (path : string)
    : option (Bundle * MainContext * list event) :=
  (* filter for suffix .raucb *)
  if negb (g_str_has_suffix path ".raucb") then None       (* goto out *)
  else
    (* query version and compatible string from bundle *)
    match installer_info w path with
    | None => None                                          (* g_warning, goto out *)
    | Some (compat, version) =>
        (* filter bundles with matching compatible string *)
        if negb (g_strcmp0 (compatible context) (Some compat) =? 0) then
          None                                              (* g_message, goto out *)
        else
          let count := guint_incr (bundle_dbus_count context) in
          Some ({| bundle_path := path; bundle_version := version;
                   object_number := printf_d count |},
                set_bundle_dbus_count count context,
                [call_info path; g_message ("found " +:+ path);
                 dbus_export (printf_d count) path])
    end.

(** The [while] loop of [find_rauc_bundles] over the entries of one opened
    directory. [find] is [find_rauc_bundles] itself, for the recursive call.
    The cancellable is polled first, before [g_dir_read_name]. [None]: a
    call of [check_rauc_bundle] was undefined. *)
Fixpoint read_entries_with
    (find : string -> node -> MainContext -> nat -> option (polled (list Bundle)))
    (w : World) (cancellable : GCancellable) (path : string)
    (es : list (string * node)) (bundles : list Bundle)
    (context : MainContext) (polls : nat) {struct es} : option (polled (list Bundle)) :=
  if is_cancelled cancellable polls
  then Some (bundles, context, S polls, [cancel_check true])
  else
    match es with
    | [] => Some (bundles, context, S polls, [cancel_check false])
    | (name, child) :: es' =>
        let file := path +:+ "/" +:+ name in
        match child with
        | Symlink =>
            (* do not follow symlinks *)
            match read_entries_with find w cancellable path es' bundles context (S polls) with
            | None => None
            | Some (r, c, p, e) => Some (r, c, p, cancel_check false :: dir_read path name :: e)
            end
        | Dir _ =>
            (* recursive call *)
            match find file child context (S polls) with
            | None => None
            | Some (sub, c1, p1, e1) =>
                match read_entries_with find w cancellable path es'
                                        (g_slist_concat bundles sub) c1 p1 with
                | None => None
                | Some (r, c, p, e) =>
                    Some (r, c, p, cancel_check false :: dir_read path name :: e1 ++ e)
                end
            end
        | Regular =>
            match check_rauc_bundle w context file with
            | None => None
            | Some (bundle, c1, e1) =>
                match read_entries_with find w cancellable path es'
                                        (g_slist_prepend bundles bundle) c1 (S polls) with
                | None => None
                | Some (r, c, p, e) =>
                    Some (r, c, p, cancel_check false :: dir_read path name :: e1 ++ e)
                end
            end
        | Special =>
            match read_entries_with find w cancellable path es' bundles context (S polls) with
            | None => None
            | Some (r, c, p, e) => Some (r, c, p, cancel_check false :: dir_read path name :: e)
            end
        end
    end.

Fixpoint find_rauc_bundles (w : World) (cancellable : GCancellable)
    (path : string) (n : node) (context : MainContext) (polls : nat) {struct n}
    : option (polled (list Bundle)) :=
  match n with
  | Dir (Some entries) =>
      match read_entries_with (find_rauc_bundles w cancellable)
                              w cancellable path entries [] context polls with
      | None => None
      | Some (bundles, context', polls', evs) =>
          Some (bundles, context', polls', dir_open path :: evs ++ [dir_close path])
      end
  | _ =>
      (* g_dir_open failed: the loop condition is evaluated once *)
      Some ([], context, S polls,
            [dir_open path; cancel_check (is_cancelled cancellable polls)])
  end.

Definition read_entries (w : World) (cancellable : GCancellable) :=
  read_entries_with (find_rauc_bundles w cancellable) w cancellable.

(** The [while (bundles)] loop of [run_hook_install]: one [BUNDLE_PATH_<n>]
    and one [BUNDLE_VERSION_<n>] per bundle, [n] being [bundle_ctr] after its
    increment. Returns the final [bundle_ctr] too. *)
Fixpoint hook_environment (bundles : list Bundle) (bundle_ctr : Z)
    : Z * list env_var :=
  match bundles with
  | [] => (bundle_ctr, [])
  | bundle :: rest =>
      let bundle_ctr := guint_incr bundle_ctr in
      let '(final, env) := hook_environment rest bundle_ctr in
      (final,
       BUNDLE_PATH_ (printf_d bundle_ctr) (bundle_path bundle)
       :: BUNDLE_VERSION_ (printf_d bundle_ctr) (bundle_version bundle)
       :: env)
  end.

(** Everything [run_hook_install] sets on the launcher, [BUNDLES] last. *)
Definition launcher_environment (bundles_head : list Bundle) : list env_var :=
  let '(bundle_ctr, env) := hook_environment bundles_head 0 in
  env ++ [BUNDLES (printf_d bundle_ctr)].

Definition run_hook_install (w : World) (bundles_head : list Bundle) : list event :=
  match script_file w with
  | None => []
  | Some script =>
      match bundles_head with
      | [] => []
      | _ :: _ =>
          let env := launcher_environment bundles_head in
          map launcher_setenv env ++
          launcher_spawn script ::
          match hook w env with
          | SpawnFailed => [g_warning ("Failed to run script " +:+ script)]
          | WaitFailed => [subprocess_force_exit]
          | HookExited index =>
              if index =? 0 then [g_warning "Script denied installation"]
              else
                match g_slist_nth_data bundles_head (guint_wrap (index - 1)) with
                | None => [g_warning "Bundle index out of bounds"]
                | Some bundle =>
                    g_message ("Install bundle " +:+ bundle_path bundle)
                    :: call_install (bundle_path bundle)
                    :: (if installer_install w (bundle_path bundle) then []
                        else [g_warning "Failed"])
                end
          end
      end
  end.

(** [bundles_destroyed]: every bundle of the list is unexported and freed. *)
Definition bundles_destroyed (bundles : list Bundle) : list event :=
  map (fun b => dbus_unexport (object_number b)) bundles.

(** The [while (mount_point && !cancelled)] loop of [on_attach]. *)
Fixpoint search_mount_points (w : World) (cancellable : GCancellable)
    (mount_point : list string) (bundles : list Bundle)
    (context : MainContext) (polls : nat) : option (polled (list Bundle)) :=
  match mount_point with
  | [] => Some (bundles, context, polls, [])
  | data :: next =>
      if is_cancelled cancellable polls
      then Some (bundles, context, S polls, [cancel_check true])
      else
        match find_rauc_bundles w cancellable data (fs_root w data) context (S polls) with
        | None => None
        | Some (found, c1, p1, e1) =>
            match search_mount_points w cancellable next
                                      (g_slist_concat bundles found) c1 p1 with
            | None => None
            | Some (r, c, p, e) => Some (r, c, p, cancel_check false :: e1 ++ e)
            end
        end
  end.

(** [None]: the search was undefined. *)
Definition on_attach (w : World) (cancellable : GCancellable)
    (device : GUdevDevice) (mount_points : list string) (context : MainContext)
    : option (MainContext * list event) :=
  let count := guint_incr (device_count context) in
  let context := set_device_count_field count context in
  match search_mount_points w cancellable mount_points [] context 0%nat with
  | None => None
  | Some (bundles, context, polls, ev_search) =>
      (* g_hash_table_insert destroys a value it replaces with bundles_destroyed *)
      let ev_replaced :=
        match bundles_by_disk context !! DISK_ID device with
        | Some old => bundles_destroyed old
        | None => []
        end in
      let context :=
        set_bundles_by_disk (<[DISK_ID device := bundles]> (bundles_by_disk context))
                            context in
      Some (context,
            set_device_count count :: set_status "scanning" :: ev_search
            ++ ev_replaced ++ [set_status "idle"]
            (* start script install hook *)
            ++ (if is_cancelled cancellable polls then [cancel_check true]
                else cancel_check false :: run_hook_install w bundles))
  end.

Definition on_detach (device : GUdevDevice) (context : MainContext)
    : MainContext * list event :=
  let count := guint_decr (device_count context) in
  let context := set_device_count_field count context in
  let context :=
    if count =? 0
    then set_bundle_dbus_count 0 context   (* reset bundle counter *)
    else context in
  let ev_removed :=
    match bundles_by_disk context !! DISK_ID device with
    | Some old => bundles_destroyed old
    | None => []
    end in
  (set_bundles_by_disk (delete (DISK_ID device) (bundles_by_disk context)) context,
   set_device_count count :: ev_removed).

Definition main_context (system_compatible : option string) : MainContext :=
  {| compatible := system_compatible; bundle_dbus_count := 0; device_count := 0;
     bundles_by_disk := ∅ |}.

End Updater.

(* ===================================================================== *)
(** * The two parts connected as [main] connects them *)
(* ===================================================================== *)

Module Daemon.
Import Glib Udev Updater.

(** [main] connects [on_attach] and [on_detach] to the monitor's signals. The
    cancellable handed over with "attach" is the disk's: already triggered, or
    to be triggered while the handler runs as [worker_cancel] says. The state
    the handlers work on is the [MainContext], or [None] once a handler has
    run into undefined behaviour. *)
Definition attach_handler (w : World) (device : GUdevDevice)
    (mount_points : list string) (triggered : bool) (h : option MainContext)
    : option MainContext * list event :=
  match h with
  | None => (None, [])
  | Some context =>
      match on_attach w (if triggered then Some 0%nat else worker_cancel w)
                      device mount_points context with
      | None => (None, [])
      | Some (context', evs) => (Some context', evs)
      end
  end.

Definition detach_handler (device : GUdevDevice) (h : option MainContext)
    : option MainContext * list event :=
  match h with
  | None => (None, [])
  | Some context =>
      let '(context', evs) := on_detach device context in (Some context', evs)
  end.

Record Daemon := {
  monitor : UdevMonitor;
  context : MainContext
}.

(** What can happen next: a uevent arrives, a timeout source fires (both in
    the main loop, at monotonic time [now]), or the worker thread makes one
    pass through its loop. *)
Inductive step :=
| Uevent (now : Z) (action : string) (device : GUdevDevice)
| Timeout (now : Z)
| Worker.

(** [None]: a freed [Disk] was used, or a handler's behaviour was undefined.
    A blocked or exited worker leaves the state as it is. *)
Definition daemon_step (os : OS) (w : World) (d : Daemon) (s : step)
    : option (Daemon * list event) :=
  match s with
  | Uevent now action device =>
      match on_uevent os (monitor d) now (Some action) device with
      | Some (m, evs) => Some ({| monitor := m; context := context d |}, evs)
      | None => None
      end
  | Timeout now =>
      match timeout_dispatch (monitor d) now with
      | Some m => Some ({| monitor := m; context := context d |}, [])
      | None => None
      end
  | Worker =>
      match process_disk_thread_func (attach_handler w) detach_handler
                                     os (monitor d) (Some (context d)) with
      | Blocked | Exited => Some (d, [])
      | UseAfterFree => None
      | Processed m (Some c) evs => Some ({| monitor := m; context := c |}, evs)
      | Processed m None _ => None
      end
  end.

Fixpoint daemon_run (os : OS) (w : World) (d : Daemon) (l : list step)
    : option (Daemon * list event) :=
  match l with
  | [] => Some (d, [])
  | s :: r =>
      match daemon_step os w d s with
      | None => None
      | Some (d1, e1) =>
          match daemon_run os w d1 r with
          | None => None
          | Some (d2, e2) => Some (d2, e1 ++ e2)
          end
      end
  end.

Definition daemon_start (system_compatible : option string) : Daemon :=
  {| monitor := udev_monitor_new; context := main_context system_compatible |}.

End Daemon.

(* ===================================================================== *)
(** * What the properties observe *)
(* ===================================================================== *)

Module Observe.
Import Glib Udev Updater Daemon.

(** Paths handed to the installer's Install, in call order. *)
Definition installs (evs : list event) : list string :=
  flat_map (fun e => match e with call_install p => [p] | _ => [] end) evs.

(** Paths handed to the installer's Info, in call order. *)
Definition inspects (evs : list event) : list string :=
  flat_map (fun e => match e with call_info p => [p] | _ => [] end) evs.

(** Bundle objects exported, as (object number, bundle path), in order. *)
Definition exports (evs : list event) : list (Z * string) :=
  flat_map (fun e => match e with dbus_export n p => [(n, p)] | _ => [] end) evs.

Definition published (b : Bundle) : Z * string := (object_number b, bundle_path b).

(** How often the filesystems file was read. *)
Definition reads (evs : list event) : nat :=
  length (flat_map (fun e => match e with read_file _ => [e] | _ => [] end) evs).

Definition is_syscall (e : event) : bool :=
  match e with
  | sys_mkdir _ | sys_mount _ _ _ | sys_umount2 _ => true
  | _ => false
  end.

Definition syscalls (evs : list event) : list event := List.filter is_syscall evs.

(** Object numbers withdrawn from D-Bus, in order. *)
Definition unexports (evs : list event) : list Z :=
  flat_map (fun e => match e with dbus_unexport n => [n] | _ => [] end) evs.

(** Devices for which "attach" resp. "detach" was emitted, in order. *)
Definition attach_signals (evs : list event) : list string :=
  flat_map (fun e => match e with emit_attach d _ => [DISK_ID d] | _ => [] end) evs.

Definition detach_signals (evs : list event) : list string :=
  flat_map (fun e => match e with emit_detach d => [DISK_ID d] | _ => [] end) evs.

(** The disks in the monitor's table that are flagged attached. *)
Definition attached_disks (self : UdevMonitor) : list string :=
  map fst
      (List.filter (fun e : string * addr =>
                      match heap self !! snd e with
                      | Some disk => attached disk
                      | None => false
                      end)
                   (map_to_list (disks self))).

(** The three things that decide whether [mount_partition] records a mount
    point for a partition. *)
Definition supported_by_os (os : OS) (p : GUdevDevice) : bool :=
  fst (is_in_filesystem_file os "/proc/filesystems" (ID_FS_TYPE p)).

Definition mount_dir_of (p : GUdevDevice) : string :=
  "/run/media/disk-updater/" +:+ device_name p.

Definition mount_succeeds (os : OS) (p : GUdevDevice) : bool :=
  match mount_result os (device_file p) (mount_dir_of p) (ID_FS_TYPE p) with
  | Ok => true
  | Err _ => false
  end.

Definition gets_mounted (os : OS) (p : GUdevDevice) : bool :=
  supported_by_os os p
  && negb (mkdir_failed (mkdir_result os (mount_dir_of p)))
  && mount_succeeds os p.

(** *** Defined behaviour *)

(** [P] holds of the result, whenever the behaviour is defined. *)
Definition when_defined {A : Type} (P : A -> Prop) (o : option A) : Prop :=
  match o with
  | Some r => P r
  | None => True
  end.

(** *** Cancellation *)

(** A poll of the cancellable that answered TRUE. *)
Definition cancel_seen (e : event) : bool :=
  match e with
  | cancel_check true => true
  | _ => false
  end.

(** Events by which discovery or selection goes on: opening or reading a
    directory, asking the installer, exporting a bundle, running the hook. *)
Definition goes_on (e : event) : bool :=
  match e with
  | dir_open _ | dir_read _ _ | call_info _ | dbus_export _ _
  | launcher_setenv _ | launcher_spawn _ | call_install _ => true
  | _ => false
  end.

Definition halted (evs : list event) : bool := forallb (fun e => negb (goes_on e)) evs.

(** From the first poll that answered TRUE on, nothing goes on. *)
Fixpoint stops_when_cancelled (evs : list event) : bool :=
  match evs with
  | [] => true
  | e :: r => if cancel_seen e then halted r else stops_when_cancelled r
  end.

(** Directory entries delivered by [g_dir_read_name], in order. *)
Definition entries_read (evs : list event) : list string :=
  flat_map (fun e => match e with dir_read path name => [path +:+ "/" +:+ name] | _ => [] end)
           evs.

(** How many of the first [polls] polls answered FALSE. *)
Definition answered_false (cancellable : GCancellable) (polls : nat) : nat :=
  match cancellable with
  | Some k => Nat.min k polls
  | None => polls
  end.

(** What every function that polls the cancellable guarantees about its
    result, given the bundles it started with and the polls made before:
    nothing goes on after a poll that answered TRUE; if a poll answered TRUE
    the cancellable stays triggered; the bundles it returns are the ones it
    was given plus exactly the ones it exported; every entry read was
    preceded by a poll of its own that answered FALSE; Info is called at most
    once per entry read. *)
Definition cancellation_respected (cancellable : GCancellable) (polls : nat)
    (given : list Bundle) (r : polled (list Bundle)) : Prop :=
  let '(bundles, _, polls', evs) := r in
  stops_when_cancelled evs = true
  /\ (existsb cancel_seen evs = true -> is_cancelled cancellable polls' = true)
  /\ (polls <= polls')%nat
  /\ map published bundles ≡ₚ map published given ++ exports evs
  /\ (length (entries_read evs) + answered_false cancellable polls
      <= answered_false cancellable polls')%nat
  /\ (length (inspects evs) <= length (entries_read evs))%nat.

(** *** Discovery order *)

(** [check_rauc_bundle] accepts the file, [sys] being the system compatible. *)
Definition is_compatible_bundle (w : World) (sys : option string) (file : string) : bool :=
  g_str_has_suffix file ".raucb"
  && match installer_info w file with
     | Some (compat, _) => g_strcmp0 sys (Some compat) =? 0
     | None => false
     end.

(** The regular files of a tree in the order the specification words: depth
    first, the entries of a directory in read order, each contributing where
    it stands. *)
Fixpoint traversal_entries_with (order : string -> node -> list string)
    (path : string) (es : list (string * node)) : list string :=
  match es with
  | [] => []
  | (name, child) :: es' =>
      let file := path +:+ "/" +:+ name in
      match child with
      | Regular => [file]
      | Dir _ => order file child
      | _ => []
      end ++ traversal_entries_with order path es'
  end.

Fixpoint traversal_order (path : string) (n : node) : list string :=
  match n with
  | Dir (Some es) => traversal_entries_with traversal_order path es
  | _ => []
  end.

(** The order the search produces, as a function of the tree alone: a regular
    file goes in front of what the directory has yielded so far, a
    subdirectory's files go behind it. *)
Fixpoint found_entries_with (order : string -> node -> list string)
    (path : string) (es : list (string * node)) (so_far : list string) : list string :=
  match es with
  | [] => so_far
  | (name, child) :: es' =>
      let file := path +:+ "/" +:+ name in
      found_entries_with order path es'
        match child with
        | Regular => file :: so_far
        | Dir _ => so_far ++ order file child
        | _ => so_far
        end
  end.

Fixpoint found_order (path : string) (n : node) : list string :=
  match n with
  | Dir (Some es) => found_entries_with found_order path es []
  | _ => []
  end.

(** The regular files under the mount points, and whether [check_rauc_bundle]
    accepts every one of them. *)
Definition files_under (w : World) (mount_points : list string) : list string :=
  flat_map (fun mp => traversal_order mp (fs_root w mp)) mount_points.

Definition only_bundles (w : World) (sys : option string) (mount_points : list string)
    : bool :=
  forallb (is_compatible_bundle w sys) (files_under w mount_points).

(** The bundle paths an uncancelled search returns; [None] when it is
    undefined. *)
Definition discovered (w : World) (mount_points : list string) (context : MainContext)
    : option (list string) :=
  match search_mount_points w None mount_points [] context 0%nat with
  | Some (bundles, _, _, _) => Some (map bundle_path bundles)
  | None => None
  end.

(** The order as worded: mount point order, then directory-entry order. *)
Definition discovered_in_traversal_order : Prop :=
  forall (w : World) (mount_points : list string) (context : MainContext)
         (found : list string),
    discovered w mount_points context = Some found ->
    found = files_under w mount_points.

(** *** The debounce check *)

(** A disk the debounce check would hand to the worker at time [now]. *)
Definition initialized_long_enough (disk : Disk) (now : Z) : bool :=
  negb (attached disk) && (UDEV_TIMEOUT <? g_timer_elapsed disk now).

(** The monitor after the debounce check promoted the disk at [a]. *)
Definition promoted (self : UdevMonitor) (a : addr) (disk : Disk) : UdevMonitor :=
  {| disks := disks self;
     process_device_queue := process_device_queue self ++ [JobDisk a];
     heap := <[a := set_attached true disk]> (heap self);
     next_addr := next_addr self; timeouts := timeouts self |}.

(** The monitor after a partition was added to the unattached disk at [a]. *)
Definition partition_added (self : UdevMonitor) (a : addr) (disk : Disk)
    (device : GUdevDevice) (now : Z) : UdevMonitor :=
  {| disks := disks self;
     process_device_queue := process_device_queue self;
     heap := <[a := {| attached := false; gudev_device := gudev_device disk;
                       cancellable := cancellable disk;
                       partitions := device :: partitions disk;
                       mount_points := mount_points disk;
                       initialized := now |}]> (heap self);
     next_addr := next_addr self; timeouts := timeouts self |}.

(** Every table entry points to a live [Disk]. *)
Definition table_live (self : UdevMonitor) : Prop :=
  forall id a, disks self !! id = Some a -> is_Some (heap self !! a).

(** What holds of every monitor state the program can reach: table entries
    point to live disks, no two of them to the same one; addresses in use lie
    below the next one to be allocated; a disk that is both in the table and
    in the queue is flagged attached, so the worker will mount it, not free
    it. *)
Record monitor_consistent (self : UdevMonitor) : Prop := {
  consistent_live : table_live self;
  consistent_table_inj :
    forall id1 id2 a, disks self !! id1 = Some a -> disks self !! id2 = Some a -> id1 = id2;
  consistent_heap_below :
    forall a disk, heap self !! a = Some disk -> (a < next_addr self)%nat;
  consistent_queue_below :
    forall a, In (JobDisk a) (process_device_queue self) -> (a < next_addr self)%nat;
  consistent_queued_attached :
    forall id a disk, disks self !! id = Some a -> heap self !! a = Some disk ->
                      In (JobDisk a) (process_device_queue self) -> attached disk = true
}.

(** A block device of type "partition". *)
Definition block_partition (id name : string) (fstype : option string) : GUdevDevice :=
  {| subsystem := Some "block"%string; DEVTYPE := Some "partition"%string;
     ID_PART_TABLE_UUID := id; device_file := "/dev/" +:+ name;
     device_name := name; ID_FS_TYPE := fstype |}.

(** What the main loop sees while disks settle: partitions arriving and
    timeout sources firing. *)
Inductive settling :=
| PartitionAdd (now : Z) (id name : string) (fstype : option string)
| Tick (now : Z).

Definition settle_step (os : OS) (self : UdevMonitor) (e : settling)
    : option UdevMonitor :=
  match e with
  | PartitionAdd now id name fstype =>
      fst <$> on_uevent os self now (Some "add"%string) (block_partition id name fstype)
  | Tick now => timeout_dispatch self now
  end.

Fixpoint settle (os : OS) (self : UdevMonitor) (l : list settling)
    : option UdevMonitor :=
  match l with
  | [] => Some self
  | e :: r =>
      match settle_step os self e with
      | None => None
      | Some self' => settle os self' r
      end
  end.

(** The debounce property as worded, in its simplest case: one known,
    unattached disk, one partition-add at time [last], then nothing for
    [quiet], at least the window, and a debounce check at the end of that
    quiet period. As worded the disk is attached then. *)
Definition attached_after_quiet_period_of_window : Prop :=
  forall (os : OS) (self : UdevMonitor) (id name : string) (fstype : option string)
         (a : addr) (disk : Disk) (last quiet : Z),
    disks self = {[ id := a ]} ->
    heap self !! a = Some disk ->
    attached disk = false ->
    (0 < timeouts self)%nat ->
    UDEV_TIMEOUT <= quiet ->
    exists self',
      settle os self [PartitionAdd last id name fstype; Tick (last + quiet)] = Some self'
      /\ attached <$> (heap self' !! a) = Some true.

(** The specification's wording "read once from a well-known system file",
    taken for one mount job. *)
Definition filesystems_file_read_once : Prop :=
  forall (os : OS) (l : list GUdevDevice) (disk : Disk),
    (reads (snd (mount_partitions os l disk)) <= 1)%nat.

(** *** Removal *)

(** Removal as the specification words it, for the states the daemon can
    reach: a remove event for a known disk produces a detach notification,
    once the worker has made enough passes. *)
Definition every_remove_produces_detach : Prop :=
  forall (os : OS) (w : World) (sys : option string) (l : list step) (d : Daemon)
         (evs : list event) (now : Z) (device : GUdevDevice) (a : addr) (disk : Disk),
    daemon_run os w (daemon_start sys) l = Some (d, evs) ->
    subsystem device = Some "block"%string ->
    disks (monitor d) !! DISK_ID device = Some a ->
    heap (monitor d) !! a = Some disk ->
    exists (passes : nat) (d' : Daemon) (evs' : list event),
      daemon_run os w d (Uevent now "remove" device :: repeat Worker passes) = Some (d', evs')
      /\ In (emit_detach (gudev_device disk)) evs'.

End Observe.

(* ===================================================================== *)
(** * Concrete devices, worlds and runs used below *)
(* ===================================================================== *)

Module Sample.
Import Glib Udev Updater Daemon Observe.

Definition bundle (n : Z) (path version : string) : Bundle :=
  {| bundle_path := path; bundle_version := version; object_number := n |}.

Definition three_bundles : list Bundle :=
  [bundle 3 "/run/media/disk-updater/sda1/c.raucb" "3.0";
   bundle 2 "/run/media/disk-updater/sda1/b.raucb" "2.0";
   bundle 1 "/run/media/disk-updater/sda1/a.raucb" "1.0"].

(** A world whose hook exits with [status] and whose installer accepts
    everything reporting compatible "sys-A". *)
Definition world (script : option string) (status : Z)
    (root : string -> node) (cancel : GCancellable) : World :=
  {| script_file := script;
     installer_info := fun _ => Some ("sys-A"%string, "1.0"%string);
     installer_install := fun _ => true;
     fs_root := root;
     hook := fun _ => HookExited status;
     worker_cancel := cancel |}.

(** A world whose installer cannot verify any file. *)
Definition world_unverified (root : string -> node) : World :=
  {| script_file := None;
     installer_info := fun _ => None;
     installer_install := fun _ => true;
     fs_root := root;
     hook := fun _ => HookExited 0;
     worker_cancel := None |}.

Definition no_files : string -> node := fun _ => Dir (Some []).

(** A mount point holding a text file beside the bundle. *)
Definition readme_and_bundle : string -> node := fun _ =>
  Dir (Some [("README.txt"%string, Regular); ("update.raucb"%string, Regular)]).

(** A mount point holding a.raucb, a directory with c.raucb, and b.raucb, read
    in that order. *)
Definition three_files : string -> node := fun _ =>
  Dir (Some [("a.raucb"%string, Regular);
             ("sub"%string, Dir (Some [("c.raucb"%string, Regular)]));
             ("b.raucb"%string, Regular)]).

Definition disk_device (id name : string) : GUdevDevice :=
  {| subsystem := Some "block"%string; DEVTYPE := Some "disk"%string;
     ID_PART_TABLE_UUID := id; device_file := "/dev/" +:+ name;
     device_name := name; ID_FS_TYPE := None |}.

Definition partition_device (id name fstype : string) : GUdevDevice :=
  Observe.block_partition id name (Some fstype).

Definition tab : string := String "009" EmptyString.
Definition newline : string := String "010" EmptyString.

(** A /proc/filesystems with one "nodev" line and two mountable types. *)
Definition proc_filesystems : string :=
  "nodev" +:+ tab +:+ "sysfs" +:+ newline
  +:+ tab +:+ "vfat" +:+ newline
  +:+ tab +:+ "ext4" +:+ newline.

(** An operating system on which every syscall succeeds. *)
Definition os_ok : OS :=
  {| file_contents := fun f =>
       if String.eqb f "/proc/filesystems" then Some proc_filesystems else None;
     mkdir_result := fun _ => Ok;
     mount_result := fun _ _ _ => Ok;
     umount2_result := fun _ => Ok |}.

(** The disk record of stick A, and a monitor that knows just this disk. *)
Definition disk_sda (is_attached : bool) (mps : list string) (start : Z) : Disk :=
  {| attached := is_attached; gudev_device := disk_device "uuid-a" "sda";
     cancellable := false; partitions := []; mount_points := mps;
     initialized := start |}.

Definition monitor_with (disk : Disk) (queue : list job) : UdevMonitor :=
  {| disks := {[ "uuid-a"%string := 0%nat ]}; process_device_queue := queue;
     heap := {[ 0%nat := disk ]}; next_addr := 1%nat; timeouts := 1%nat |}.

(** Two sticks, each with one vfat partition, and a mount point content with
    one compatible bundle. *)
Definition sda : GUdevDevice := disk_device "uuid-a" "sda".
Definition sda1 : GUdevDevice := partition_device "uuid-a" "sda1" "vfat".
Definition sdb : GUdevDevice := disk_device "uuid-b" "sdb".
Definition sdc : GUdevDevice := disk_device "uuid-c" "sdc".
Definition sdc1 : GUdevDevice := partition_device "uuid-c" "sdc1" "vfat".

Definition one_bundle : string -> node := fun _ =>
  Dir (Some [("update.raucb"%string, Regular)]).

Definition hookless : World := world None 0 one_bundle None.

(** Stick A is attached and its bundle published; stick B is plugged in and
    pulled again before its debounce check; then stick C is attached. *)
Definition a_attached : list step :=
  [Uevent 0 "add" sda; Uevent 100000 "add" sda1; Timeout 2000000; Worker].

Definition b_plugged_and_pulled : list step :=
  [Uevent 3000000 "add" sdb; Uevent 3500000 "remove" sdb; Worker].

Definition c_attached : list step :=
  [Uevent 5000000 "add" sdc; Uevent 5100000 "add" sdc1; Timeout 7000000; Worker].

Definition a_pulled : list step :=
  [Uevent 9000000 "remove" sda; Worker].

(** Stick A is pulled after its debounce check and before the worker took
    the mount job, and the worker makes one pass; then stick B is plugged
    in. *)
Definition a_pulled_early_then_b : list step :=
  [Uevent 0 "add" sda; Timeout 2000000; Uevent 2000001 "remove" sda; Worker;
   Uevent 3000000 "add" sdb].

(** An attached disk with two partitions whose mount job is queued. *)
Definition two_partitions : list GUdevDevice :=
  [partition_device "uuid-a" "sda2" "ext4"; partition_device "uuid-a" "sda1" "vfat"].

Definition disk_two_partitions : Disk :=
  {| attached := true; gudev_device := disk_device "uuid-a" "sda";
     cancellable := false; partitions := two_partitions; mount_points := [];
     initialized := 0 |}.

Definition mount_pending : Daemon :=
  {| monitor := monitor_with disk_two_partitions [JobDisk 0%nat];
     context := main_context (Some "sys-A"%string) |}.

(** A removed disk with two mount points whose unmount job is queued. *)
Definition unmount_pending : Daemon :=
  {| monitor :=
       {| disks := ∅; process_device_queue := [JobDisk 0%nat];
          heap := {[ 0%nat := disk_sda false ["/run/media/disk-updater/sda2"%string;
                                              "/run/media/disk-updater/sda1"%string] 0 ]};
          next_addr := 1%nat; timeouts := 0%nat |};
     context := main_context (Some "sys-A"%string) |}.

End Sample.

(* ===================================================================== *)
(** * Further observations *)
(* ===================================================================== *)

Module Further.
Import Glib Udev Updater Daemon Observe.

(** Events the bundle search itself can produce. *)
Definition search_event (e : event) : bool :=
  match e with
  | cancel_check _ | dir_open _ | dir_read _ _ | dir_close _ | call_info _
  | g_warning _ | g_message _ | dbus_export _ _ => true
  | _ => false
  end.

(** The values [++bundle_dbus_count] takes in [n] successive exports when it
    starts at [c]. *)
Fixpoint counter_values (c : Z) (n : nat) : list Z :=
  match n with
  | O => []
  | S n' => guint_incr c :: counter_values (guint_incr c) n'
  end.

(** What a search leaves of the context and how it numbers its exports: only
    the bundle counter moves, once per export, and the exports carry its
    successive values. *)
Definition search_effect (context : MainContext) (r : polled (list Bundle)) : Prop :=
  let '(_, context', _, evs) := r in
  forallb search_event evs = true
  /\ compatible context' = compatible context
  /\ device_count context' = device_count context
  /\ bundles_by_disk context' = bundles_by_disk context
  /\ bundle_dbus_count context'
     = Nat.iter (length (exports evs)) guint_incr (bundle_dbus_count context)
  /\ map fst (exports evs)
     = map printf_d (counter_values (bundle_dbus_count context) (length (exports evs))).

(** The status strings set on the root object, in order. *)
Definition statuses (evs : list event) : list string :=
  flat_map (fun e => match e with set_status s => [s] | _ => [] end) evs.

(** How often the hook was spawned. *)
Definition spawns (evs : list event) : nat :=
  length (flat_map (fun e => match e with launcher_spawn _ => [e] | _ => [] end) evs).

(** The mount points of the disks in the table, in the table's iteration
    order. *)
Definition table_mount_points (self : UdevMonitor) : list string :=
  flat_map (fun ka : string * addr =>
              match heap self !! ka.2 with
              | Some disk => mount_points disk
              | None => []
              end) (map_to_list (disks self)).

(** The address is the value of some table entry. *)
Definition in_table (self : UdevMonitor) (a : addr) : Prop :=
  exists id, disks self !! id = Some a.

(** Events of the monitor alone: reading the filesystems file, the syscalls
    and the two signals. *)
Definition monitor_event (e : event) : bool :=
  match e with
  | read_file _ | sys_mkdir _ | sys_mount _ _ _ | sys_umount2 _
  | emit_attach _ _ | emit_detach _ => true
  | _ => false
  end.

(** The directories on which a [mount] succeeded, in order, and the
    directories [umount2] was called on, in order. *)
Definition mounted_dirs (os : OS) (evs : list event) : list string :=
  flat_map (fun e => match e with
                     | sys_mount src dir type =>
                         match mount_result os src dir type with
                         | Ok => [dir]
                         | Err _ => []
                         end
                     | _ => []
                     end) evs.

Definition unmounted_dirs (evs : list event) : list string :=
  flat_map (fun e => match e with sys_umount2 dir => [dir] | _ => [] end) evs.

(** A bundle as [check_rauc_bundle] accepts it when the system compatible is
    [sys]: the path ends with ".raucb", and Info on that path reports the
    system's compatible and the bundle's version. *)
Definition bundle_accepted (w : World) (sys : option string) (b : Bundle) : Prop :=
  g_str_has_suffix (bundle_path b) ".raucb" = true
  /\ exists compat, installer_info w (bundle_path b) = Some (compat, bundle_version b)
                    /\ sys = Some compat.

(** The table entry points to a live disk that is not attached. *)
Definition waits (hp : gmap addr Disk) (e : string * addr) : bool :=
  match hp !! snd e with
  | Some disk => negb (attached disk)
  | None => false
  end.

(** Every live [Disk] is reachable: through the table, or it is flagged
    unattached and a job for it is queued, which will free it. *)
Definition no_disk_lost (self : UdevMonitor) : Prop :=
  forall a disk, heap self !! a = Some disk ->
                 in_table self a
                 \/ (In (JobDisk a) (process_device_queue self) /\ attached disk = false).


(** The mount points recorded in the live disks. *)
Definition recorded_mount_points (hp : gmap addr Disk) : list string :=
  flat_map (fun e : addr * Disk => mount_points e.2) (map_to_list hp).

(** Events [run_hook_install] can produce. *)
Definition hook_event (e : event) : bool :=
  match e with
  | launcher_setenv _ | launcher_spawn _ | subprocess_force_exit | call_install _
  | g_warning _ | g_message _ => true
  | _ => false
  end.

(** The environment of the hook as the protocol describes it: for the bundle
    at 1-based position [n] its path and version, then the count. *)
Fixpoint numbered_environment (bundles : list Bundle) (n : Z) : list env_var :=
  match bundles with
  | [] => []
  | b :: rest =>
      BUNDLE_PATH_ n (bundle_path b) :: BUNDLE_VERSION_ n (bundle_version b)
      :: numbered_environment rest (n + 1)
  end.

(** A partition-add as the main loop sees it, and the device it carries. *)
Definition arrival : Type := Z * string * option string.

Definition arrival_event (id : string) (x : arrival) : settling :=
  let '(now, name, fstype) := x in PartitionAdd now id name fstype.

Definition arrival_device (id : string) (x : arrival) : GUdevDevice :=
  let '(_, name, fstype) := x in block_partition id name fstype.

(** The table's disks that are not attached yet. *)
Definition unattached_disks (self : UdevMonitor) : list string :=
  map fst
      (List.filter (fun e : string * addr =>
                      match heap self !! snd e with
                      | Some disk => negb (attached disk)
                      | None => false
                      end)
                   (map_to_list (disks self))).

End Further.

(* ===================================================================== *)
(** * Properties *)
(* ===================================================================== *)

Import Glib Udev Updater Daemon Observe.

(** ** Strings *)

Lemma append_nil (b : string) : EmptyString +:+ b = b.
Proof. reflexivity. Qed.

Lemma append_cons (x : ascii) (a b : string) : String x a +:+ b = String x (a +:+ b).
Proof. reflexivity. Qed.

Ltac str_simpl := rewrite ?append_cons, ?append_nil in *.

Lemma append_assoc (a b c : string) : (a +:+ b) +:+ c = a +:+ (b +:+ c).
Proof. induction a as [|x a IH]; str_simpl; [reflexivity | now rewrite IH]. Qed.

Lemma append_length (a b : string) :
  String.length (a +:+ b) = (String.length a + String.length b)%nat.
Proof. induction a as [|x a IH]; str_simpl; simpl; [reflexivity | now rewrite IH]. Qed.

Lemma str_offset_append (a b : string) : str_offset (String.length a) (a +:+ b) = b.
Proof. induction a as [|x a IH]; str_simpl; simpl; [reflexivity | exact IH]. Qed.

Lemma str_offset_split (n : nat) (s : string) :
  (n <= String.length s)%nat -> exists pre, s = pre +:+ str_offset n s.
Proof.
  revert s; induction n as [|n IH]; intros s Hn.
  - exists EmptyString. reflexivity.
  - destruct s as [|c s]; simpl in Hn; [lia|].
    destruct (IH s) as [pre Hpre]; [lia|].
    exists (String c pre). str_simpl. simpl. now rewrite <- Hpre.
Qed.

(** [g_str_has_suffix] answers TRUE exactly for the strings that end with the
    suffix. *)
Lemma g_str_has_suffix_iff (s suf : string) :
  g_str_has_suffix s suf = true <-> exists pre, s = pre +:+ suf.
Proof.
  unfold g_str_has_suffix. split.
  - destruct (Nat.ltb_spec (String.length s) (String.length suf)) as [|Hle]; [discriminate|].
    intros Heq. apply String.eqb_eq in Heq.
    destruct (str_offset_split (String.length s - String.length suf) s) as [pre Hpre]; [lia|].
    exists pre. now rewrite <- Heq.
  - intros [pre ->]. rewrite append_length.
    destruct (Nat.ltb_spec (String.length pre + String.length suf) (String.length suf)); [lia|].
    replace (String.length pre + String.length suf - String.length suf)%nat
      with (String.length pre) by lia.
    rewrite str_offset_append. apply String.eqb_refl.
Qed.

Lemma append_eq_split (a b c d : string) :
  a +:+ b = c +:+ d ->
  (exists k, b = k +:+ d) \/ (exists k, d = k +:+ b /\ k <> EmptyString).
Proof.
  revert c; induction a as [|x a IH]; intros c Heq; str_simpl.
  - left. exists c. exact Heq.
  - destruct c as [|y c]; str_simpl.
    + right. exists (String x a). split; [now rewrite <- Heq | discriminate].
    + injection Heq as _ Heq. exact (IH c Heq).
Qed.

(** The walk tests the suffix on [path/name]; since the suffix holds no
    slash, that is the same as testing it on the name. *)
Lemma raucb_suffix_of_file (path name : string) :
  g_str_has_suffix (path +:+ "/" +:+ name) ".raucb" = g_str_has_suffix name ".raucb".
Proof.
  apply eq_true_iff_eq. rewrite !g_str_has_suffix_iff. split.
  - intros [pre Hpre]. apply append_eq_split in Hpre as [[k Hk] | [k [Hk Hne]]].
    + destruct k as [|c k]; str_simpl; [discriminate|].
      injection Hk as _ Hk. now exists k.
    + exfalso.
      do 7 (destruct k as [|? k]; str_simpl; try congruence;
            try (injection Hk as _ Hk)); try discriminate.
  - intros [pre ->]. exists (path +:+ "/" +:+ pre).
    now rewrite !append_assoc.
Qed.

Lemma string_compare_refl (x : string) : String.compare x x = Eq.
Proof.
  pose proof (String.compare_antisym x x) as H.
  destruct (String.compare x x); simpl in H; congruence.
Qed.

Lemma g_strcmp0_eq (a b : option string) : g_strcmp0 a b = 0 <-> a = b.
Proof.
  destruct a as [x|], b as [y|]; simpl; try (split; [lia | discriminate]); [|tauto].
  destruct (String.compare x y) eqn:Hc.
  - apply String.compare_eq_iff in Hc. subst. tauto.
  - split; [lia|]. intros [= ->]. rewrite string_compare_refl in Hc. discriminate.
  - split; [lia|]. intros [= ->]. rewrite string_compare_refl in Hc. discriminate.
Qed.

Lemma g_strcmp0_eqb (a b : option string) : (g_strcmp0 a b =? 0) = true <-> a = b.
Proof. rewrite Z.eqb_eq. apply g_strcmp0_eq. Qed.

(** ** The filesystems file *)

Example g_strsplit_lines :
  g_strsplit ("nodev sysfs" +:+ Sample.newline +:+ "ext4" +:+ Sample.newline) "010"
  = ["nodev sysfs"%string; "ext4"%string; EmptyString].
Proof. reflexivity. Qed.

Example g_strstrip_tab :
  g_strstrip (g_strdelimit (Sample.tab +:+ "vfat ") (" " +:+ Sample.tab) " ") = "vfat"%string.
Proof. reflexivity. Qed.

Lemma split_pieces_not_nil (d : ascii) (s : string) : split_pieces d s <> [].
Proof.
  induction s as [|c r IH]; cbn [split_pieces]; [discriminate|].
  destruct (Ascii.eqb c d); [discriminate|].
  destruct (split_pieces d r); [contradiction | discriminate].
Qed.

Lemma split_pieces_single (d : ascii) (s tok : string) :
  split_pieces d s = [tok] -> s = tok.
Proof.
  revert tok; induction s as [|c r IH]; intros tok; cbn [split_pieces].
  - now intros [= <-].
  - destruct (Ascii.eqb c d).
    + intros [= _ Hr]. now destruct (split_pieces_not_nil d r).
    + destruct (split_pieces d r) as [|h t] eqn:Hr;
        [now destruct (split_pieces_not_nil d r)|].
      intros [= <- ->]. now rewrite (IH h eq_refl).
Qed.

(** A line names a type only if, tabs read as blanks and white space
    stripped at both ends, it is that type and nothing else. *)
Lemma line_names_fstype_stripped (fstype : option string) (line : string) :
  line_names_fstype fstype line = true ->
  fstype = Some (g_strstrip (g_strdelimit line (" " +:+ Sample.tab) " ")).
Proof.
  unfold line_names_fstype.
  change (String " " (String "009" "")) with (" " +:+ Sample.tab).
  set (stripped := g_strstrip (g_strdelimit line (" " +:+ Sample.tab) " ")).
  destruct (g_strsplit stripped " ") as [|tok [|]] eqn:Hsplit; try discriminate.
  intros Hcmp. apply g_strcmp0_eqb in Hcmp. subst fstype. f_equal.
  unfold g_strsplit in Hsplit. destruct stripped as [|c r] eqn:Hs; [discriminate|].
  symmetry. now apply (split_pieces_single " ").
Qed.

(** Only a line that consists of the type alone names it: "nodev" lines do
    not, and a partition without [ID_FS_TYPE] is never supported. *)
Example is_in_filesystem_file_sample :
  fst (is_in_filesystem_file Sample.os_ok "/proc/filesystems" (Some "vfat"%string)) = true
  /\ fst (is_in_filesystem_file Sample.os_ok "/proc/filesystems" (Some "sysfs"%string)) = false
  /\ fst (is_in_filesystem_file Sample.os_ok "/proc/filesystems" (Some "ntfs"%string)) = false
  /\ fst (is_in_filesystem_file Sample.os_ok "/proc/filesystems" None) = false.
Proof. repeat split; reflexivity. Qed.

(** ** Bundle validation *)

Lemma check_rauc_bundle_some (w : World) (context : MainContext) (file : string)
    (b : Bundle) (context' : MainContext) (evs : list event) :
  check_rauc_bundle w context file = Some (b, context', evs) ->
  g_str_has_suffix file ".raucb" = true
  /\ (exists compat, installer_info w file = Some (compat, bundle_version b)
                     /\ compatible context = Some compat)
  /\ bundle_path b = file
  /\ object_number b = printf_d (guint_incr (bundle_dbus_count context))
  /\ context' = set_bundle_dbus_count (guint_incr (bundle_dbus_count context)) context
  /\ exports evs = [published b]
  /\ inspects evs = [file].
Proof.
  unfold check_rauc_bundle.
  destruct (g_str_has_suffix file ".raucb"); simpl; [|discriminate].
  destruct (installer_info w file) as [[compat version]|]; [|discriminate].
  destruct (g_strcmp0 (compatible context) (Some compat) =? 0) eqn:Hc; simpl; [|discriminate].
  intros [= <- <- <-]. apply g_strcmp0_eqb in Hc.
  repeat split; try reflexivity. exists compat. split; [reflexivity | exact Hc].
Qed.

(** The behaviour is defined exactly for the files that pass the three
    tests. *)
Lemma check_rauc_bundle_defined (w : World) (context : MainContext) (file : string) :
  is_Some (check_rauc_bundle w context file)
  <-> is_compatible_bundle w (compatible context) file = true.
Proof.
  unfold check_rauc_bundle, is_compatible_bundle.
  destruct (g_str_has_suffix file ".raucb"); cbn [negb andb].
  2:{ split; [intros [x [=]] | discriminate]. }
  destruct (installer_info w file) as [[compat version]|].
  2:{ split; [intros [x [=]] | discriminate]. }
  destruct (g_strcmp0 (compatible context) (Some compat) =? 0); cbn [negb].
  - split; [reflexivity | eauto].
  - split; [intros [x [=]] | discriminate].
Qed.

Lemma check_rauc_bundle_undefined (w : World) (context : MainContext) (file : string) :
  check_rauc_bundle w context file = None
  <-> is_compatible_bundle w (compatible context) file = false.
Proof.
  pose proof (check_rauc_bundle_defined w context file) as H.
  destruct (check_rauc_bundle w context file) as [r|];
    destruct (is_compatible_bundle w (compatible context) file).
  - split; discriminate.
  - exfalso. assert (Hs : is_Some (Some r)) by eauto. apply H in Hs. discriminate.
  - exfalso. destruct (proj2 H eq_refl) as [x [=]].
  - split; reflexivity.
Qed.

Lemma is_compatible_bundle_iff (w : World) (sys : option string) (file : string) :
  is_compatible_bundle w sys file = true
  <-> g_str_has_suffix file ".raucb" = true
      /\ exists compat version, installer_info w file = Some (compat, version)
                                /\ sys = Some compat.
Proof.
  unfold is_compatible_bundle.
  destruct (g_str_has_suffix file ".raucb"); cbn [andb].
  2:{ split; [discriminate | intros [[=] _]]. }
  destruct (installer_info w file) as [[compat version]|].
  - split.
    + intros Hc. apply g_strcmp0_eqb in Hc. split; [reflexivity|]. now exists compat, version.
    + intros (_ & compat' & version' & [= <- <-] & ->). apply g_strcmp0_eqb. reflexivity.
  - split; [discriminate | intros (_ & compat & version & [=] & _)].
Qed.

(** C7. A regular file met by the walk is handed to [check_rauc_bundle]; the
    file becomes a bundle, exported on D-Bus under its path, exactly when its
    name ends with ".raucb", Info succeeds and reports the system's
    compatible string. For every other file the code does not return "no
    bundle": each of the three rejecting exits jumps to [out:] and frees the
    uninitialised [interface_path], so [check_rauc_bundle] is undefined
    there, and with it the walk that met the file and [on_attach]. *)
Theorem C7_rejecting_exits_are_undefined
    (w : World) (context : MainContext) (path name : string) :
  let file := path +:+ "/" +:+ name in
  (* accepted, and then defined, iff suffix, Info and compatible agree *)
  (is_Some (check_rauc_bundle w context file)
   <-> g_str_has_suffix name ".raucb" = true
       /\ exists compat version, installer_info w file = Some (compat, version)
                                 /\ compatible context = Some compat)
  /\ (forall b context' evs,
        check_rauc_bundle w context file = Some (b, context', evs) ->
        bundle_path b = file /\ exports evs = [published b] /\ inspects evs = [file])
  (* the walk hands a regular directory entry to check_rauc_bundle *)
  /\ match check_rauc_bundle w context file with
     | Some (b, _, _) =>
         exists c p e,
           find_rauc_bundles w None path (Dir (Some [(name, Regular)])) context 0%nat
           = Some ([b], c, p, e)
     | None =>
         find_rauc_bundles w None path (Dir (Some [(name, Regular)])) context 0%nat = None
     end
  (* the three rejecting exits, and a walk that meets one of them *)
  /\ check_rauc_bundle (Sample.world None 0 Sample.readme_and_bundle None)
                       (main_context (Some "sys-A"%string)) "/mnt/README.txt" = None
  /\ check_rauc_bundle (Sample.world_unverified Sample.one_bundle)
                       (main_context (Some "sys-A"%string)) "/mnt/update.raucb" = None
  /\ check_rauc_bundle (Sample.world None 0 Sample.one_bundle None)
                       (main_context (Some "sys-B"%string)) "/mnt/update.raucb" = None
  /\ on_attach (Sample.world None 0 Sample.readme_and_bundle None) None Sample.sda
               ["/mnt"%string] (main_context (Some "sys-A"%string)) = None.
Proof.
  intros file. split; [|split; [|split]].
  - rewrite check_rauc_bundle_defined, is_compatible_bundle_iff.
    unfold file. now rewrite raucb_suffix_of_file.
  - intros b context' evs Hcheck.
    apply check_rauc_bundle_some in Hcheck as (_ & _ & Hpath & _ & _ & Hexp & Hins).
    auto.
  - cbn [find_rauc_bundles read_entries_with is_cancelled]. fold file.
    destruct (check_rauc_bundle w context file) as [[[b c1] e1]|]; [|reflexivity].
    cbn [is_cancelled]. now eexists _, _, _.
  - repeat split; reflexivity.
Qed.

(** ** The install hook *)

Lemma installs_app (a b : list event) : installs (a ++ b) = installs a ++ installs b.
Proof. unfold installs. apply flat_map_app. Qed.

Lemma installs_setenv (env : list env_var) : installs (map launcher_setenv env) = [].
Proof. induction env as [|v env IH]; [reflexivity | exact IH]. Qed.

Lemma guint_incr_small (c : Z) : 0 <= c < 2 ^ 31 -> guint_incr c = c + 1.
Proof.
  intros H. unfold guint_incr, guint_wrap, GUINT_MODULUS.
  apply Z.mod_small. lia.
Qed.

Lemma printf_d_small (c : Z) : c < 2 ^ 31 -> printf_d c = c.
Proof.
  intros H. unfold printf_d. destruct (Z.ltb_spec c (2 ^ 31)); [reflexivity | lia].
Qed.

(** The bundle at 0-based position [i] is announced as [BUNDLE_PATH_<i+1>]. *)
Lemma hook_environment_path (bundles : list Bundle) (c : Z) (i : nat) (b : Bundle) :
  0 <= c -> c + Z.of_nat i + 1 < 2 ^ 31 ->
  nth_error bundles i = Some b ->
  In (BUNDLE_PATH_ (c + Z.of_nat i + 1) (bundle_path b)) (snd (hook_environment bundles c)).
Proof.
  revert c i; induction bundles as [|x bundles IH]; intros c i Hc Hi Hnth.
  - destruct i; discriminate.
  - simpl. destruct (hook_environment bundles (guint_incr c)) as [final env] eqn:Henv.
    rewrite guint_incr_small in * by lia. simpl.
    destruct i as [|i]; simpl in Hnth.
    + injection Hnth as ->. left. rewrite printf_d_small by lia.
      f_equal. lia.
    + right; right. specialize (IH (c + 1) i). rewrite Henv in IH. simpl in IH.
      replace (c + Z.of_nat (S i) + 1) with (c + 1 + Z.of_nat i + 1) by lia.
      apply IH; [lia | lia | exact Hnth].
Qed.

(** C1. With a hook configured and a non-empty bundle list, exit status 0
    installs nothing; an exit status [s] from 1 to the number of bundles
    installs exactly once, namely the bundle at 1-based position [s] of the
    list, whose path was announced as [BUNDLE_PATH_<s>]; any larger status
    logs "Bundle index out of bounds" and installs nothing. *)
Theorem C1_hook_exit_status
    (w : World) (script : string) (bundles : list Bundle) (s : Z) :
  script_file w = Some script ->
  bundles <> [] ->
  hook w (launcher_environment bundles) = HookExited s ->
  0 <= s < 2 ^ 31 ->
  let evs := run_hook_install w bundles in
  (s = 0 -> installs evs = [])
  /\ (1 <= s <= Z.of_nat (length bundles) ->
      exists b, nth_error bundles (Z.to_nat (s - 1)) = Some b
                /\ installs evs = [bundle_path b]
                /\ In (launcher_setenv (BUNDLE_PATH_ s (bundle_path b))) evs)
  /\ (Z.of_nat (length bundles) < s ->
      installs evs = [] /\ In (g_warning "Bundle index out of bounds") evs).
Proof.
  intros Hscript Hne Hhook Hs evs. subst evs. unfold run_hook_install.
  rewrite Hscript. destruct bundles as [|b0 rest] eqn:Hb; [congruence|].
  rewrite <- Hb in *. rewrite Hhook.
  assert (Hwrap : 1 <= s -> guint_wrap (s - 1) = s - 1).
  { intros H1. unfold guint_wrap, GUINT_MODULUS. apply Z.mod_small. lia. }
  split; [|split].
  - intros ->. simpl. rewrite installs_app, installs_setenv. reflexivity.
  - intros [H1 Hlen].
    destruct (Z.eqb_spec s 0) as [|_]; [lia|].
    unfold g_slist_nth_data. rewrite Hwrap by lia.
    destruct (nth_error bundles (Z.to_nat (s - 1))) as [b|] eqn:Hnth.
    2:{ apply nth_error_None in Hnth. lia. }
    exists b. split; [reflexivity|]. split.
    + rewrite installs_app, installs_setenv. simpl.
      now destruct (installer_install w (bundle_path b)).
    + apply in_or_app. left. apply in_map. unfold launcher_environment.
      pose proof (hook_environment_path bundles 0 (Z.to_nat (s - 1)) b) as Hin.
      destruct (hook_environment bundles 0) as [ctr env]. simpl in Hin.
      apply in_or_app. left.
      replace (0 + Z.of_nat (Z.to_nat (s - 1)) + 1) with s in Hin by lia.
      apply Hin; [lia | lia | exact Hnth].
  - intros Hlen.
    destruct (Z.eqb_spec s 0) as [|_]; [lia|].
    unfold g_slist_nth_data. rewrite Hwrap by lia.
    destruct (nth_error bundles (Z.to_nat (s - 1))) as [b|] eqn:Hnth.
    { assert (nth_error bundles (Z.to_nat (s - 1)) <> None) as Hsome by congruence.
      apply nth_error_Some in Hsome. lia. }
    split.
    + rewrite installs_app, installs_setenv. reflexivity.
    + apply in_or_app. right. right. left. reflexivity.
Qed.

Lemma C1_hook_exit_status_witness :
  let w := Sample.world (Some "/usr/bin/hook"%string) 2 Sample.no_files None in
  let evs := run_hook_install w Sample.three_bundles in
  (2 = 0 -> installs evs = [])
  /\ (1 <= 2 <= Z.of_nat (length Sample.three_bundles) ->
      exists b, nth_error Sample.three_bundles (Z.to_nat (2 - 1)) = Some b
                /\ installs evs = [bundle_path b]
                /\ In (launcher_setenv (BUNDLE_PATH_ 2 (bundle_path b))) evs)
  /\ (Z.of_nat (length Sample.three_bundles) < 2 ->
      installs evs = [] /\ In (g_warning "Bundle index out of bounds") evs).
Proof.
  apply (C1_hook_exit_status
           (Sample.world (Some "/usr/bin/hook"%string) 2 Sample.no_files None)
           "/usr/bin/hook" Sample.three_bundles 2).
  - reflexivity.
  - discriminate.
  - reflexivity.
  - lia.
Defined.

(** ** Partition events that are dropped *)

(** C8. A partition-add event whose disk is not in the table, or is in the
    table and already attached, changes nothing in the monitor: no partition
    list, no timer, no table entry, no queue entry; it logs one warning. *)
Theorem C8_ignored_partition_changes_nothing
    (os : OS) (self : UdevMonitor) (now : Z) (device : GUdevDevice) :
  subsystem device = Some "block"%string ->
  DEVTYPE device = Some "partition"%string ->
  (disks self !! DISK_ID device = None
   \/ exists a disk, disks self !! DISK_ID device = Some a
                     /\ heap self !! a = Some disk /\ attached disk = true) ->
  on_uevent os self now (Some "add"%string) device
  = Some (self, [g_warning "Ignore partition due to udev timeout"]).
Proof.
  intros Hsub Hdev Hdisk. unfold on_uevent. rewrite Hsub, Hdev. simpl.
  destruct Hdisk as [Hnone | (a & disk & Ha & Hheap & Hatt)].
  - now rewrite Hnone.
  - now rewrite Ha, Hheap, Hatt.
Qed.

Lemma C8_ignored_partition_changes_nothing_witness :
  let self := Sample.monitor_with (Sample.disk_sda true [] 0) [] in
  let device := Sample.partition_device "uuid-a" "sda1" "vfat" in
  (exists a disk, disks self !! DISK_ID device = Some a
                  /\ heap self !! a = Some disk /\ attached disk = true)
  /\ on_uevent Sample.os_ok self 5000000 (Some "add"%string) device
     = Some (self, [g_warning "Ignore partition due to udev timeout"]).
Proof.
  assert (Hk : exists a disk,
             disks (Sample.monitor_with (Sample.disk_sda true [] 0) [])
               !! DISK_ID (Sample.partition_device "uuid-a" "sda1" "vfat") = Some a
             /\ heap (Sample.monitor_with (Sample.disk_sda true [] 0) []) !! a = Some disk
             /\ attached disk = true).
  { exists 0%nat, (Sample.disk_sda true [] 0). repeat split; reflexivity. }
  split; [exact Hk|].
  apply (C8_ignored_partition_changes_nothing Sample.os_ok
           (Sample.monitor_with (Sample.disk_sda true [] 0) []) 5000000
           (Sample.partition_device "uuid-a" "sda1" "vfat")).
  - reflexivity.
  - reflexivity.
  - right. exact Hk.
Defined.

(** ** The unmount job *)

Lemma syscalls_app (a b : list event) : syscalls (a ++ b) = syscalls a ++ syscalls b.
Proof. unfold syscalls. apply List.filter_app. Qed.

Lemma syscalls_bundles_destroyed (l : list Bundle) : syscalls (bundles_destroyed l) = [].
Proof. induction l as [|b l IH]; [reflexivity | exact IH]. Qed.

Lemma syscalls_on_detach (device : GUdevDevice) (context : MainContext) :
  syscalls (snd (on_detach device context)) = [].
Proof.
  unfold on_detach. cbn [snd]. cbn [syscalls List.filter is_syscall].
  destruct (_ !! _); [apply syscalls_bundles_destroyed | reflexivity].
Qed.

Lemma syscalls_free_disk (os : OS) (disk : Disk) :
  syscalls (free_disk os disk) = map sys_umount2 (mount_points disk).
Proof.
  unfold free_disk. induction (mount_points disk) as [|mp l IH]; [reflexivity|].
  cbn [flat_map map]. rewrite syscalls_app, IH. unfold umount_partition.
  now destruct (umount_failed (umount2_result os mp)).
Qed.

(** C5. An unmount job first emits "detach" (whose handler makes no syscall),
    then calls [umount2 (dir, MNT_DETACH)] once for every recorded mount
    point, in list order and whatever the earlier calls returned; EINVAL (not
    mounted) is not reported. With no mount point recorded the events are the
    detach notification and its handler's, and no syscall is made. *)
Theorem C5_unmount_job_detach_first
    (os : OS) (w : World) (d : Daemon) (a : addr) (rest : list job) (disk : Disk) :
  process_device_queue (monitor d) = JobDisk a :: rest ->
  heap (monitor d) !! a = Some disk ->
  attached disk = false ->
  exists d' ev_handler,
    daemon_step os w d Worker
    = Some (d', emit_detach (gudev_device disk) :: ev_handler ++ free_disk os disk)
    /\ syscalls ev_handler = []
    /\ syscalls (free_disk os disk) = map sys_umount2 (mount_points disk)
    /\ (forall mp, umount2_result os mp = Err EINVAL \/ umount2_result os mp = Ok ->
                   umount_partition os mp = [sys_umount2 mp])
    /\ (mount_points disk = [] -> free_disk os disk = [])
    /\ heap (monitor d') !! a = None
    /\ process_device_queue (monitor d') = rest.
Proof.
  intros Hq Hheap Hatt.
  destruct (on_detach (gudev_device disk) (context d)) as [c' evh] eqn:Hdet.
  eexists _, evh. unfold daemon_step, process_disk_thread_func.
  rewrite Hq, Hheap, Hatt. unfold detach_handler. rewrite Hdet.
  split; [reflexivity|].
  split. { pose proof (syscalls_on_detach (gudev_device disk) (context d)) as H.
           now rewrite Hdet in H. }
  split; [apply syscalls_free_disk|].
  split. { intros mp [H | H]; unfold umount_partition; now rewrite H. }
  split. { intros H. unfold free_disk. now rewrite H. }
  split; [apply lookup_delete_eq | reflexivity].
Qed.

Lemma C5_unmount_job_detach_first_witness :
  exists d' ev_handler,
    daemon_step Sample.os_ok (Sample.world None 0 Sample.no_files None)
                Sample.unmount_pending Worker
    = Some (d', emit_detach (Sample.disk_device "uuid-a" "sda") :: ev_handler
                ++ [sys_umount2 "/run/media/disk-updater/sda2";
                    sys_umount2 "/run/media/disk-updater/sda1"])
    /\ syscalls ev_handler = [].
Proof.
  destruct (C5_unmount_job_detach_first Sample.os_ok
              (Sample.world None 0 Sample.no_files None) Sample.unmount_pending 0%nat []
              (Sample.disk_sda false ["/run/media/disk-updater/sda2"%string;
                                      "/run/media/disk-updater/sda1"%string] 0)
              eq_refl eq_refl eq_refl)
    as (d' & evh & Hstep & Hsys & _).
  exists d', evh. split; [exact Hstep | exact Hsys].
Defined.

(** ** The mount job *)

Lemma reads_app (a b : list event) : reads (a ++ b) = (reads a + reads b)%nat.
Proof. unfold reads. now rewrite flat_map_app, length_app. Qed.

Lemma is_in_filesystem_file_reads (os : OS) (file : string) (fstype : option string) :
  reads (snd (is_in_filesystem_file os file fstype)) = 1%nat
  /\ syscalls (snd (is_in_filesystem_file os file fstype)) = [].
Proof.
  unfold is_in_filesystem_file. now destruct (file_contents os file).
Qed.

(** What [mount_partition] does with one partition. *)
Lemma mount_partition_cases (os : OS) (p : GUdevDevice) (disk : Disk) :
  let '(disk', evs) := mount_partition os p disk in
  reads evs = 1%nat
  /\ disk' = (if gets_mounted os p
              then set_mount_points (mount_dir_of p :: mount_points disk) disk
              else disk)
  /\ (supported_by_os os p = false -> syscalls evs = [])
  /\ (supported_by_os os p = true ->
      mkdir_failed (mkdir_result os (mount_dir_of p)) = true ->
      syscalls evs = [sys_mkdir (mount_dir_of p)]
      /\ In (g_warning ("Could not create directory " +:+ mount_dir_of p)) evs)
  /\ (supported_by_os os p = true ->
      mkdir_failed (mkdir_result os (mount_dir_of p)) = false ->
      syscalls evs = [sys_mkdir (mount_dir_of p);
                      sys_mount (device_file p) (mount_dir_of p) (ID_FS_TYPE p)]
      /\ (mount_succeeds os p = false ->
          In (g_warning ("Could not mount " +:+ device_file p)) evs)).
Proof.
  unfold mount_partition, gets_mounted, supported_by_os, mount_succeeds.
  fold (mount_dir_of p).
  pose proof (is_in_filesystem_file_reads os "/proc/filesystems" (ID_FS_TYPE p)) as [Hr Hs].
  destruct (is_in_filesystem_file os "/proc/filesystems" (ID_FS_TYPE p))
    as [supported ev_fs]. cbn [fst snd] in *.
  destruct supported; cbn [negb andb].
  2:{ repeat split; auto; discriminate. }
  destruct (mkdir_failed (mkdir_result os (mount_dir_of p))); cbn [negb andb].
  { rewrite reads_app, syscalls_app, Hr, Hs. repeat split; auto; try discriminate.
    apply in_or_app. right. right. now left. }
  destruct (mount_result os (device_file p) (mount_dir_of p) (ID_FS_TYPE p));
    rewrite reads_app, syscalls_app, Hr, Hs; repeat split; auto; try discriminate.
  intros _. apply in_or_app. right. right. right. now left.
Qed.

Lemma mount_partition_events_any_disk (os : OS) (p : GUdevDevice) (d1 d2 : Disk) :
  snd (mount_partition os p d1) = snd (mount_partition os p d2).
Proof.
  unfold mount_partition.
  destruct (is_in_filesystem_file os "/proc/filesystems" (ID_FS_TYPE p)) as [[] ?];
    cbn [negb]; [|reflexivity].
  destruct (mkdir_failed _); [reflexivity|].
  now destruct (mount_result os _ _ _).
Qed.

(** The whole [g_slist_foreach]: every partition is processed, whatever
    happened to the ones before it. *)
Lemma mount_partitions_spec (os : OS) (l : list GUdevDevice) (disk : Disk) :
  fst (mount_partitions os l disk)
  = set_mount_points
      (rev (map mount_dir_of (List.filter (gets_mounted os) l)) ++ mount_points disk) disk
  /\ snd (mount_partitions os l disk)
     = flat_map (fun p => snd (mount_partition os p disk)) l
  /\ reads (snd (mount_partitions os l disk)) = length l.
Proof.
  revert disk; induction l as [|p l IH]; intros disk.
  - cbn. repeat split. now destruct disk.
  - cbn [mount_partitions].
    pose proof (mount_partition_cases os p disk) as Hp.
    destruct (mount_partition os p disk) as [disk1 ev1] eqn:H1.
    destruct Hp as (Hr & Hd & _).
    specialize (IH disk1). destruct (mount_partitions os l disk1) as [disk2 ev2].
    cbn [fst snd] in *. destruct IH as (IHd & IHe & IHr).
    split; [|split].
    + rewrite IHd, Hd. cbn [List.filter].
      destruct (gets_mounted os p); cbn [map rev]; [|reflexivity].
      unfold set_mount_points; cbn. now rewrite <- app_assoc.
    + cbn [flat_map]. rewrite H1. cbn [snd]. f_equal. rewrite IHe.
      apply flat_map_ext. intros q. apply mount_partition_events_any_disk.
    + rewrite reads_app, Hr, IHr. reflexivity.
Qed.

(** C9 as worded fails: the filesystems file is read again for every
    partition of the job. *)
Lemma C9_filesystems_file_read_per_partition : ~ filesystems_file_read_once.
Proof.
  intros H.
  specialize (H Sample.os_ok Sample.two_partitions Sample.disk_two_partitions).
  vm_compute in H. lia.
Qed.

(** C9, amended. In a mount job every partition of the disk is processed in
    list order, each on its own: "/proc/filesystems" is read once per
    partition; a partition whose type the file does not list is skipped
    without a syscall; a failed directory creation (other than EEXIST) or a
    failed mount is logged and only that partition gets no mount point.
    After the last partition "attach" is emitted with the mount points of
    the partitions that were mounted, possibly none. *)
Theorem C9_mount_job_skips_failed_partitions
    (os : OS) (w : World) (d : Daemon) (a : addr) (rest : list job) (disk : Disk) :
  process_device_queue (monitor d) = JobDisk a :: rest ->
  heap (monitor d) !! a = Some disk ->
  attached disk = true ->
  let mounted :=
    rev (map mount_dir_of (List.filter (gets_mounted os) (partitions disk)))
    ++ mount_points disk in
  let ev_mount := flat_map (fun p => snd (mount_partition os p disk)) (partitions disk) in
  let self' :=
    {| disks := disks (monitor d); process_device_queue := rest;
       heap := <[a := set_mount_points mounted disk]> (heap (monitor d));
       next_addr := next_addr (monitor d); timeouts := timeouts (monitor d) |} in
  (* the mount job, whatever handlers are connected *)
  (forall (H : Type)
          (attach_handler : GUdevDevice -> list string -> bool -> H -> H * list event)
          (detach_handler : GUdevDevice -> H -> H * list event) (h : H),
      process_disk_thread_func attach_handler detach_handler os (monitor d) h
      = Processed self'
          (fst (attach_handler (gudev_device disk) mounted (cancellable disk) h))
          (ev_mount
           ++ emit_attach (gudev_device disk) mounted
              :: snd (attach_handler (gudev_device disk) mounted (cancellable disk) h)))
  /\ heap self' !! a = Some (set_mount_points mounted disk)
  (* with [on_attach] connected: the step is defined exactly when its search is *)
  /\ daemon_step os w d Worker
     = match on_attach w (if cancellable disk then Some 0%nat else worker_cancel w)
                       (gudev_device disk) mounted (context d) with
       | Some (context', ev_handler) =>
           Some ({| monitor := self'; context := context' |},
                 ev_mount ++ emit_attach (gudev_device disk) mounted :: ev_handler)
       | None => None
       end
  /\ reads ev_mount = length (partitions disk)
  /\ forall p, In p (partitions disk) ->
       let evs := snd (mount_partition os p disk) in
       reads evs = 1%nat
       /\ (supported_by_os os p = false -> syscalls evs = [])
       /\ (supported_by_os os p = true ->
           mkdir_failed (mkdir_result os (mount_dir_of p)) = true ->
           syscalls evs = [sys_mkdir (mount_dir_of p)]
           /\ In (g_warning ("Could not create directory " +:+ mount_dir_of p)) evs)
       /\ (supported_by_os os p = true ->
           mkdir_failed (mkdir_result os (mount_dir_of p)) = false ->
           syscalls evs = [sys_mkdir (mount_dir_of p);
                           sys_mount (device_file p) (mount_dir_of p) (ID_FS_TYPE p)]
           /\ (mount_succeeds os p = false ->
               In (g_warning ("Could not mount " +:+ device_file p)) evs)).
Proof.
  intros Hq Hheap Hatt mounted ev_mount self'.
  pose proof (mount_partitions_spec os (partitions disk) disk) as (Hd & He & Hr).
  assert (Hjob : forall (H : Type)
                        (attach_handler : GUdevDevice -> list string -> bool -> H
                                          -> H * list event)
                        (detach_handler : GUdevDevice -> H -> H * list event) (h : H),
             process_disk_thread_func attach_handler detach_handler os (monitor d) h
             = Processed self'
                 (fst (attach_handler (gudev_device disk) mounted (cancellable disk) h))
                 (ev_mount
                  ++ emit_attach (gudev_device disk) mounted
                     :: snd (attach_handler (gudev_device disk) mounted
                                            (cancellable disk) h))).
  { intros H attach_handler detach_handler h.
    unfold process_disk_thread_func. rewrite Hq, Hheap, Hatt.
    destruct (mount_partitions os (partitions disk) disk) as [disk' evm].
    cbn [fst snd] in Hd, He. subst disk' evm.
    cbn [set_mount_points gudev_device mount_points cancellable].
    fold mounted. fold ev_mount.
    now destruct (attach_handler (gudev_device disk) mounted (cancellable disk) h). }
  split; [exact Hjob|]. split; [apply lookup_insert_eq|]. split; [|split].
  - cbn [daemon_step]. rewrite Hjob. unfold attach_handler.
    now destruct (on_attach w _ (gudev_device disk) mounted (context d)) as [[c' evh]|].
  - subst ev_mount. now rewrite <- He.
  - intros p _. pose proof (mount_partition_cases os p disk) as Hp.
    destruct (mount_partition os p disk) as [disk1 ev1]. cbn [snd].
    destruct Hp as (H1 & _ & H2 & H3 & H4). auto.
Qed.

Lemma C9_mount_job_skips_failed_partitions_witness :
  exists d' ev_handler,
    daemon_step Sample.os_ok (Sample.world None 0 Sample.no_files None)
                Sample.mount_pending Worker
    = Some (d',
            [read_file "/proc/filesystems";
             sys_mkdir "/run/media/disk-updater/sda2";
             sys_mount "/dev/sda2" "/run/media/disk-updater/sda2" (Some "ext4"%string);
             read_file "/proc/filesystems";
             sys_mkdir "/run/media/disk-updater/sda1";
             sys_mount "/dev/sda1" "/run/media/disk-updater/sda1" (Some "vfat"%string)]
            ++ emit_attach (Sample.disk_device "uuid-a" "sda")
                 ["/run/media/disk-updater/sda1"%string;
                  "/run/media/disk-updater/sda2"%string]
               :: ev_handler).
Proof.
  destruct (C9_mount_job_skips_failed_partitions Sample.os_ok
              (Sample.world None 0 Sample.no_files None) Sample.mount_pending
              0%nat [] Sample.disk_two_partitions eq_refl eq_refl eq_refl)
    as (_ & _ & Hstep & _).
  rewrite Hstep. do 2 eexists. reflexivity.
Defined.

(** ** The debounce check *)

Lemma initialized_long_enough_iff (disk : Disk) (now : Z) :
  initialized_long_enough disk now = true
  <-> attached disk = false /\ UDEV_TIMEOUT < now - initialized disk.
Proof.
  unfold initialized_long_enough, g_timer_elapsed.
  rewrite andb_true_iff, negb_true_iff, Z.ltb_lt. tauto.
Qed.

Lemma initialized_long_enough_false (disk : Disk) (now : Z) :
  initialized_long_enough disk now = false
  <-> attached disk = true \/ now - initialized disk <= UDEV_TIMEOUT.
Proof.
  unfold initialized_long_enough, g_timer_elapsed.
  rewrite andb_false_iff, negb_false_iff, Z.ltb_ge. tauto.
Qed.

(** The scan stops at an entry whose disk is ready. *)
Lemma find_initialized_found (hp : gmap addr Disk) (now : Z)
    (l : list (string * addr)) (a : addr) :
  find_initialized hp now l = Some (Some a) ->
  exists id disk, (id, a) ∈ l /\ hp !! a = Some disk
                  /\ initialized_long_enough disk now = true.
Proof.
  induction l as [|[id x] l IH]; cbn [find_initialized]; [discriminate|].
  destruct (hp !! x) as [disk|] eqn:Hx; [|discriminate].
  fold (initialized_long_enough disk now).
  destruct (initialized_long_enough disk now) eqn:Hready.
  - intros [= <-]. exists id, disk. split; [left | auto].
  - intros H. destruct (IH H) as (id' & disk' & Hin & Hrest).
    exists id', disk'. split; [now right | exact Hrest].
Qed.

(** The scan runs to the end only if no entry's disk is ready. *)
Lemma find_initialized_none (hp : gmap addr Disk) (now : Z) (l : list (string * addr)) :
  find_initialized hp now l = Some None ->
  forall id a disk, (id, a) ∈ l -> hp !! a = Some disk ->
                    initialized_long_enough disk now = false.
Proof.
  induction l as [|[id x] l IH]; cbn [find_initialized]; intros H id' a disk Hin Ha.
  - inversion Hin.
  - destruct (hp !! x) as [dx|] eqn:Hx; [|discriminate].
    fold (initialized_long_enough dx now) in H.
    destruct (initialized_long_enough dx now) eqn:Hready; [discriminate|].
    apply elem_of_cons in Hin as [[= -> ->] | Hin].
    + congruence.
    + exact (IH H id' a disk Hin Ha).
Qed.

(** With a live table the scan never meets a dangling entry. *)
Lemma find_initialized_defined (hp : gmap addr Disk) (now : Z) (l : list (string * addr)) :
  (forall id a, (id, a) ∈ l -> is_Some (hp !! a)) ->
  find_initialized hp now l <> None.
Proof.
  induction l as [|[id x] l IH]; cbn [find_initialized]; intros Hlive; [discriminate|].
  destruct (Hlive id x) as [dx Hx]; [left|]. rewrite Hx.
  destruct (negb (attached dx) && _); [discriminate|].
  apply IH. intros id' a Hin. apply (Hlive id' a). now right.
Qed.

(** One run of the debounce check. *)
Lemma on_disk_initialized_cases (self : UdevMonitor) (now : Z) :
  table_live self ->
  (exists id a disk,
      on_disk_initialized self now = Some (promoted self a disk, false)
      /\ disks self !! id = Some a /\ heap self !! a = Some disk
      /\ attached disk = false /\ UDEV_TIMEOUT < now - initialized disk)
  \/ (on_disk_initialized self now = Some (self, true)
      /\ forall id a disk, disks self !! id = Some a -> heap self !! a = Some disk ->
                           attached disk = true \/ now - initialized disk <= UDEV_TIMEOUT).
Proof.
  intros Hlive. unfold on_disk_initialized.
  destruct (find_initialized (heap self) now (map_to_list (disks self)))
    as [[a|]|] eqn:Hfind.
  - left. apply find_initialized_found in Hfind as (id & disk & Hin & Ha & Hready).
    apply elem_of_map_to_list in Hin. apply initialized_long_enough_iff in Hready.
    exists id, a, disk. rewrite Ha. tauto.
  - right. split; [reflexivity|]. intros id a disk Hid Ha.
    apply initialized_long_enough_false.
    apply (find_initialized_none _ _ _ Hfind id a disk); [|exact Ha].
    now apply elem_of_map_to_list.
  - exfalso. revert Hfind. apply find_initialized_defined.
    intros id a Hin. apply elem_of_map_to_list in Hin. exact (Hlive id a Hin).
Qed.

(** A partition for a known, unattached disk restarts its timer. *)
Lemma on_uevent_partition_restarts_timer (os : OS) (self : UdevMonitor) (now : Z)
    (device : GUdevDevice) (a : addr) (disk : Disk) :
  subsystem device = Some "block"%string ->
  DEVTYPE device = Some "partition"%string ->
  disks self !! DISK_ID device = Some a ->
  heap self !! a = Some disk ->
  attached disk = false ->
  on_uevent os self now (Some "add"%string) device
  = Some (partition_added self a disk device now, []).
Proof.
  intros Hsub Hdev Hid Ha Hatt. unfold on_uevent. rewrite Hsub, Hdev. simpl.
  rewrite Hid, Ha, Hatt. simpl. unfold partition_added, set_partitions, g_timer_start.
  simpl. now rewrite Hatt.
Qed.

(** Partition events and debounce checks leave an attached disk alone and
    never queue it. *)
Lemma settle_step_attached (os : OS) (self self' : UdevMonitor) (e : settling)
    (a : addr) (disk : Disk) :
  heap self !! a = Some disk -> attached disk = true ->
  settle_step os self e = Some self' ->
  heap self' !! a = Some disk
  /\ exists pushed, process_device_queue self' = process_device_queue self ++ pushed
                    /\ ~ In (JobDisk a) pushed.
Proof.
  intros Ha Hatt.
  assert (Hsame : heap self !! a = Some disk
                  /\ exists pushed, process_device_queue self
                                    = process_device_queue self ++ pushed
                                    /\ ~ In (JobDisk a) pushed).
  { split; [exact Ha|]. exists []. split; [now rewrite app_nil_r | intros []]. }
  destruct e as [now id name fstype | now]; cbn [settle_step].
  - unfold on_uevent. simpl.
    destruct (disks self !! id) as [x|]; simpl; [|intros [= <-]; exact Hsame].
    destruct (heap self !! x) as [dx|] eqn:Hx; simpl; [|discriminate].
    destruct (attached dx) eqn:Hdx; simpl; intros [= <-]; [exact Hsame|].
    cbn [heap process_device_queue]. split.
    + rewrite lookup_insert_ne; [exact Ha | congruence].
    + exists []. split; [now rewrite app_nil_r | intros []].
  - unfold timeout_dispatch. destruct (timeouts self) as [|n]; [intros [= <-]; exact Hsame|].
    unfold on_disk_initialized.
    destruct (find_initialized (heap self) now (map_to_list (disks self)))
      as [[x|]|] eqn:Hfind; [| intros [= <-]; exact Hsame | discriminate].
    apply find_initialized_found in Hfind as (id & dx & _ & Hx & Hready).
    apply initialized_long_enough_iff in Hready as [Hdx _].
    rewrite Hx. intros [= <-]. cbn [heap process_device_queue]. split.
    + rewrite lookup_insert_ne; [exact Ha | congruence].
    + exists [JobDisk x]. split; [reflexivity|].
      intros [[= ->] | []]. congruence.
Qed.

Lemma settle_attached (os : OS) (l : list settling) (self self' : UdevMonitor)
    (a : addr) (disk : Disk) :
  heap self !! a = Some disk -> attached disk = true ->
  settle os self l = Some self' ->
  heap self' !! a = Some disk
  /\ exists pushed, process_device_queue self' = process_device_queue self ++ pushed
                    /\ ~ In (JobDisk a) pushed.
Proof.
  revert self; induction l as [|e l IH]; intros self Ha Hatt; cbn [settle].
  - intros [= <-]. split; [exact Ha|]. exists []. split; [now rewrite app_nil_r | intros []].
  - destruct (settle_step os self e) as [self1|] eqn:Hstep; [|discriminate].
    intros Hrun.
    destruct (settle_step_attached os self self1 e a disk Ha Hatt Hstep)
      as (Ha1 & pushed1 & Hq1 & Hn1).
    destruct (IH self1 Ha1 Hatt Hrun) as (Ha2 & pushed2 & Hq2 & Hn2).
    split; [exact Ha2|]. exists (pushed1 ++ pushed2). split.
    + now rewrite Hq2, Hq1, app_assoc.
    + intros Hin. apply in_app_or in Hin. tauto.
Qed.

(** C3 as worded fails: a partition arrives at 0.5 s, nothing follows for
    exactly the window of one second, and the debounce check that fires at
    1.5 s leaves the disk unattached, since the comparison with
    [UDEV_TIMEOUT] is strict. *)
Lemma C3_quiet_period_equal_to_window : ~ attached_after_quiet_period_of_window.
Proof.
  intros H.
  destruct (H Sample.os_ok (Sample.monitor_with (Sample.disk_sda false [] 0) [])
              "uuid-a"%string "sda1"%string (Some "vfat"%string)
              0%nat (Sample.disk_sda false [] 0) 500000 1000000)
    as (self' & Hrun & Hatt).
  - reflexivity.
  - reflexivity.
  - reflexivity.
  - cbn. lia.
  - vm_compute. discriminate.
  - vm_compute in Hrun. injection Hrun as <-. vm_compute in Hatt. discriminate.
Qed.

(** C3, amended. A debounce check attaches a disk only if the disk is in the
    table, unattached, and its timer reads strictly more than the window;
    when such a disk exists the check attaches exactly one (the first in the
    table's iteration order, the disk itself when it is the only one), queues
    it once, changes nothing else and returns FALSE, which ends that timeout
    source; otherwise it changes nothing and returns TRUE to be called again.
    A partition-add for a known unattached disk prepends the partition and
    restarts the disk's timer. Once a disk is attached, no later
    partition-add or check changes it or queues it again. *)
Theorem C3_debounce_promotion (os : OS) (self : UdevMonitor) (now : Z) :
  table_live self ->
  ((exists id a disk,
       on_disk_initialized self now = Some (promoted self a disk, false)
       /\ disks self !! id = Some a /\ heap self !! a = Some disk
       /\ attached disk = false /\ UDEV_TIMEOUT < now - initialized disk)
   \/ (on_disk_initialized self now = Some (self, true)
       /\ forall id a disk, disks self !! id = Some a -> heap self !! a = Some disk ->
                            attached disk = true \/ now - initialized disk <= UDEV_TIMEOUT))
  /\ (forall id a disk,
        disks self = {[ id := a ]} -> heap self !! a = Some disk ->
        attached disk = false -> UDEV_TIMEOUT < now - initialized disk ->
        on_disk_initialized self now = Some (promoted self a disk, false))
  /\ (forall device a disk,
        subsystem device = Some "block"%string ->
        DEVTYPE device = Some "partition"%string ->
        disks self !! DISK_ID device = Some a ->
        heap self !! a = Some disk ->
        attached disk = false ->
        on_uevent os self now (Some "add"%string) device
        = Some (partition_added self a disk device now, []))
  /\ (forall a disk l self',
        heap self !! a = Some disk -> attached disk = true ->
        settle os self l = Some self' ->
        heap self' !! a = Some disk
        /\ exists pushed,
             process_device_queue self' = process_device_queue self ++ pushed
             /\ ~ In (JobDisk a) pushed).
Proof.
  intros Hlive. split; [|split; [|split]].
  - apply on_disk_initialized_cases, Hlive.
  - intros id a disk Hdisks Ha Hatt Hlong.
    destruct (on_disk_initialized_cases self now Hlive)
      as [(id' & a' & disk' & Hrun & Hid' & Ha' & _) | [_ Hnone]].
    + rewrite Hdisks in Hid'. apply lookup_singleton_Some in Hid' as [_ <-].
      rewrite Ha in Ha'. injection Ha' as <-. exact Hrun.
    + exfalso. destruct (Hnone id a disk); [| exact Ha | congruence | lia].
      rewrite Hdisks. apply lookup_singleton_eq.
  - intros device a disk. apply on_uevent_partition_restarts_timer.
  - intros a disk l self'. apply settle_attached.
Qed.

Lemma sample_table_live (disk : Disk) (queue : list job) :
  table_live (Sample.monitor_with disk queue).
Proof.
  intros id a H. cbn [Sample.monitor_with disks heap] in *.
  apply lookup_singleton_Some in H as [_ <-]. eexists. apply lookup_singleton_eq.
Defined.

Lemma C3_debounce_promotion_witness :
  let self := Sample.monitor_with (Sample.disk_sda false [] 500000) [] in
  table_live self
  /\ on_disk_initialized self 1500001
     = Some (promoted self 0%nat (Sample.disk_sda false [] 500000), false)
  /\ on_disk_initialized self 1500000 = Some (self, true).
Proof.
  split; [apply sample_table_live|].
  split.
  - destruct (C3_debounce_promotion Sample.os_ok
                (Sample.monitor_with (Sample.disk_sda false [] 500000) []) 1500001
                (sample_table_live _ _)) as (_ & Hone & _).
    apply (Hone "uuid-a"%string); reflexivity.
  - destruct (C3_debounce_promotion Sample.os_ok
                (Sample.monitor_with (Sample.disk_sda false [] 500000) []) 1500000
                (sample_table_live _ _)) as [[(id & a & disk & H & _) | [H _]] _].
    + reflexivity.
    + exact H.
Defined.

(** ** The bundle search and its cancellation *)

Lemma node_nested_ind (P : node -> Prop) :
  P Symlink -> P Regular -> P Special -> P (Dir None) ->
  (forall es, Forall (fun e => P (snd e)) es -> P (Dir (Some es))) ->
  forall n, P n.
Proof.
  intros Hsym Hreg Hspec Hnone Hdir. fix IH 1.
  intros [| [es|] | |]; [exact Hsym | | exact Hnone | exact Hreg | exact Hspec].
  apply Hdir. induction es as [|[name child] es IHes]; constructor; [apply IH | exact IHes].
Qed.

Lemma find_rauc_bundles_dir (w : World) (c : GCancellable) (path : string)
    (es : list (string * node)) (context : MainContext) (polls : nat) :
  find_rauc_bundles w c path (Dir (Some es)) context polls
  = match read_entries w c path es [] context polls with
    | None => None
    | Some (bundles, context', polls', evs) =>
        Some (bundles, context', polls', dir_open path :: evs ++ [dir_close path])
    end.
Proof. reflexivity. Qed.

Lemma is_cancelled_mono (c : GCancellable) (p q : nat) :
  (p <= q)%nat -> is_cancelled c p = true -> is_cancelled c q = true.
Proof.
  destruct c as [k|]; simpl; [|discriminate].
  rewrite !Nat.leb_le. lia.
Qed.

Lemma read_entries_cancelled (w : World) (c : GCancellable) (path : string)
    (es : list (string * node)) (bundles : list Bundle) (context : MainContext)
    (polls : nat) :
  is_cancelled c polls = true ->
  read_entries w c path es bundles context polls
  = Some (bundles, context, S polls, [cancel_check true]).
Proof. intros H. unfold read_entries. destruct es; simpl; now rewrite H. Qed.

Lemma exports_app (a b : list event) : exports (a ++ b) = exports a ++ exports b.
Proof. unfold exports. apply flat_map_app. Qed.

Lemma inspects_app (a b : list event) : inspects (a ++ b) = inspects a ++ inspects b.
Proof. unfold inspects. apply flat_map_app. Qed.

Lemma halted_app (a b : list event) : halted (a ++ b) = halted a && halted b.
Proof. unfold halted. apply forallb_app. Qed.

Lemma stops_without_cancel (evs : list event) :
  existsb cancel_seen evs = false -> stops_when_cancelled evs = true.
Proof.
  induction evs as [|e evs IH]; [reflexivity|]. simpl.
  destruct (cancel_seen e); simpl; [discriminate | exact IH].
Qed.

Lemma stops_app (a b : list event) :
  stops_when_cancelled a = true ->
  (existsb cancel_seen a = true -> halted b = true) ->
  stops_when_cancelled b = true ->
  stops_when_cancelled (a ++ b) = true.
Proof.
  induction a as [|e a IH]; simpl; intros Ha Hab Hb; [exact Hb|].
  destruct (cancel_seen e); simpl in *.
  - rewrite halted_app, Ha. simpl. now apply Hab.
  - now apply IH.
Qed.


Lemma check_rauc_bundle_events (w : World) (context : MainContext) (file : string)
    (b : Bundle) (context' : MainContext) (evs : list event) :
  check_rauc_bundle w context file = Some (b, context', evs) ->
  existsb cancel_seen evs = false
  /\ exports evs = [published b]
  /\ entries_read evs = []
  /\ (length (inspects evs) <= 1)%nat.
Proof.
  unfold check_rauc_bundle.
  destruct (g_str_has_suffix file ".raucb"); simpl; [|discriminate].
  destruct (installer_info w file) as [[compat version]|]; [|discriminate].
  destruct (g_strcmp0 (compatible context) (Some compat) =? 0); simpl; [|discriminate].
  intros [= <- <- <-]. auto.
Qed.

Lemma existsb_cancel_seen_app (a b : list event) :
  existsb cancel_seen (a ++ b) = existsb cancel_seen a || existsb cancel_seen b.
Proof. apply existsb_app. Qed.

Lemma entries_read_app (a b : list event) :
  entries_read (a ++ b) = entries_read a ++ entries_read b.
Proof. unfold entries_read. apply flat_map_app. Qed.

Lemma answered_false_step (c : GCancellable) (p : nat) :
  is_cancelled c p = false -> answered_false c (S p) = S (answered_false c p).
Proof.
  destruct c as [k|]; simpl; [|reflexivity].
  rewrite Nat.leb_gt. lia.
Qed.

Lemma answered_false_mono (c : GCancellable) (p q : nat) :
  (p <= q)%nat -> (answered_false c p <= answered_false c q)%nat.
Proof. destruct c as [k|]; simpl; lia. Qed.

(** A function that stops at once: it polled, perhaps, and did nothing. *)
Lemma cancellation_respected_idle (c : GCancellable) (polls polls' : nat)
    (given : list Bundle) (context : MainContext) (evs : list event) :
  (polls <= polls')%nat ->
  halted evs = true ->
  (existsb cancel_seen evs = true -> is_cancelled c polls' = true) ->
  stops_when_cancelled evs = true ->
  entries_read evs = [] -> inspects evs = [] -> exports evs = [] ->
  cancellation_respected c polls given (given, context, polls', evs).
Proof.
  intros Hp _ Hc Hs Hr Hi He. unfold cancellation_respected.
  rewrite Hr, Hi, He, app_nil_r. cbn [length].
  repeat split;
    [exact Hs | exact Hc | exact Hp | reflexivity | now apply answered_false_mono | lia].
Qed.

(** Gluing the events of a step to the events of what continues after it. *)
Lemma cancellation_respected_glue (c : GCancellable) (polls p1 p : nat)
    (given mid out : list Bundle) (ctx1 ctx : MainContext) (e1 e : list event) :
  cancellation_respected c polls given (mid, ctx1, p1, e1) ->
  cancellation_respected c p1 mid (out, ctx, p, e) ->
  (is_cancelled c p1 = true -> halted e = true) ->
  cancellation_respected c polls given (out, ctx, p, e1 ++ e).
Proof.
  intros (Hs1 & Hc1 & Hp1 & Hm1 & Hr1 & Hi1) (Hs & Hc & Hp & Hm & Hr & Hi) Hhalt.
  unfold cancellation_respected.
  rewrite entries_read_app, inspects_app, exports_app, !length_app.
  repeat split.
  - apply stops_app; auto.
  - rewrite existsb_cancel_seen_app, orb_true_iff. intros [H | H]; [|auto].
    apply (is_cancelled_mono c p1 p Hp). auto.
  - lia.
  - rewrite Hm, Hm1. now rewrite <- app_assoc.
  - lia.
  - lia.
Qed.

(** One pass through the loop body: the poll that answered FALSE, the entry
    read, and what was done with the entry. *)
Lemma cancellation_respected_entry (c : GCancellable) (polls p1 : nat)
    (given mid : list Bundle) (ctx1 : MainContext) (e1 : list event)
    (path name : string) :
  is_cancelled c polls = false ->
  stops_when_cancelled e1 = true ->
  (existsb cancel_seen e1 = true -> is_cancelled c p1 = true) ->
  (S polls <= p1)%nat ->
  map published mid ≡ₚ map published given ++ exports e1 ->
  (length (entries_read e1) + answered_false c (S polls) <= answered_false c p1)%nat ->
  (length (inspects e1) <= S (length (entries_read e1)))%nat ->
  cancellation_respected c polls given
    (mid, ctx1, p1, cancel_check false :: dir_read path name :: e1).
Proof.
  intros Hnow Hs Hc Hp Hm Hr Hi. unfold cancellation_respected.
  rewrite (answered_false_step c polls Hnow) in Hr.
  change (entries_read (cancel_check false :: dir_read path name :: e1))
    with ((path +:+ "/" +:+ name) :: entries_read e1).
  change (inspects (cancel_check false :: dir_read path name :: e1)) with (inspects e1).
  change (exports (cancel_check false :: dir_read path name :: e1)) with (exports e1).
  cbn [length].
  repeat split; [exact Hs | exact Hc | lia | exact Hm | lia | lia].
Qed.

Lemma read_entries_respects (w : World) (c : GCancellable) (es : list (string * node)) :
  Forall (fun e => forall path context polls,
              when_defined (cancellation_respected c polls [])
                (find_rauc_bundles w c path (snd e) context polls)) es ->
  forall path bundles context polls,
    when_defined (cancellation_respected c polls bundles)
      (read_entries w c path es bundles context polls).
Proof.
  induction 1 as [|[name child] es Hchild _ IH]; intros path bundles context polls;
    unfold read_entries in *; cbn [read_entries_with];
    destruct (is_cancelled c polls) eqn:Hnow; cbn [when_defined].
  1,3: (apply cancellation_respected_idle; try reflexivity; [lia|];
        intros _; apply (is_cancelled_mono c polls); [lia | exact Hnow]).
  - apply cancellation_respected_idle; try reflexivity; [lia | discriminate].
  - cbn [snd] in Hchild.
    assert (Hglue : forall mid ctx1 p1 e1,
               stops_when_cancelled e1 = true ->
               (existsb cancel_seen e1 = true -> is_cancelled c p1 = true) ->
               (S polls <= p1)%nat ->
               map published mid ≡ₚ map published bundles ++ exports e1 ->
               (length (entries_read e1) + answered_false c (S polls)
                <= answered_false c p1)%nat ->
               (length (inspects e1) <= S (length (entries_read e1)))%nat ->
               when_defined (cancellation_respected c polls bundles)
                 match read_entries_with (find_rauc_bundles w c) w c path es mid ctx1 p1 with
                 | None => None
                 | Some (r, c', p, e) =>
                     Some (r, c', p, cancel_check false :: dir_read path name :: e1 ++ e)
                 end).
    { intros mid ctx1 p1 e1 Hs Hc Hp Hm Hr Hi.
      specialize (IH path mid ctx1 p1).
      pose proof (read_entries_cancelled w c path es mid ctx1 p1) as Hrest.
      unfold read_entries in Hrest.
      destruct (read_entries_with _ w c path es mid ctx1 p1) as [[[[r c'] p] e]|];
        [|exact I].
      cbn [when_defined] in *.
      apply (cancellation_respected_glue c polls p1 p bundles mid r ctx1 c'
               (cancel_check false :: dir_read path name :: e1) e);
        [now apply cancellation_respected_entry | exact IH |].
      intros Hcan. specialize (Hrest Hcan). injection Hrest as _ _ _ ->. reflexivity. }
    destruct child as [| entries | |].
    + apply (Hglue bundles context (S polls) []);
        first [reflexivity | discriminate | now rewrite app_nil_r | cbn; lia].
    + specialize (Hchild (path +:+ "/" +:+ name) context (S polls)).
      destruct (find_rauc_bundles w c (path +:+ "/" +:+ name) (Dir entries) context (S polls))
        as [[[[sub c1] p1] e1]|]; [|exact I].
      destruct Hchild as (Hs1 & Hc1 & Hp1 & Hm1 & Hr1 & Hi1).
      apply (Hglue (g_slist_concat bundles sub) c1 p1 e1);
        [exact Hs1 | exact Hc1 | exact Hp1 | | exact Hr1 | lia].
      unfold g_slist_concat. rewrite map_app. now rewrite Hm1.
    + destruct (check_rauc_bundle w context (path +:+ "/" +:+ name))
        as [[[b c1] e1]|] eqn:Hcheck; [|exact I].
      apply check_rauc_bundle_events in Hcheck as (Hno & Hexp & Hent & Hins).
      apply (Hglue _ c1 (S polls) e1).
      * now apply stops_without_cancel.
      * rewrite Hno. discriminate.
      * lia.
      * rewrite Hexp. unfold g_slist_prepend. cbn [map]. apply Permutation_cons_append.
      * rewrite Hent. cbn. lia.
      * rewrite Hent. cbn. exact Hins.
    + apply (Hglue bundles context (S polls) []);
        first [reflexivity | discriminate | now rewrite app_nil_r | cbn; lia].
Qed.

Lemma stops_snoc_halted (evs : list event) (e : event) :
  stops_when_cancelled evs = true -> goes_on e = false ->
  stops_when_cancelled (evs ++ [e]) = true.
Proof.
  intros Hs He. apply stops_app; [exact Hs | | ].
  - intros _. unfold halted. simpl. now rewrite He.
  - simpl. destruct (cancel_seen e); reflexivity.
Qed.

Lemma find_rauc_bundles_respects (w : World) (c : GCancellable) (n : node) :
  forall path context polls,
    when_defined (cancellation_respected c polls [])
                 (find_rauc_bundles w c path n context polls).
Proof.
  assert (Hfailed : forall path context polls,
             cancellation_respected c polls []
               ([], context, S polls,
                [dir_open path; cancel_check (is_cancelled c polls)])).
  { intros path context polls. unfold cancellation_respected. cbn.
    repeat split; try lia; try reflexivity.
    - now destruct (is_cancelled c polls).
    - destruct (is_cancelled c polls) eqn:Hnow; [|discriminate].
      intros _. apply (is_cancelled_mono c polls); [lia | exact Hnow].
    - apply answered_false_mono. lia. }
  induction n as [ | | | | es Hes] using node_nested_ind; intros path context polls;
    try apply Hfailed.
  rewrite find_rauc_bundles_dir.
  pose proof (read_entries_respects w c es Hes path [] context polls) as Hloop.
  destruct (read_entries w c path es [] context polls) as [[[[r c'] p] e]|]; [|exact I].
  destruct Hloop as (Hs & Hc & Hp & Hm & Hr & Hi). cbn [when_defined].
  unfold cancellation_respected.
  change (exports (dir_open path :: e ++ [dir_close path])) with (exports (e ++ [dir_close path])).
  change (entries_read (dir_open path :: e ++ [dir_close path]))
    with (entries_read (e ++ [dir_close path])).
  change (inspects (dir_open path :: e ++ [dir_close path]))
    with (inspects (e ++ [dir_close path])).
  rewrite exports_app, entries_read_app, inspects_app. cbn [exports entries_read inspects flat_map].
  rewrite !app_nil_r.
  repeat split; [ | | exact Hp | exact Hm | exact Hr | exact Hi].
  - change (stops_when_cancelled (e ++ [dir_close path]) = true).
    now apply stops_snoc_halted.
  - cbn [existsb cancel_seen orb]. rewrite existsb_cancel_seen_app. cbn.
    rewrite orb_false_r. exact Hc.
Qed.

(** A search that finds its cancellable triggered does nothing, whatever
    the mount points hold. *)
Lemma search_mount_points_cancelled (w : World) (c : GCancellable)
    (mps : list string) (bundles : list Bundle) (context : MainContext) (polls : nat) :
  is_cancelled c polls = true ->
  exists polls' evs,
    search_mount_points w c mps bundles context polls = Some (bundles, context, polls', evs)
    /\ halted evs = true.
Proof.
  intros H. destruct mps; cbn [search_mount_points]; [|rewrite H];
    eexists _, _; split; reflexivity.
Qed.

Lemma search_mount_points_respects (w : World) (c : GCancellable) (mps : list string) :
  forall bundles context polls,
    when_defined (cancellation_respected c polls bundles)
      (search_mount_points w c mps bundles context polls).
Proof.
  induction mps as [|mp mps IH]; intros bundles context polls; cbn [search_mount_points].
  - apply cancellation_respected_idle; first [reflexivity | discriminate].
  - destruct (is_cancelled c polls) eqn:Hnow.
    + apply cancellation_respected_idle; try reflexivity; [lia|].
      intros _. apply (is_cancelled_mono c polls); [lia | exact Hnow].
    + pose proof (find_rauc_bundles_respects w c (fs_root w mp) mp context (S polls)) as Hf.
      destruct (find_rauc_bundles w c mp (fs_root w mp) context (S polls))
        as [[[[found c1] p1] e1]|]; [|exact I].
      destruct Hf as (Hs1 & Hc1 & Hp1 & Hm1 & Hr1 & Hi1).
      specialize (IH (g_slist_concat bundles found) c1 p1).
      pose proof (search_mount_points_cancelled w c mps (g_slist_concat bundles found) c1 p1)
        as Hrest.
      destruct (search_mount_points w c mps (g_slist_concat bundles found) c1 p1)
        as [[[[r c'] p] e]|]; [|exact I].
      cbn [when_defined] in *.
      apply (cancellation_respected_glue c polls p1 p bundles
               (g_slist_concat bundles found) r c1 c' (cancel_check false :: e1) e);
        [|exact IH |].
      * unfold cancellation_respected.
        assert (answered_false c polls <= answered_false c (S polls))%nat
          by (apply answered_false_mono; lia).
        repeat split; [exact Hs1 | exact Hc1 | lia | | | exact Hi1].
        -- unfold g_slist_concat. rewrite map_app. now rewrite Hm1.
        -- change (entries_read (cancel_check false :: e1)) with (entries_read e1). lia.
      * intros Hcan. destruct (Hrest Hcan) as (p' & e' & Heq & Hhalt). congruence.
Qed.

(** *** Where the search is defined *)

Lemma compatible_after_check (w : World) (context : MainContext) (file : string)
    (b : Bundle) (context' : MainContext) (evs : list event) :
  check_rauc_bundle w context file = Some (b, context', evs) ->
  compatible context' = compatible context.
Proof.
  intros H. apply check_rauc_bundle_some in H as (_ & _ & _ & _ & -> & _). reflexivity.
Qed.




Lemma setenv_events (env : list env_var) :
  existsb cancel_seen (map launcher_setenv env) = false
  /\ exports (map launcher_setenv env) = [].
Proof. induction env as [|v env [IH1 IH2]]; split; auto. Qed.

Lemma run_hook_install_events (w : World) (bundles : list Bundle) :
  existsb cancel_seen (run_hook_install w bundles) = false
  /\ exports (run_hook_install w bundles) = [].
Proof.
  unfold run_hook_install. destruct (script_file w) as [script|]; [|auto].
  destruct bundles as [|b0 rest]; [auto|].
  destruct (setenv_events (launcher_environment (b0 :: rest))) as [Hc He].
  rewrite existsb_cancel_seen_app, exports_app, Hc, He. cbn [orb app].
  destruct (hook w _) as [| | index]; [auto | auto |].
  cbn. destruct (index =? 0); [auto|].
  destruct (g_slist_nth_data _ _) as [b|]; [|auto].
  cbn. now destruct (installer_install w (bundle_path b)).
Qed.

Lemma bundles_destroyed_events (l : list Bundle) :
  existsb cancel_seen (bundles_destroyed l) = false
  /\ exports (bundles_destroyed l) = []
  /\ halted (bundles_destroyed l) = true.
Proof. induction l as [|b l (IH1 & IH2 & IH3)]; repeat split; auto. Qed.

(** *** A cancellable triggered earlier *)

Section Earlier.
Variables (w : World) (c later : GCancellable).
Hypothesis earlier : forall p, is_cancelled later p = true -> is_cancelled c p = true.





End Earlier.

(** Triggered while the search is inside the subdirectory: only a.raucb is
    returned, b.raucb is never read. *)
Example cancelled_in_subdirectory :
  exists bundles context' evs,
    search_mount_points (Sample.world None 0 Sample.three_files (Some 3%nat)) (Some 3%nat)
                        ["/mnt"%string] [] (main_context (Some "sys-A"%string)) 0%nat
    = Some (bundles, context', 5%nat, evs)
    /\ map bundle_path bundles = ["/mnt/a.raucb"%string]
    /\ entries_read evs = ["/mnt/a.raucb"%string; "/mnt/sub"%string]
    /\ inspects evs = ["/mnt/a.raucb"%string].
Proof. eexists _, _, _. repeat split; reflexivity. Qed.

(** Triggered before the file that is no bundle is read: the search is
    defined and returns nothing; left alone it is undefined. *)
Example cancelled_before_rejected_file :
  search_mount_points (Sample.world None 0 Sample.readme_and_bundle None) (Some 1%nat)
                      ["/mnt"%string] [] (main_context (Some "sys-A"%string)) 0%nat
  = Some ([], main_context (Some "sys-A"%string), 2%nat,
          [cancel_check false; dir_open "/mnt"; cancel_check true; dir_close "/mnt"])
  /\ search_mount_points (Sample.world None 0 Sample.readme_and_bundle None) None
                         ["/mnt"%string] [] (main_context (Some "sys-A"%string)) 0%nat
     = None.
Proof. split; reflexivity. Qed.


(** ** The order of the bundles found *)

Lemma read_entries_order (w : World) (es : list (string * node)) :
  Forall (fun e => forall path context polls,
              match find_rauc_bundles w None path (snd e) context polls with
              | Some (r, context', _, _) =>
                  forallb (is_compatible_bundle w (compatible context))
                          (traversal_order path (snd e)) = true
                  /\ compatible context' = compatible context
                  /\ map bundle_path r = found_order path (snd e)
              | None =>
                  forallb (is_compatible_bundle w (compatible context))
                          (traversal_order path (snd e)) = false
              end) es ->
  forall path bundles context polls,
    match read_entries w None path es bundles context polls with
    | Some (r, context', _, _) =>
        forallb (is_compatible_bundle w (compatible context))
                (traversal_entries_with traversal_order path es) = true
        /\ compatible context' = compatible context
        /\ map bundle_path r
           = found_entries_with found_order path es (map bundle_path bundles)
    | None =>
        forallb (is_compatible_bundle w (compatible context))
                (traversal_entries_with traversal_order path es) = false
    end.
Proof.
  induction 1 as [|[name child] es Hchild _ IH]; intros path bundles context polls;
    unfold read_entries in *;
    cbn [read_entries_with is_cancelled found_entries_with traversal_entries_with].
  - auto.
  - cbn [snd] in Hchild. rewrite forallb_app. destruct child as [| entries | |].
    + cbn [forallb andb]. specialize (IH path bundles context (S polls)).
      destruct (read_entries_with _ w None path es bundles context (S polls))
        as [[[[r c'] p] e]|]; exact IH.
    + specialize (Hchild (path +:+ "/" +:+ name) context (S polls)).
      destruct (find_rauc_bundles w None (path +:+ "/" +:+ name) (Dir entries) context (S polls))
        as [[[[sub c1] p1] e1]|]; [|now rewrite Hchild].
      destruct Hchild as (Hhere & Hc1 & Hsub). rewrite Hhere. cbn [andb].
      specialize (IH path (g_slist_concat bundles sub) c1 p1). rewrite Hc1 in IH.
      destruct (read_entries_with _ w None path es (g_slist_concat bundles sub) c1 p1)
        as [[[[r c'] p] e]|]; [|exact IH].
      destruct IH as (Hall & Hc & Hr). split; [exact Hall|]. split; [exact Hc|].
      rewrite Hr. unfold g_slist_concat. now rewrite map_app, Hsub.
    + cbn [forallb]. rewrite andb_true_r.
      destruct (check_rauc_bundle w context (path +:+ "/" +:+ name))
        as [[[b c1] e1]|] eqn:Hcheck.
      2:{ apply check_rauc_bundle_undefined in Hcheck. now rewrite Hcheck. }
      pose proof (compatible_after_check _ _ _ _ _ _ Hcheck) as Hc1.
      pose proof (check_rauc_bundle_some _ _ _ _ _ _ Hcheck) as (_ & _ & Hpath & _).
      rewrite (proj1 (check_rauc_bundle_defined w context _)) by (rewrite Hcheck; eauto).
      cbn [andb].
      specialize (IH path (g_slist_prepend bundles b) c1 (S polls)). rewrite Hc1 in IH.
      destruct (read_entries_with _ w None path es (g_slist_prepend bundles b) c1 (S polls))
        as [[[[r c'] p] e]|]; [|exact IH].
      destruct IH as (Hall & Hc & Hr). split; [exact Hall|]. split; [exact Hc|].
      rewrite Hr. unfold g_slist_prepend. cbn [map]. now rewrite Hpath.
    + cbn [forallb andb]. specialize (IH path bundles context (S polls)).
      destruct (read_entries_with _ w None path es bundles context (S polls))
        as [[[[r c'] p] e]|]; exact IH.
Qed.

Lemma find_rauc_bundles_order (w : World) (n : node) :
  forall path context polls,
    match find_rauc_bundles w None path n context polls with
    | Some (r, context', _, _) =>
        forallb (is_compatible_bundle w (compatible context)) (traversal_order path n) = true
        /\ compatible context' = compatible context
        /\ map bundle_path r = found_order path n
    | None =>
        forallb (is_compatible_bundle w (compatible context)) (traversal_order path n) = false
    end.
Proof.
  induction n as [ | | | | es Hes] using node_nested_ind; intros path context polls.
  1-4: (cbn; auto).
  rewrite find_rauc_bundles_dir.
  pose proof (read_entries_order w es Hes path [] context polls) as Hloop.
  destruct (read_entries w None path es [] context polls) as [[[[r c'] p] e]|];
    exact Hloop.
Qed.

Lemma search_mount_points_order (w : World) (mps : list string) :
  forall bundles context polls,
    match search_mount_points w None mps bundles context polls with
    | Some (r, context', _, _) =>
        only_bundles w (compatible context) mps = true
        /\ compatible context' = compatible context
        /\ map bundle_path r
           = map bundle_path bundles
             ++ flat_map (fun mp => found_order mp (fs_root w mp)) mps
    | None => only_bundles w (compatible context) mps = false
    end.
Proof.
  unfold only_bundles, files_under.
  induction mps as [|mp mps IH]; intros bundles context polls;
    cbn [search_mount_points is_cancelled flat_map].
  - now rewrite app_nil_r.
  - rewrite forallb_app.
    pose proof (find_rauc_bundles_order w (fs_root w mp) mp context (S polls)) as Hf.
    destruct (find_rauc_bundles w None mp (fs_root w mp) context (S polls))
      as [[[[found c1] p1] e1]|]; [|now rewrite Hf].
    destruct Hf as (Hhere & Hc1 & Hfound). rewrite Hhere. cbn [andb].
    specialize (IH (g_slist_concat bundles found) c1 p1). rewrite Hc1 in IH.
    destruct (search_mount_points w None mps (g_slist_concat bundles found) c1 p1)
      as [[[[r c'] p] e]|]; [|exact IH].
    destruct IH as (Hall & Hc & Hr). split; [exact Hall|]. split; [exact Hc|].
    rewrite Hr. unfold g_slist_concat. now rewrite map_app, Hfound, app_assoc.
Qed.

Lemma found_entries_app (order : string -> node -> list string)
    (path : string) (es1 es2 : list (string * node)) (so_far : list string) :
  found_entries_with order path (es1 ++ es2) so_far
  = found_entries_with order path es2 (found_entries_with order path es1 so_far).
Proof.
  revert so_far; induction es1 as [|[name child] es1 IH]; intros so_far; [reflexivity|].
  cbn [app found_entries_with]. apply IH.
Qed.

(** Same files as in the worded order, in another arrangement. *)
Lemma found_entries_permutation (path : string) (es : list (string * node)) :
  Forall (fun e => forall path, found_order path (snd e) ≡ₚ traversal_order path (snd e)) es ->
  forall so_far,
    found_entries_with found_order path es so_far
    ≡ₚ so_far ++ traversal_entries_with traversal_order path es.
Proof.
  induction 1 as [|[name child] es Hchild _ IH]; intros so_far;
    cbn [found_entries_with traversal_entries_with].
  - now rewrite app_nil_r.
  - rewrite IH. cbn [snd] in Hchild.
    destruct child as [| entries | |]; cbn [app]; try reflexivity.
    + rewrite <- app_assoc. now rewrite (Hchild (path +:+ "/" +:+ name)).
    + apply Permutation_middle.
Qed.

Lemma found_order_permutation (n : node) :
  forall path, found_order path n ≡ₚ traversal_order path n.
Proof.
  induction n as [ | | | | es Hes] using node_nested_ind; intros path; try reflexivity.
  cbn [found_order traversal_order].
  now rewrite (found_entries_permutation path es Hes []).
Qed.

(** A directory that holds only regular files comes out back to front. *)
Lemma found_entries_flat (order order' : string -> node -> list string)
    (path : string) (es : list (string * node)) :
  Forall (fun e => snd e = Regular) es ->
  forall so_far,
    found_entries_with order path es so_far
    = rev (traversal_entries_with order' path es) ++ so_far.
Proof.
  induction 1 as [|[name child] es Hchild _ IH]; intros so_far;
    cbn [found_entries_with traversal_entries_with]; [reflexivity|].
  cbn [snd] in Hchild. subst child. rewrite IH, rev_app_distr, <- app_assoc.
  reflexivity.
Qed.

(** C6 as worded fails: with the bundles a.raucb, sub/c.raucb and b.raucb
    read in that order the search returns b, a, c, not a, c, b. *)
Lemma C6_not_in_read_order : ~ discovered_in_traversal_order.
Proof.
  intros H.
  specialize (H (Sample.world None 0 Sample.three_files None)
                ["/run/media/disk-updater/sda1"%string]
                (main_context (Some "sys-A"%string)) _ eq_refl).
  vm_compute in H. discriminate.
Qed.

(** C6, amended. Where every regular file under the mount points is a
    bundle, an uncancelled search returns the bundles of the first mount
    point before those of the later ones, and for each mount point the same
    bundles as a depth-first walk in read order, but arranged as the list is
    built: a bundle file is put in front of everything its directory has
    yielded so far, a subdirectory's bundles are put behind it. A directory
    holding only bundle files therefore yields them in reverse read order.
    Nothing is sorted. Where some regular file is no bundle the search has no
    defined result. *)
Theorem C6_discovery_order
    (w : World) (mount_points : list string) (context : MainContext) :
  discovered w mount_points context
  = (if only_bundles w (compatible context) mount_points
     then Some (flat_map (fun mp => found_order mp (fs_root w mp)) mount_points)
     else None)
  /\ (forall path n, found_order path n ≡ₚ traversal_order path n)
  /\ (forall path es name,
        found_order path (Dir (Some (es ++ [(name, Regular)])))
        = (path +:+ "/" +:+ name) :: found_order path (Dir (Some es)))
  /\ (forall path es name sub,
        found_order path (Dir (Some (es ++ [(name, Dir sub)])))
        = found_order path (Dir (Some es))
          ++ found_order (path +:+ "/" +:+ name) (Dir sub))
  /\ (forall path es,
        Forall (fun e => snd e = Regular) es ->
        found_order path (Dir (Some es)) = rev (traversal_order path (Dir (Some es)))).
Proof.
  split; [|split; [|split; [|split]]].
  - unfold discovered.
    pose proof (search_mount_points_order w mount_points [] context 0%nat) as H.
    destruct (search_mount_points w None mount_points [] context 0%nat)
      as [[[[r c'] p] e]|].
    + destruct H as (-> & _ & ->). reflexivity.
    + now rewrite H.
  - intros path n. apply found_order_permutation.
  - intros path es name. cbn [found_order]. rewrite found_entries_app. reflexivity.
  - intros path es name sub. cbn [found_order]. rewrite found_entries_app. reflexivity.
  - intros path es Hflat. cbn [found_order traversal_order].
    rewrite (found_entries_flat _ traversal_order path es Hflat []).
    apply app_nil_r.
Qed.

Example discovery_order_sample :
  discovered (Sample.world None 0 Sample.three_files None) ["/mnt"%string]
             (main_context (Some "sys-A"%string))
  = Some ["/mnt/b.raucb"%string; "/mnt/a.raucb"%string; "/mnt/sub/c.raucb"%string].
Proof. reflexivity. Qed.

(** ** Device count and bundle counter *)

Lemma on_detach_counts (device : GUdevDevice) (context : MainContext) :
  let context' := fst (on_detach device context) in
  device_count context' = guint_decr (device_count context)
  /\ bundle_dbus_count context'
     = (if guint_decr (device_count context) =? 0 then 0 else bundle_dbus_count context)
  /\ exists unexported,
       snd (on_detach device context)
       = set_device_count (guint_decr (device_count context))
         :: map dbus_unexport unexported.
Proof.
  unfold on_detach. cbn [fst snd].
  destruct (guint_decr (device_count context) =? 0); cbn.
  - repeat split.
    destruct (bundles_by_disk context !! DISK_ID device) as [old|].
    + exists (map object_number old). unfold bundles_destroyed. now rewrite map_map.
    + now exists [].
  - repeat split.
    destruct (bundles_by_disk context !! DISK_ID device) as [old|].
    + exists (map object_number old). unfold bundles_destroyed. now rewrite map_map.
    + now exists [].
Qed.

(** In [check_rauc_bundle] a published bundle gets the counter's next value,
    modulo 2^32. *)
Lemma check_rauc_bundle_counter (w : World) (context : MainContext) (file : string)
    (b : Bundle) (context' : MainContext) (evs : list event) :
  check_rauc_bundle w context file = Some (b, context', evs) ->
  bundle_dbus_count context' = (bundle_dbus_count context + 1) mod 2 ^ 32.
Proof.
  intros H. apply check_rauc_bundle_some in H as (_ & _ & _ & _ & -> & _). reflexivity.
Qed.

(** C2 fails on the code. Stick A is attached and its bundle is exported as
    object 1. Stick B is plugged in and pulled before its debounce check: the
    worker emits "detach" for B, [on_detach] takes the device count from 1 to
    0 and resets the bundle counter, although A is still attached and its
    object 1 still exported. The bundle of stick C, attached next, is
    exported as object 1 again. *)
Theorem C2_counter_reset_while_disk_attached :
  exists d0 evs0 d evs d' evs',
    daemon_run Sample.os_ok Sample.hookless (daemon_start (Some "sys-A"%string))
               Sample.a_attached = Some (d0, evs0)
    /\ exports evs0 = [(1, "/run/media/disk-updater/sda1/update.raucb"%string)]
    /\ bundle_dbus_count (context d0) = 1 /\ device_count (context d0) = 1
    /\ daemon_run Sample.os_ok Sample.hookless d0 Sample.b_plugged_and_pulled = Some (d, evs)
    /\ attach_signals evs = [] /\ detach_signals evs = ["uuid-b"%string]
    /\ unexports evs = []
    /\ attached_disks (monitor d) = ["uuid-a"%string]
    /\ bundles_by_disk (context d) !! "uuid-a"%string
       = Some [Sample.bundle 1 "/run/media/disk-updater/sda1/update.raucb" "1.0"]
    /\ device_count (context d) = 0
    /\ bundle_dbus_count (context d) = 0
    /\ daemon_run Sample.os_ok Sample.hookless d Sample.c_attached = Some (d', evs')
    /\ exports evs' = [(1, "/run/media/disk-updater/sdc1/update.raucb"%string)]
    /\ unexports evs' = [].
Proof.
  do 6 eexists.
  split; [vm_compute; reflexivity|].
  do 3 (split; [vm_compute; reflexivity|]).
  split; [vm_compute; reflexivity|].
  do 7 (split; [vm_compute; reflexivity|]).
  split; [vm_compute; reflexivity|].
  split; vm_compute; reflexivity.
Qed.

Lemma guint_decr_zero : guint_decr 0 = 4294967295.
Proof. reflexivity. Qed.

(** A remove event for a disk in the table queues the disk behind the jobs
    that wait, flagged unattached and with its cancellable triggered. *)
Lemma remove_queues_disk (os : OS) (w : World) (d : Daemon) (now : Z)
    (device : GUdevDevice) (a : addr) (disk : Disk) :
  subsystem device = Some "block"%string ->
  disks (monitor d) !! DISK_ID device = Some a ->
  heap (monitor d) !! a = Some disk ->
  daemon_step os w d (Uevent now "remove" device)
  = Some ({| monitor :=
               {| disks := delete (DISK_ID device) (disks (monitor d));
                  process_device_queue := process_device_queue (monitor d) ++ [JobDisk a];
                  heap := <[a := g_cancellable_cancel (set_attached false disk)]>
                            (heap (monitor d));
                  next_addr := next_addr (monitor d);
                  timeouts := timeouts (monitor d) |};
             context := context d |}, []).
Proof.
  intros Hsub Hid Hheap.
  cbn [daemon_step]. unfold on_uevent. rewrite Hsub. simpl. now rewrite Hid, Hheap.
Qed.

(** The worker's pass over a queued disk that is flagged unattached. *)
Lemma worker_detaches (os : OS) (w : World) (d : Daemon) (a : addr) (disk : Disk)
    (rest : list job) :
  process_device_queue (monitor d) = JobDisk a :: rest ->
  heap (monitor d) !! a = Some disk ->
  attached disk = false ->
  exists d' unexported,
    daemon_step os w d Worker
    = Some (d', emit_detach (gudev_device disk)
                :: set_device_count ((device_count (context d) - 1) mod 2 ^ 32)
                :: map dbus_unexport unexported ++ free_disk os disk)
    /\ monitor d' = {| disks := disks (monitor d); process_device_queue := rest;
                       heap := delete a (heap (monitor d));
                       next_addr := next_addr (monitor d);
                       timeouts := timeouts (monitor d) |}
    /\ device_count (context d') = (device_count (context d) - 1) mod 2 ^ 32
    /\ (device_count (context d) = 0 ->
        device_count (context d') = 4294967295
        /\ bundle_dbus_count (context d') = bundle_dbus_count (context d)).
Proof.
  intros Hq Hheap Hatt.
  pose proof (on_detach_counts (gudev_device disk) (context d)) as (Hcount & Hreset & unexp & Hevs).
  destruct (on_detach (gudev_device disk) (context d)) as [c' evh] eqn:Hdet.
  cbn [fst snd] in *.
  exists {| monitor := {| disks := disks (monitor d); process_device_queue := rest;
                          heap := delete a (heap (monitor d));
                          next_addr := next_addr (monitor d);
                          timeouts := timeouts (monitor d) |};
            context := c' |}, unexp.
  split; [|split; [reflexivity|]].
  - cbn [daemon_step]. unfold process_disk_thread_func. rewrite Hq, Hheap, Hatt.
    unfold detach_handler. rewrite Hdet, Hevs. reflexivity.
  - cbn [context]. unfold guint_decr, guint_wrap, GUINT_MODULUS in *.
    split; [exact Hcount|].
    intros H0. rewrite H0 in *. cbn in Hcount, Hreset. split; [exact Hcount | exact Hreset].
Qed.

(** A remove event for a disk in the table, with the worker idle, followed by
    the worker's next pass. *)
Lemma remove_then_worker (os : OS) (w : World) (d : Daemon) (now : Z)
    (device : GUdevDevice) (a : addr) (disk : Disk) :
  subsystem device = Some "block"%string ->
  disks (monitor d) !! DISK_ID device = Some a ->
  heap (monitor d) !! a = Some disk ->
  process_device_queue (monitor d) = [] ->
  exists d' unexported,
    daemon_run os w d [Uevent now "remove" device; Worker]
    = Some (d', emit_detach (gudev_device disk)
                :: set_device_count ((device_count (context d) - 1) mod 2 ^ 32)
                :: map dbus_unexport unexported ++ free_disk os disk)
    /\ device_count (context d') = (device_count (context d) - 1) mod 2 ^ 32
    /\ (device_count (context d) = 0 ->
        device_count (context d') = 4294967295
        /\ bundle_dbus_count (context d') = bundle_dbus_count (context d))
    /\ disks (monitor d') !! DISK_ID device = None
    /\ heap (monitor d') !! a = None.
Proof.
  intros Hsub Hid Hheap Hq.
  cbn [daemon_run]. rewrite (remove_queues_disk os w d now device a disk Hsub Hid Hheap).
  rewrite Hq. cbn [app].
  match goal with |- context [daemon_step os w ?d1 Worker] => set (d1' := d1) end.
  destruct (worker_detaches os w d1' a (g_cancellable_cancel (set_attached false disk)) [])
    as (d' & unexp & Hstep & Hm & Hcount & Hzero);
    [reflexivity | apply lookup_insert_eq | reflexivity |].
  exists d', unexp. rewrite Hstep. cbn [app].
  split; [now rewrite app_nil_r|]. split; [exact Hcount|]. split; [exact Hzero|].
  rewrite Hm. cbn [disks heap]. subst d1'. cbn [monitor disks heap].
  split; apply lookup_delete_eq.
Qed.

(** A queued disk that is flagged unattached gets its "detach" once the worker
    has gone through the jobs ahead of it, the sentinel not being among them,
    if the worker's behaviour on these jobs is defined. *)
Lemma worker_reaches_detach (os : OS) (w : World) (ahead : list job) :
  forall (d : Daemon) (a : addr) (disk : Disk) (behind : list job)
         (d' : Daemon) (evs : list event),
    process_device_queue (monitor d) = ahead ++ JobDisk a :: behind ->
    Forall (fun j => j <> JobQuit) ahead ->
    heap (monitor d) !! a = Some disk ->
    attached disk = false ->
    daemon_run os w d (repeat Worker (S (length ahead))) = Some (d', evs) ->
    In (emit_detach (gudev_device disk)) evs.
Proof.
  induction ahead as [|j ahead IH]; intros d a disk behind d' evs Hq Hnoquit Hheap Hatt;
    cbn [length app] in *.
  - cbn [repeat daemon_run].
    destruct (worker_detaches os w d a disk behind Hq Hheap Hatt)
      as (d1 & unexp & -> & _).
    intros [= <- <-]. now left.
  - change (repeat Worker (S (S (length ahead))))
      with (Worker :: repeat Worker (S (length ahead))).
    cbn [daemon_run].
    destruct (daemon_step os w d Worker) as [[d1 e1]|] eqn:Hs; [|discriminate].
    destruct (daemon_run os w d1 (repeat Worker (S (length ahead))))
      as [[d2 e2]|] eqn:Hr; [|discriminate].
    intros [= <- <-]. apply in_or_app.
    apply Forall_cons in Hnoquit as [Hj Hnoquit].
    destruct j as [b|]; [|congruence].
    cbn [daemon_step] in Hs. unfold process_disk_thread_func in Hs. rewrite Hq in Hs.
    destruct (heap (monitor d) !! b) as [other|] eqn:Hb; [|discriminate].
    destruct (attached other) eqn:Hattb.
    + destruct (mount_partitions os (partitions other) other) as [other1 ev_mount].
      destruct (attach_handler w _ _ _ _) as [[c1|] ev_handler]; [|discriminate].
      injection Hs as <- <-. right.
      refine (IH _ a disk behind d2 e2 _ Hnoquit _ Hatt Hr);
        cbn [monitor process_device_queue heap]; [reflexivity|].
      rewrite lookup_insert_ne; [exact Hheap | intros <-; congruence].
    + destruct (detach_handler _ _) as [[c1|] ev_handler]; [|discriminate].
      injection Hs as <- <-.
      destruct (decide (b = a)) as [->|Hne].
      * left. rewrite Hheap in Hb. injection Hb as <-. now left.
      * right.
        refine (IH _ a disk behind d2 e2 _ Hnoquit _ Hatt Hr);
          cbn [monitor process_device_queue heap]; [reflexivity|].
        rewrite lookup_delete_ne; [exact Hheap | congruence].
Qed.

(** A disk removed after the debounce check queued it but before the worker
    mounted it sits in the queue twice, flagged unattached: the first pass
    emits "detach" and frees it, the second pass uses the freed struct. *)
Example removed_before_mount_job_runs :
  daemon_run Sample.os_ok Sample.hookless (daemon_start (Some "sys-A"%string))
             [Uevent 0 "add" Sample.sda; Timeout 2000000;
              Uevent 2000001 "remove" Sample.sda; Worker]
  = Some ({| monitor := {| disks := ∅; process_device_queue := [JobDisk 0%nat];
                           heap := ∅; next_addr := 1%nat; timeouts := 0%nat |};
             context := {| compatible := Some "sys-A"%string; bundle_dbus_count := 0;
                           device_count := 4294967295; bundles_by_disk := ∅ |} |},
          [emit_detach Sample.sda; set_device_count 4294967295])
  /\ daemon_run Sample.os_ok Sample.hookless (daemon_start (Some "sys-A"%string))
                [Uevent 0 "add" Sample.sda; Timeout 2000000;
                 Uevent 2000001 "remove" Sample.sda; Worker; Worker]
     = None.
Proof. split; reflexivity. Qed.

(** C10 as worded fails: stick A is pulled after the debounce check queued
    it, so it waits in the queue twice and the worker's first pass frees it.
    Stick B is then plugged in and pulled: its job waits behind the freed
    disk's, and no number of worker passes emits "detach" for B. *)
Lemma C10_remove_behind_freed_disk : ~ every_remove_produces_detach.
Proof.
  intros H.
  destruct (daemon_run Sample.os_ok Sample.hookless (daemon_start (Some "sys-A"%string))
                       Sample.a_pulled_early_then_b) as [[d evs]|] eqn:Hrun;
    [|vm_compute in Hrun; discriminate].
  specialize (H _ _ _ _ d evs 3000001 Sample.sdb 1%nat (new_disk Sample.sdb 3000000)
                Hrun eq_refl).
  vm_compute in Hrun. injection Hrun as <- <-.
  destruct (H eq_refl eq_refl) as (passes & d' & evs' & Hrun' & Hin).
  destruct passes as [|passes].
  - vm_compute in Hrun'. injection Hrun' as <- <-. destruct Hin.
  - cbn [repeat] in Hrun'. vm_compute in Hrun'. discriminate.
Qed.

(** C10, amended. A remove event for a disk in the table queues the disk
    behind the jobs that wait, attached or not. Unless the sentinel is
    queued, "detach" is emitted for it once the worker has gone through the
    jobs ahead of it, if the worker's behaviour on them is defined; with no
    job waiting it is, and the worker's next pass emits "detach". The
    worker's pass over a queued disk that is flagged unattached emits
    "detach", and [on_detach] decrements the device count modulo 2^32: from 0
    it becomes 4294967295 and the bundle counter is not reset. So a stick
    pulled before its debounce check leaves a device count of 4294967295 with
    no disk attached; and when afterwards a stick is attached (count 0),
    publishes a bundle and is pulled, no disk is left, the count is
    4294967295 and the bundle counter is still 1. *)
Theorem C10_detach_without_attach :
  (forall (os : OS) (w : World) (d : Daemon) (now : Z) (device : GUdevDevice)
          (a : addr) (disk : Disk) (d' : Daemon) (evs : list event),
      subsystem device = Some "block"%string ->
      disks (monitor d) !! DISK_ID device = Some a ->
      heap (monitor d) !! a = Some disk ->
      Forall (fun j => j <> JobQuit) (process_device_queue (monitor d)) ->
      daemon_run os w d
                 (Uevent now "remove" device
                  :: repeat Worker (S (length (process_device_queue (monitor d)))))
      = Some (d', evs) ->
      In (emit_detach (gudev_device disk)) evs)
  /\ (forall (os : OS) (w : World) (d : Daemon) (now : Z) (device : GUdevDevice)
          (a : addr) (disk : Disk),
      subsystem device = Some "block"%string ->
      disks (monitor d) !! DISK_ID device = Some a ->
      heap (monitor d) !! a = Some disk ->
      process_device_queue (monitor d) = [] ->
      exists d' unexported,
        daemon_run os w d [Uevent now "remove" device; Worker]
        = Some (d', emit_detach (gudev_device disk)
                    :: set_device_count ((device_count (context d) - 1) mod 2 ^ 32)
                    :: map dbus_unexport unexported ++ free_disk os disk)
        /\ device_count (context d') = (device_count (context d) - 1) mod 2 ^ 32
        /\ (device_count (context d) = 0 ->
            device_count (context d') = 4294967295
            /\ bundle_dbus_count (context d') = bundle_dbus_count (context d)))
  /\ (forall (os : OS) (w : World) (d : Daemon) (now : Z) (device : GUdevDevice)
             (a : addr) (disk : Disk),
        subsystem device = Some "block"%string ->
        disks (monitor d) !! DISK_ID device = Some a ->
        heap (monitor d) !! a = Some disk ->
        exists d1,
          daemon_step os w d (Uevent now "remove" device) = Some (d1, [])
          /\ process_device_queue (monitor d1)
             = process_device_queue (monitor d) ++ [JobDisk a]
          /\ heap (monitor d1) !! a = Some (g_cancellable_cancel (set_attached false disk))
          /\ context d1 = context d)
  /\ (forall (os : OS) (w : World) (d : Daemon) (a : addr) (disk : Disk) (rest : list job),
        process_device_queue (monitor d) = JobDisk a :: rest ->
        heap (monitor d) !! a = Some disk ->
        attached disk = false ->
        exists d' unexported,
          daemon_step os w d Worker
          = Some (d', emit_detach (gudev_device disk)
                      :: set_device_count ((device_count (context d) - 1) mod 2 ^ 32)
                      :: map dbus_unexport unexported ++ free_disk os disk)
          /\ process_device_queue (monitor d') = rest
          /\ device_count (context d') = (device_count (context d) - 1) mod 2 ^ 32
          /\ (device_count (context d) = 0 ->
              device_count (context d') = 4294967295
              /\ bundle_dbus_count (context d') = bundle_dbus_count (context d)))
  /\ (exists d1 evs1 d2 evs2,
        daemon_run Sample.os_ok Sample.hookless (daemon_start (Some "sys-A"%string))
                   Sample.b_plugged_and_pulled = Some (d1, evs1)
        /\ attach_signals evs1 = [] /\ detach_signals evs1 = ["uuid-b"%string]
        /\ attached_disks (monitor d1) = []
        /\ device_count (context d1) = 4294967295
        /\ daemon_run Sample.os_ok Sample.hookless d1 (Sample.a_attached ++ Sample.a_pulled)
           = Some (d2, evs2)
        /\ attach_signals evs2 = ["uuid-a"%string]
        /\ detach_signals evs2 = ["uuid-a"%string]
        /\ disks (monitor d2) = ∅ /\ bundles_by_disk (context d2) = ∅
        /\ device_count (context d2) = 4294967295
        /\ bundle_dbus_count (context d2) = 1).
Proof.
  split; [|split; [|split; [|split]]].
  - intros os w d now device a disk d' evs Hsub Hid Hheap Hnoquit.
    cbn [daemon_run].
    rewrite (remove_queues_disk os w d now device a disk Hsub Hid Hheap).
    match goal with |- context [daemon_run os w ?d1 _] => set (d1' := d1) end.
    destruct (daemon_run os w d1' _) as [[d2 e2]|] eqn:Hr; [|discriminate].
    intros [= <- <-]. cbn [app].
    apply (worker_reaches_detach os w (process_device_queue (monitor d)) d1' a
             (g_cancellable_cancel (set_attached false disk)) [] d2 e2);
      [reflexivity | exact Hnoquit | apply lookup_insert_eq | reflexivity | exact Hr].
  - intros os w d now device a disk Hsub Hid Hheap Hq.
    destruct (remove_then_worker os w d now device a disk Hsub Hid Hheap Hq)
      as (d' & unexp & Hrun & Hcount & Hzero & _).
    exists d', unexp. auto.
  - intros os w d now device a disk Hsub Hid Hheap.
    eexists. split; [exact (remove_queues_disk os w d now device a disk Hsub Hid Hheap)|].
    cbn [monitor context process_device_queue heap].
    split; [reflexivity|]. split; [apply lookup_insert_eq | reflexivity].
  - intros os w d a disk rest Hq Hheap Hatt.
    destruct (worker_detaches os w d a disk rest Hq Hheap Hatt)
      as (d' & unexp & Hstep & Hm & Hcount & Hzero).
    exists d', unexp. rewrite Hm. auto.
  - do 4 eexists.
    split; [vm_compute; reflexivity|].
    do 4 (split; [vm_compute; reflexivity|]).
    split; [vm_compute; reflexivity|].
    do 5 (split; [vm_compute; reflexivity|]).
    vm_compute; reflexivity.
Qed.

Lemma C10_detach_without_attach_witness :
  let d := {| monitor := Sample.monitor_with (Sample.disk_sda false [] 0) [];
              context := main_context (Some "sys-A"%string) |} in
  exists d',
    daemon_run Sample.os_ok Sample.hookless d [Uevent 500000 "remove" Sample.sda; Worker]
    = Some (d', [emit_detach Sample.sda; set_device_count 4294967295])
    /\ device_count (context d') = 4294967295.
Proof.
  destruct (proj1 (proj2 C10_detach_without_attach) Sample.os_ok Sample.hookless
              {| monitor := Sample.monitor_with (Sample.disk_sda false [] 0) [];
                 context := main_context (Some "sys-A"%string) |}
              500000 Sample.sda 0%nat (Sample.disk_sda false [] 0)
              eq_refl eq_refl eq_refl eq_refl)
    as (d' & unexp & Hrun & Hcount & _).
  exists d'. split; [|exact Hcount].
  rewrite Hrun. f_equal. f_equal.
  vm_compute in Hrun. injection Hrun as _ Hevs.
  destruct unexp; [reflexivity | discriminate].
Defined.

(** ** Reachable monitor states *)

Lemma udev_monitor_new_consistent : monitor_consistent udev_monitor_new.
Proof.
  split; unfold table_live; cbn; intros; try (now exfalso);
    match goal with H : ∅ !! _ = Some _ |- _ => now rewrite lookup_empty in H end.
Qed.

Lemma on_uevent_consistent (os : OS) (self self' : UdevMonitor) (now : Z)
    (action : option string) (device : GUdevDevice) (evs : list event) :
  monitor_consistent self ->
  on_uevent os self now action device = Some (self', evs) ->
  monitor_consistent self'.
Proof.
  intros [Hlive Hinj Hheap Hqueue Hqatt]. unfold on_uevent.
  destruct (negb _); [intros [= <- <-]; now split|].
  destruct (g_strcmp0 action (Some "add"%string) =? 0).
  { destruct (g_strcmp0 (DEVTYPE device) (Some "disk"%string) =? 0).
    - (* new disk *)
      assert (Hfresh_heap : heap self !! next_addr self = None).
      { destruct (heap self !! next_addr self) as [d|] eqn:Hd; [|reflexivity].
        apply Hheap in Hd. lia. }
      assert (Hfresh_table : forall id, disks self !! id <> Some (next_addr self)).
      { intros id Hid. destruct (Hlive id _ Hid) as [d Hd]. congruence. }
      assert (Hgoal : forall hp,
                 (forall a d, hp !! a = Some d -> heap self !! a = Some d) ->
                 (forall id a, id <> DISK_ID device -> disks self !! id = Some a ->
                               hp !! a = heap self !! a) ->
                 monitor_consistent
                   {| disks := <[DISK_ID device := next_addr self]> (disks self);
                      process_device_queue := process_device_queue self;
                      heap := <[next_addr self := new_disk device now]> hp;
                      next_addr := S (next_addr self);
                      timeouts := S (timeouts self) |}).
      { intros hp Hsub Hkeep. split; unfold table_live; cbn [disks heap next_addr process_device_queue].
        - intros id a. rewrite lookup_insert. case_decide as Hid.
          + intros [= <-]. rewrite lookup_insert_eq. eauto.
          + intros Ha. rewrite lookup_insert_ne by (intros <-; exact (Hfresh_table id Ha)).
            rewrite (Hkeep id a) by auto. exact (Hlive id a Ha).
        - intros id1 id2 a. rewrite !lookup_insert.
          case_decide as H1; case_decide as H2.
          + congruence.
          + intros [= <-] Ha. exfalso. exact (Hfresh_table id2 Ha).
          + intros Ha [= <-]. exfalso. exact (Hfresh_table id1 Ha).
          + apply Hinj.
        - intros a d. rewrite lookup_insert. case_decide; [lia|].
          intros Ha. apply Hsub, Hheap in Ha. lia.
        - intros a Ha. apply Hqueue in Ha. lia.
        - intros id a d. rewrite lookup_insert. case_decide as Hid.
          + intros [= <-] _ Hin. apply Hqueue in Hin. lia.
          + intros Ha. rewrite lookup_insert_ne by (intros <-; exact (Hfresh_table id Ha)).
            rewrite (Hkeep id a) by auto. intros Hd. exact (Hqatt id a d Ha Hd). }
      destruct (disks self !! DISK_ID device) as [old|] eqn:Hold.
      + destruct (heap self !! old) as [old_disk|]; [|discriminate].
        intros [= <- <-]. apply Hgoal.
        * intros a d Ha. apply lookup_delete_Some in Ha. tauto.
        * intros id a Hid Ha. apply lookup_delete_ne. intros <-.
          apply Hid. exact (Hinj _ _ _ Ha Hold).
      + intros [= <- <-]. apply Hgoal; auto.
    - destruct (g_strcmp0 (DEVTYPE device) (Some "partition"%string) =? 0);
        [|intros [= <- <-]; now split].
      (* new partition *)
      destruct (disks self !! DISK_ID device) as [a|] eqn:Ha; [|intros [= <- <-]; now split].
      destruct (heap self !! a) as [disk|] eqn:Hd; [|discriminate].
      destruct (attached disk) eqn:Hatt; cbn [negb]; intros [= <- <-]; [now split|].
      split; unfold table_live; cbn [disks heap next_addr process_device_queue].
      + intros id x Hx. rewrite lookup_insert. case_decide; [eauto | exact (Hlive id x Hx)].
      + exact Hinj.
      + intros x d. rewrite lookup_insert. case_decide as Hx; [subst; intros _; eauto | apply Hheap].
      + exact Hqueue.
      + intros id x d Hx. rewrite lookup_insert. case_decide as Hax; [|exact (Hqatt id x d Hx)].
        subst x. intros _ Hin. pose proof (Hqatt id a disk Hx Hd Hin). congruence. }
  destruct (g_strcmp0 action (Some "remove"%string) =? 0); [|intros [= <- <-]; now split].
  (* remove disk *)
  destruct (disks self !! DISK_ID device) as [a|] eqn:Ha; [|intros [= <- <-]; now split].
  destruct (heap self !! a) as [disk|] eqn:Hd; [|discriminate].
  intros [= <- <-].
  split; unfold table_live; cbn [disks heap next_addr process_device_queue].
  - intros id x Hx. apply lookup_delete_Some in Hx as [Hne Hx].
    rewrite lookup_insert. case_decide; [eauto | exact (Hlive id x Hx)].
  - intros id1 id2 x H1 H2. apply lookup_delete_Some in H1 as [_ H1].
    apply lookup_delete_Some in H2 as [_ H2]. exact (Hinj _ _ _ H1 H2).
  - intros x d. rewrite lookup_insert. case_decide as Hx; [subst; intros _; eauto | apply Hheap].
  - intros x Hin. apply in_app_or in Hin as [Hin | [[= <-] | []]]; [now apply Hqueue | eauto].
  - intros id x d Hx. apply lookup_delete_Some in Hx as [Hne Hx].
    assert (x <> a) by (intros ->; apply Hne; exact (Hinj _ _ _ Ha Hx)).
    rewrite lookup_insert_ne by congruence. intros Hdx Hin.
    apply in_app_or in Hin as [Hin | [[= <-] | []]]; [|congruence].
    exact (Hqatt id x d Hx Hdx Hin).
Qed.

Lemma on_disk_initialized_consistent (self self' : UdevMonitor) (now : Z) (again : bool) :
  monitor_consistent self ->
  on_disk_initialized self now = Some (self', again) ->
  monitor_consistent self'.
Proof.
  intros [Hlive Hinj Hheap Hqueue Hqatt]. unfold on_disk_initialized.
  destruct (find_initialized (heap self) now (map_to_list (disks self)))
    as [[a|]|] eqn:Hfind; [| intros [= <- <-]; now split | discriminate].
  apply find_initialized_found in Hfind as (id & disk & _ & Ha & _).
  rewrite Ha. intros [= <- <-].
  split; unfold table_live; cbn [disks heap next_addr process_device_queue].
  - intros id' x Hx. rewrite lookup_insert. case_decide; [eauto | exact (Hlive id' x Hx)].
  - exact Hinj.
  - intros x d. rewrite lookup_insert. case_decide as Hx; [subst; intros _; eauto | apply Hheap].
  - intros x Hin. apply in_app_or in Hin as [Hin | [[= <-] | []]]; [now apply Hqueue | eauto].
  - intros id' x d Hx. rewrite lookup_insert. case_decide as Hax.
    + intros [= <-] _. reflexivity.
    + intros Hd Hin. apply in_app_or in Hin as [Hin | [[= <-] | []]]; [|congruence].
      exact (Hqatt id' x d Hx Hd Hin).
Qed.

Lemma timeout_dispatch_consistent (self self' : UdevMonitor) (now : Z) :
  monitor_consistent self ->
  timeout_dispatch self now = Some self' ->
  monitor_consistent self'.
Proof.
  intros Hc. unfold timeout_dispatch. destruct (timeouts self); [now intros [= <-]|].
  destruct (on_disk_initialized self now) as [[self1 again]|] eqn:Hrun; [|discriminate].
  apply (on_disk_initialized_consistent _ _ _ _ Hc) in Hrun.
  destruct again; intros [= <-]; [exact Hrun|].
  destruct Hrun. now split.
Qed.

Lemma process_disk_thread_func_consistent {H : Type}
    (attach : GUdevDevice -> list string -> bool -> H -> H * list event)
    (detach : GUdevDevice -> H -> H * list event)
    (os : OS) (self self' : UdevMonitor) (h h' : H) (evs : list event) :
  monitor_consistent self ->
  process_disk_thread_func attach detach os self h = Processed self' h' evs ->
  monitor_consistent self'.
Proof.
  intros [Hlive Hinj Hheap Hqueue Hqatt]. unfold process_disk_thread_func.
  destruct (process_device_queue self) as [|[a|] rest] eqn:Hq; try discriminate.
  destruct (heap self !! a) as [disk|] eqn:Ha; [|discriminate].
  destruct (attached disk) eqn:Hatt.
  - pose proof (mount_partitions_spec os (partitions disk) disk) as (Hd & _).
    destruct (mount_partitions os (partitions disk) disk) as [disk' evm].
    cbn [fst] in Hd. destruct (attach _ _ _ h) as [h1 evh]. intros [= <- <- <-].
    split; unfold table_live; cbn [disks heap next_addr process_device_queue].
    + intros id x Hx. rewrite lookup_insert. case_decide; [eauto | exact (Hlive id x Hx)].
    + exact Hinj.
    + intros x d. rewrite lookup_insert.
      case_decide as Hx; [subst x; intros _; eauto | apply Hheap].
    + intros x Hin. apply Hqueue. now right.
    + intros id x d Hx. rewrite lookup_insert. case_decide as Hax.
      * intros [= <-] _. rewrite Hd. exact Hatt.
      * intros Hdx Hin. apply (Hqatt id x d Hx Hdx). now right.
  - destruct (detach _ h) as [h1 evh]. intros [= <- <- <-].
    assert (Hout : forall id, disks self !! id <> Some a).
    { intros id Hid. pose proof (Hqatt id a disk Hid Ha (or_introl eq_refl)). congruence. }
    split; unfold table_live; cbn [disks heap next_addr process_device_queue].
    + intros id x Hx. rewrite lookup_delete_ne; [exact (Hlive id x Hx)|].
      intros <-. exact (Hout id Hx).
    + exact Hinj.
    + intros x d Hx. apply lookup_delete_Some in Hx as [_ Hx]. exact (Hheap x d Hx).
    + intros x Hin. apply Hqueue. now right.
    + intros id x d Hx Hdx Hin. apply lookup_delete_Some in Hdx as [_ Hdx].
      apply (Hqatt id x d Hx Hdx). now right.
Qed.

Lemma daemon_step_consistent (os : OS) (w : World) (d d' : Daemon) (s : step)
    (evs : list event) :
  monitor_consistent (monitor d) ->
  daemon_step os w d s = Some (d', evs) ->
  monitor_consistent (monitor d').
Proof.
  intros Hc. destruct s as [now action device | now |]; cbn [daemon_step].
  - destruct (on_uevent os (monitor d) now (Some action) device) as [[m e]|] eqn:Hev;
      [|discriminate].
    intros [= <- <-]. exact (on_uevent_consistent _ _ _ _ _ _ _ Hc Hev).
  - destruct (timeout_dispatch (monitor d) now) as [m|] eqn:Ht; [|discriminate].
    intros [= <- <-]. exact (timeout_dispatch_consistent _ _ _ Hc Ht).
  - destruct (process_disk_thread_func _ _ os (monitor d) (Some (context d)))
      as [| | | m [c|] e] eqn:Hw; try discriminate; try (now intros [= <- <-]).
    intros [= <- <-]. exact (process_disk_thread_func_consistent _ _ _ _ _ _ _ _ Hc Hw).
Qed.

(** Every state the daemon reaches from its start is consistent; in
    particular its table is live, which is what the debounce check needs. *)
Lemma daemon_run_consistent (os : OS) (w : World) (l : list step) :
  forall (d d' : Daemon) (evs : list event),
    monitor_consistent (monitor d) ->
    daemon_run os w d l = Some (d', evs) ->
    monitor_consistent (monitor d').
Proof.
  induction l as [|s l IH]; intros d d' evs Hc; cbn [daemon_run].
  - now intros [= <- <-].
  - destruct (daemon_step os w d s) as [[d1 e1]|] eqn:Hs; [|discriminate].
    destruct (daemon_run os w d1 l) as [[d2 e2]|] eqn:Hr; [|discriminate].
    intros [= <- <-].
    exact (IH d1 d2 e2 (daemon_step_consistent _ _ _ _ _ _ Hc Hs) Hr).
Qed.

Lemma reachable_table_live (os : OS) (w : World) (sys : option string)
    (l : list step) (d : Daemon) (evs : list event) :
  daemon_run os w (daemon_start sys) l = Some (d, evs) -> table_live (monitor d).
Proof.
  intros Hrun. apply consistent_live.
  exact (daemon_run_consistent os w l (daemon_start sys) d evs
           udev_monitor_new_consistent Hrun).
Qed.

(* ===================================================================== *)
(** * Further properties of the sources *)
(* ===================================================================== *)

Import Further.

(** ** The uevent callback *)

Lemma g_strcmp0_neqb (a b : option string) : (g_strcmp0 a b =? 0) = false <-> a <> b.
Proof.
  rewrite <- g_strcmp0_eqb. destruct (g_strcmp0 a b =? 0); split; congruence.
Qed.

Lemma on_uevent_no_effect (os : OS) (self : UdevMonitor) (now : Z)
    (action : option string) (device : GUdevDevice) :
  subsystem device <> Some "block"%string
  \/ (action <> Some "add"%string /\ action <> Some "remove"%string)
  \/ (action = Some "add"%string /\ DEVTYPE device <> Some "disk"%string
      /\ DEVTYPE device <> Some "partition"%string)
  \/ (action = Some "remove"%string /\ disks self !! DISK_ID device = None) ->
  on_uevent os self now action device = Some (self, []).
Proof.
  intros Hcase. unfold on_uevent.
  destruct (g_strcmp0 (subsystem device) (Some "block"%string) =? 0) eqn:Hsub;
    cbn [negb]; [|reflexivity].
  apply g_strcmp0_eqb in Hsub.
  destruct Hcase as [H | [[Hadd Hrem] | [(Hadd & Hdisk & Hpart) | [Hrem Hnone]]]].
  - contradiction.
  - apply g_strcmp0_neqb in Hadd, Hrem. now rewrite Hadd, Hrem.
  - apply g_strcmp0_neqb in Hdisk, Hpart. subst action. cbn. now rewrite Hdisk, Hpart.
  - subst action. cbn. now rewrite Hnone.
Qed.

(** A uevent that is not about a block device, or whose action is neither
    "add" nor "remove", or that adds something that is neither a disk nor a
    partition, or that removes a disk the table does not hold, changes
    nothing and logs nothing. *)
Theorem uevent_ignored (os : OS) (self : UdevMonitor) (now : Z)
    (action : option string) (device : GUdevDevice) :
  subsystem device <> Some "block"%string
  \/ (action <> Some "add"%string /\ action <> Some "remove"%string)
  \/ (action = Some "add"%string /\ DEVTYPE device <> Some "disk"%string
      /\ DEVTYPE device <> Some "partition"%string)
  \/ (action = Some "remove"%string /\ disks self !! DISK_ID device = None) ->
  on_uevent os self now action device = Some (self, []).
Proof. apply on_uevent_no_effect. Qed.

Lemma uevent_ignored_witness :
  let self := Sample.monitor_with (Sample.disk_sda false [] 0) [] in
  on_uevent Sample.os_ok self 7 (Some "change"%string) Sample.sda = Some (self, [])
  /\ on_uevent Sample.os_ok self 7 (Some "remove"%string) Sample.sdb = Some (self, []).
Proof.
  split.
  - apply (uevent_ignored Sample.os_ok
             (Sample.monitor_with (Sample.disk_sda false [] 0) []) 7
             (Some "change"%string) Sample.sda).
    right. left. split; discriminate.
  - apply (uevent_ignored Sample.os_ok
             (Sample.monitor_with (Sample.disk_sda false [] 0) []) 7
             (Some "remove"%string) Sample.sdb).
    right. right. right. split; reflexivity.
Defined.

(** A remove event whose [ID_PART_TABLE_UUID] is in the table, whatever its
    [DEVTYPE] (a partition's remove event carries the disk's id too), takes
    the disk out of the table, flags it unattached, triggers its cancellable
    and queues it behind the jobs already waiting; the other disks are left
    alone, nothing is logged, and a second remove event for the same id
    changes nothing any more. *)
Theorem remove_takes_disk_once (os : OS) (self : UdevMonitor) (now now' : Z)
    (device : GUdevDevice) (a : addr) (disk : Disk) :
  subsystem device = Some "block"%string ->
  disks self !! DISK_ID device = Some a ->
  heap self !! a = Some disk ->
  exists self',
    on_uevent os self now (Some "remove"%string) device = Some (self', [])
    /\ disks self' = delete (DISK_ID device) (disks self)
    /\ heap self' = <[a := g_cancellable_cancel (set_attached false disk)]> (heap self)
    /\ process_device_queue self' = process_device_queue self ++ [JobDisk a]
    /\ timeouts self' = timeouts self
    /\ on_uevent os self' now' (Some "remove"%string) device = Some (self', []).
Proof.
  intros Hsub Hid Ha. eexists. split.
  - unfold on_uevent. rewrite Hsub. cbn. rewrite Hid, Ha. reflexivity.
  - cbn [disks heap process_device_queue timeouts]. repeat split.
    apply on_uevent_no_effect. right. right. right. split; [reflexivity|].
    cbn [disks]. apply lookup_delete_eq.
Qed.

Lemma remove_takes_disk_once_witness :
  exists self',
    on_uevent Sample.os_ok (Sample.monitor_with (Sample.disk_sda true [] 0) []) 9
              (Some "remove"%string) Sample.sda1 = Some (self', [])
    /\ process_device_queue self' = [JobDisk 0%nat]
    /\ on_uevent Sample.os_ok self' 10 (Some "remove"%string) Sample.sda1 = Some (self', []).
Proof.
  destruct (remove_takes_disk_once Sample.os_ok
              (Sample.monitor_with (Sample.disk_sda true [] 0) []) 9 10 Sample.sda1
              0%nat (Sample.disk_sda true [] 0) eq_refl eq_refl eq_refl)
    as (self' & Hrun & _ & _ & Hq & _ & Hagain).
  exists self'. split; [exact Hrun|]. split; [exact Hq | exact Hagain].
Defined.

(** ** Partitions and mount points *)

Lemma last_nonempty_default {A} (x : A) (l : list A) (d d' : A) :
  List.last (x :: l) d = List.last (x :: l) d'.
Proof.
  revert x; induction l as [|y l IH]; intros x; [reflexivity|].
  change (List.last (y :: l) d = List.last (y :: l) d'). apply IH.
Qed.

Lemma settle_arrivals (os : OS) (id : string) (arrivals : list arrival) :
  forall (self : UdevMonitor) (a : addr) (disk : Disk),
    disks self !! id = Some a -> heap self !! a = Some disk -> attached disk = false ->
    exists self',
      settle os self (map (arrival_event id) arrivals) = Some self'
      /\ disks self' = disks self
      /\ process_device_queue self' = process_device_queue self
      /\ heap self' !! a
         = Some {| attached := false; gudev_device := gudev_device disk;
                   cancellable := cancellable disk;
                   partitions := rev (map (arrival_device id) arrivals) ++ partitions disk;
                   mount_points := mount_points disk;
                   initialized := List.last (map (fun x : arrival => fst (fst x)) arrivals)
                                            (initialized disk) |}.
Proof.
  induction arrivals as [|[[now name] fstype] arrivals IH]; intros self a disk Hid Ha Hatt.
  - exists self. cbn. repeat split. rewrite Ha. f_equal. destruct disk; cbn in *. now subst.
  - cbn [map arrival_event settle settle_step].
    rewrite (on_uevent_partition_restarts_timer os self now
               (block_partition id name fstype) a disk eq_refl eq_refl Hid Ha Hatt).
    cbn [fmap option_fmap option_map fst].
    destruct (IH (partition_added self a disk (block_partition id name fstype) now) a
                 {| attached := false; gudev_device := gudev_device disk;
                    cancellable := cancellable disk;
                    partitions := block_partition id name fstype :: partitions disk;
                    mount_points := mount_points disk; initialized := now |})
      as (self' & Hrun & Hd & Hq & Hh).
    + exact Hid.
    + cbn [partition_added heap]. apply lookup_insert_eq.
    + reflexivity.
    + exists self'. split; [exact Hrun|]. split; [exact Hd|]. split; [exact Hq|].
      rewrite Hh. cbn [gudev_device cancellable partitions mount_points initialized
                         map arrival_device rev fst].
      f_equal. f_equal.
      * now rewrite <- app_assoc.
      * destruct arrivals as [|x arrivals]; [reflexivity|].
        cbn [map initialized fst].
        rewrite (last_nonempty_default _ _ now (initialized disk)). reflexivity.
Qed.

(** Partitions are prepended to the disk's list as they arrive, and the mount
    job prepends each mount point as it walks that list: the mount points
    handed over with "attach" are those of the mounted partitions in the
    order the partitions arrived. *)
Theorem mount_points_in_arrival_order (os : OS) (self : UdevMonitor) (id : string)
    (a : addr) (disk : Disk) (arrivals : list arrival) :
  disks self !! id = Some a ->
  heap self !! a = Some disk ->
  attached disk = false ->
  partitions disk = [] ->
  mount_points disk = [] ->
  exists self' disk',
    settle os self (map (arrival_event id) arrivals) = Some self'
    /\ heap self' !! a = Some disk'
    /\ partitions disk' = rev (map (arrival_device id) arrivals)
    /\ mount_points (fst (mount_partitions os (partitions disk') disk'))
       = map mount_dir_of (List.filter (gets_mounted os) (map (arrival_device id) arrivals)).
Proof.
  intros Hid Ha Hatt Hparts Hmps.
  destruct (settle_arrivals os id arrivals self a disk Hid Ha Hatt)
    as (self' & Hrun & _ & _ & Hh).
  eexists self', _. split; [exact Hrun|]. split; [exact Hh|].
  cbn [partitions]. rewrite Hparts, app_nil_r. split; [reflexivity|].
  destruct (mount_partitions_spec os (rev (map (arrival_device id) arrivals))
              {| attached := false; gudev_device := gudev_device disk;
                 cancellable := cancellable disk;
                 partitions := rev (map (arrival_device id) arrivals);
                 mount_points := mount_points disk;
                 initialized := List.last (map (fun x : arrival => fst (fst x)) arrivals)
                                          (initialized disk) |}) as (Hd & _).
  rewrite Hd. cbn [set_mount_points mount_points]. rewrite Hmps, app_nil_r.
  now rewrite List.filter_rev, List.map_rev, rev_involutive.
Qed.

Lemma mount_points_in_arrival_order_witness :
  exists self' disk',
    settle Sample.os_ok (Sample.monitor_with (Sample.disk_sda false [] 0) [])
           [PartitionAdd 10 "uuid-a" "sda1" (Some "vfat"%string);
            PartitionAdd 20 "uuid-a" "sda2" (Some "ntfs"%string);
            PartitionAdd 30 "uuid-a" "sda3" (Some "ext4"%string)] = Some self'
    /\ heap self' !! 0%nat = Some disk'
    /\ mount_points (fst (mount_partitions Sample.os_ok (partitions disk') disk'))
       = ["/run/media/disk-updater/sda1"%string; "/run/media/disk-updater/sda3"%string].
Proof.
  destruct (mount_points_in_arrival_order Sample.os_ok
              (Sample.monitor_with (Sample.disk_sda false [] 0) []) "uuid-a" 0%nat
              (Sample.disk_sda false [] 0)
              [(10, "sda1"%string, Some "vfat"%string);
               (20, "sda2"%string, Some "ntfs"%string);
               (30, "sda3"%string, Some "ext4"%string)]
              eq_refl eq_refl eq_refl eq_refl eq_refl)
    as (self' & disk' & Hrun & Hh & _ & Hm).
  exists self', disk'. split; [exact Hrun|]. split; [exact Hh | exact Hm].
Defined.

(** ** Supported filesystem types *)

Lemma ascii_eqb_sym (a b : ascii) : Ascii.eqb a b = Ascii.eqb b a.
Proof.
  destruct (Ascii.eqb_spec a b) as [->|Hne].
  - symmetry. apply Ascii.eqb_refl.
  - symmetry. apply Ascii.eqb_neq. congruence.
Qed.

Lemma split_pieces_single_iff (d : ascii) (s tok : string) :
  split_pieces d s = [tok] <-> s = tok /\ str_mem d s = false.
Proof.
  split.
  - intros H. split; [now apply (split_pieces_single d)|].
    revert tok H; induction s as [|c r IH]; intros tok; cbn [split_pieces str_mem];
      [reflexivity|].
    rewrite (ascii_eqb_sym d c). destruct (Ascii.eqb c d).
    + intros [= _ Hr]. now destruct (split_pieces_not_nil d r).
    + destruct (split_pieces d r) as [|h t] eqn:Hr;
        [now destruct (split_pieces_not_nil d r)|].
      intros [= _ ->]. cbn [orb]. now apply (IH h).
  - intros [<- H]. induction s as [|c r IH]; cbn [split_pieces str_mem] in *; [reflexivity|].
    rewrite (ascii_eqb_sym d c) in H. destruct (Ascii.eqb c d); [discriminate|].
    cbn [orb] in H. now rewrite (IH H).
Qed.

Lemma line_names_fstype_iff (t line : string) :
  line_names_fstype (Some t) line = true
  <-> g_strstrip (g_strdelimit line (" " +:+ Sample.tab) " ") = t
      /\ t <> EmptyString /\ str_mem " " t = false.
Proof.
  unfold line_names_fstype.
  change (String " " (String "009" "")) with (" " +:+ Sample.tab).
  set (stripped := g_strstrip (g_strdelimit line (" " +:+ Sample.tab) " ")).
  unfold g_strsplit. split.
  - destruct stripped as [|c r] eqn:Hs; [discriminate|].
    destruct (split_pieces " " (String c r)) as [|tok [|]] eqn:Hsplit; try discriminate.
    intros Hcmp. apply g_strcmp0_eqb in Hcmp. injection Hcmp as ->.
    apply split_pieces_single_iff in Hsplit as [<- Hmem].
    repeat split; [discriminate | exact Hmem].
  - intros (<- & Hne & Hmem). destruct stripped as [|c r] eqn:Hs; [congruence|].
    rewrite (proj2 (split_pieces_single_iff " " (String c r) (String c r)))
      by (split; [reflexivity | exact Hmem]).
    now apply g_strcmp0_eqb.
Qed.

Lemma line_names_null (line : string) : line_names_fstype None line = false.
Proof.
  unfold line_names_fstype. destruct (g_strsplit _ " ") as [|tok [|]]; reflexivity.
Qed.

Lemma scan_lines_iff (fstype : option string) (lines : list string) :
  scan_lines fstype lines = true
  <-> exists line, In line lines /\ line_names_fstype fstype line = true.
Proof.
  induction lines as [|l r IH]; cbn [scan_lines].
  - split; [discriminate | intros (line & [] & _)].
  - destruct (line_names_fstype fstype l) eqn:Hl.
    + split; [|reflexivity]. intros _. exists l. split; [now left | exact Hl].
    + rewrite IH. split.
      * intros (line & Hin & H). exists line. split; [now right | exact H].
      * intros (line & [<- | Hin] & H); [congruence|]. now exists line.
Qed.

(** [is_in_filesystem_file] answers TRUE for a type exactly when the file can
    be read and one of its lines, tabs read as blanks and white space
    stripped at both ends, is that type, the type being non-empty and free of
    blanks; so a "nodev <type>" line never counts. It answers FALSE for a
    missing type (NULL) and for an unreadable file, which it reports with a
    warning. It reads the file exactly once per call and makes no other
    call. *)
Theorem filesystem_supported_iff (os : OS) (file : string) :
  (forall t,
      fst (is_in_filesystem_file os file (Some t)) = true
      <-> exists contents line,
            file_contents os file = Some contents
            /\ In line (g_strsplit contents "010")
            /\ g_strstrip (g_strdelimit line (" " +:+ Sample.tab) " ") = t
            /\ t <> EmptyString /\ str_mem " " t = false)
  /\ fst (is_in_filesystem_file os file None) = false
  /\ (forall fstype,
        file_contents os file = None ->
        is_in_filesystem_file os file fstype
        = (false, [read_file file; g_warning ("Error reading " +:+ file)]))
  /\ (forall fstype,
        reads (snd (is_in_filesystem_file os file fstype)) = 1%nat
        /\ syscalls (snd (is_in_filesystem_file os file fstype)) = []).
Proof.
  split; [|split; [|split]].
  - intros t. unfold is_in_filesystem_file.
    destruct (file_contents os file) as [contents|]; cbn [fst].
    + rewrite scan_lines_iff. split.
      * intros (line & Hin & Hl). apply line_names_fstype_iff in Hl.
        exists contents, line. tauto.
      * intros (c & line & [= <-] & Hin & Hl). exists line. split; [exact Hin|].
        now apply line_names_fstype_iff.
    + split; [discriminate | intros (c & line & [=] & _)].
  - unfold is_in_filesystem_file. destruct (file_contents os file) as [contents|];
      cbn [fst]; [|reflexivity].
    destruct (scan_lines None (g_strsplit contents "010")) eqn:Hs; [|reflexivity].
    apply scan_lines_iff in Hs as (line & _ & Hl). now rewrite line_names_null in Hl.
  - intros fstype Hnone. unfold is_in_filesystem_file. now rewrite Hnone.
  - intros fstype. apply is_in_filesystem_file_reads.
Qed.

Lemma is_in_filesystem_file_null (os : OS) (file : string) :
  fst (is_in_filesystem_file os file None) = false.
Proof.
  unfold is_in_filesystem_file. destruct (file_contents os file) as [contents|];
    cbn [fst]; [|reflexivity].
  destruct (scan_lines None (g_strsplit contents "010")) eqn:Hs; [|reflexivity].
  apply scan_lines_iff in Hs as (line & _ & Hl). now rewrite line_names_null in Hl.
Qed.

(** A partition that carries no [ID_FS_TYPE] is never mounted: the
    filesystems file is read, and then neither the directory is created nor
    [mount] called, and the disk is left as it was. A mount directory that
    exists already (EEXIST) is no failure: [mount] is called and, when it
    succeeds, the mount point is recorded in front of the earlier ones. *)
Theorem mount_partition_untyped_and_existing_dir
    (os : OS) (p : GUdevDevice) (disk : Disk) :
  (ID_FS_TYPE p = None ->
   fst (mount_partition os p disk) = disk
   /\ syscalls (snd (mount_partition os p disk)) = [])
  /\ (supported_by_os os p = true ->
      mkdir_result os (mount_dir_of p) = Err EEXIST ->
      syscalls (snd (mount_partition os p disk))
      = [sys_mkdir (mount_dir_of p);
         sys_mount (device_file p) (mount_dir_of p) (ID_FS_TYPE p)]
      /\ (mount_succeeds os p = true ->
          fst (mount_partition os p disk)
          = set_mount_points (mount_dir_of p :: mount_points disk) disk)).
Proof.
  pose proof (mount_partition_cases os p disk) as Hcases.
  destruct (mount_partition os p disk) as [disk' evs]. cbn [fst snd].
  destruct Hcases as (_ & Hd & Hunsup & _ & Hok). split.
  - intros Hnone.
    assert (Hs : supported_by_os os p = false).
    { unfold supported_by_os. rewrite Hnone. apply is_in_filesystem_file_null. }
    split; [|now apply Hunsup].
    rewrite Hd. unfold gets_mounted. now rewrite Hs.
  - intros Hs Hmk. destruct (Hok Hs) as [Hsys _]; [now rewrite Hmk|].
    split; [exact Hsys|]. intros Hm. rewrite Hd. unfold gets_mounted.
    now rewrite Hs, Hmk, Hm.
Qed.

(** ** What a search does to the context *)

Lemma counter_values_app (c : Z) (n m : nat) :
  counter_values c (n + m)
  = counter_values c n ++ counter_values (Nat.iter n guint_incr c) m.
Proof.
  revert c; induction n as [|n IH]; intros c; [reflexivity|].
  cbn [Nat.add counter_values app]. rewrite IH. do 2 f_equal.
  now rewrite Nat.iter_succ_r.
Qed.

Lemma forallb_search_event_app (a b : list event) :
  forallb search_event (a ++ b) = forallb search_event a && forallb search_event b.
Proof. apply forallb_app. Qed.

Lemma search_effect_glue (context c1 c2 : MainContext) (x y : list Bundle)
    (p1 p2 : nat) (e1 e2 : list event) :
  search_effect context (x, c1, p1, e1) ->
  search_effect c1 (y, c2, p2, e2) ->
  search_effect context (y, c2, p2, e1 ++ e2).
Proof.
  intros (Hev1 & Hc1 & Hd1 & Hb1 & Hn1 & Hx1) (Hev2 & Hc2 & Hd2 & Hb2 & Hn2 & Hx2).
  unfold search_effect. rewrite forallb_search_event_app, Hev1, Hev2.
  rewrite exports_app, length_app, map_app, counter_values_app, map_app.
  rewrite Hx1, Hx2, Hn2, Hn1. repeat split; try congruence.
  now rewrite (Nat.add_comm (length (exports e1))), Nat.iter_add.
Qed.

Lemma search_effect_silent (context : MainContext) (x : list Bundle) (p : nat)
    (evs : list event) :
  forallb search_event evs = true -> exports evs = [] ->
  search_effect context (x, context, p, evs).
Proof. intros Hev Hx. unfold search_effect. rewrite Hev, Hx. now repeat split. Qed.

Lemma search_effect_prefix (context c1 : MainContext) (x : list Bundle) (p : nat)
    (pre evs : list event) :
  forallb search_event pre = true -> exports pre = [] ->
  search_effect context (x, c1, p, evs) ->
  search_effect context (x, c1, p, pre ++ evs).
Proof.
  intros Hev Hx H.
  exact (search_effect_glue context context c1 x x p p pre evs
           (search_effect_silent context x p pre Hev Hx) H).
Qed.

Lemma check_rauc_bundle_effect (w : World) (context : MainContext) (file : string)
    (x : list Bundle) (p : nat) (b : Bundle) (context' : MainContext) (evs : list event) :
  check_rauc_bundle w context file = Some (b, context', evs) ->
  search_effect context (x, context', p, evs).
Proof.
  unfold check_rauc_bundle.
  destruct (g_str_has_suffix file ".raucb"); cbn [negb]; [|discriminate].
  destruct (installer_info w file) as [[compat version]|]; [|discriminate].
  destruct (g_strcmp0 (compatible context) (Some compat) =? 0); cbn [negb];
    [|discriminate].
  intros [= <- <- <-]. unfold search_effect. cbn. now repeat split.
Qed.

Lemma read_entries_effect (w : World) (c : GCancellable) (es : list (string * node)) :
  Forall (fun e => forall path context polls,
              when_defined (search_effect context)
                           (find_rauc_bundles w c path (snd e) context polls)) es ->
  forall path bundles context polls,
    when_defined (search_effect context) (read_entries w c path es bundles context polls).
Proof.
  induction 1 as [|[name child] es Hchild _ IH]; intros path bundles context polls;
    unfold read_entries in *; cbn [read_entries_with];
    destruct (is_cancelled c polls).
  1-3: now apply search_effect_silent.
  cbn [snd] in Hchild. destruct child as [| entries | |].
  - specialize (IH path bundles context (S polls)).
    destruct (read_entries_with _ w c path es bundles context (S polls))
      as [[[[r c'] p] e]|]; [|exact I].
    now apply (search_effect_prefix context c' r p [cancel_check false; dir_read path name]).
  - specialize (Hchild (path +:+ "/" +:+ name) context (S polls)).
    destruct (find_rauc_bundles w c (path +:+ "/" +:+ name) (Dir entries) context (S polls))
      as [[[[sub c1] p1] e1]|]; [|exact I].
    specialize (IH path (g_slist_concat bundles sub) c1 p1).
    destruct (read_entries_with _ w c path es (g_slist_concat bundles sub) c1 p1)
      as [[[[r c'] p] e]|]; [|exact I].
    apply (search_effect_prefix context c' r p [cancel_check false; dir_read path name]);
      [reflexivity | reflexivity |].
    exact (search_effect_glue context c1 c' sub r p1 p e1 e Hchild IH).
  - destruct (check_rauc_bundle w context (path +:+ "/" +:+ name))
      as [[[b c1] e1]|] eqn:Hcheck; [|exact I].
    apply (check_rauc_bundle_effect _ _ _ [] 0%nat) in Hcheck.
    specialize (IH path (g_slist_prepend bundles b) c1 (S polls)).
    destruct (read_entries_with _ w c path es (g_slist_prepend bundles b) c1 (S polls))
      as [[[[r c'] p] e]|]; [|exact I].
    apply (search_effect_prefix context c' r p [cancel_check false; dir_read path name]);
      [reflexivity | reflexivity |].
    exact (search_effect_glue context c1 c' [] r 0%nat p e1 e Hcheck IH).
  - specialize (IH path bundles context (S polls)).
    destruct (read_entries_with _ w c path es bundles context (S polls))
      as [[[[r c'] p] e]|]; [|exact I].
    now apply (search_effect_prefix context c' r p [cancel_check false; dir_read path name]).
Qed.

Lemma find_rauc_bundles_effect (w : World) (c : GCancellable) (n : node) :
  forall path context polls,
    when_defined (search_effect context) (find_rauc_bundles w c path n context polls).
Proof.
  induction n as [ | | | | es Hes] using node_nested_ind; intros path context polls.
  1-4: (apply search_effect_silent; [now destruct (is_cancelled c polls) | reflexivity]).
  rewrite find_rauc_bundles_dir.
  pose proof (read_entries_effect w c es Hes path [] context polls) as Hloop.
  destruct (read_entries w c path es [] context polls) as [[[[r c'] p] e]|]; [|exact I].
  apply (search_effect_prefix context c' r p [dir_open path]); [reflexivity | reflexivity |].
  apply (search_effect_glue context c' c' r r p p e [dir_close path] Hloop).
  now apply search_effect_silent.
Qed.

Lemma search_mount_points_effect (w : World) (c : GCancellable) (mps : list string) :
  forall bundles context polls,
    when_defined (search_effect context)
                 (search_mount_points w c mps bundles context polls).
Proof.
  induction mps as [|mp mps IH]; intros bundles context polls; cbn [search_mount_points].
  - now apply search_effect_silent.
  - destruct (is_cancelled c polls); [now apply search_effect_silent|].
    pose proof (find_rauc_bundles_effect w c (fs_root w mp) mp context (S polls)) as Hf.
    destruct (find_rauc_bundles w c mp (fs_root w mp) context (S polls))
      as [[[[found c1] p1] e1]|]; [|exact I].
    specialize (IH (g_slist_concat bundles found) c1 p1).
    destruct (search_mount_points w c mps (g_slist_concat bundles found) c1 p1)
      as [[[[r c'] p] e]|]; [|exact I].
    apply (search_effect_prefix context c' r p [cancel_check false]);
      [reflexivity | reflexivity |].
    exact (search_effect_glue context c1 c' found r p1 p e1 e Hf IH).
Qed.

Lemma counter_values_small (n : nat) :
  forall c, 0 <= c -> c + Z.of_nat n < 2 ^ 31 ->
    map printf_d (counter_values c n) = map (fun i => c + Z.of_nat i) (seq 1 n)
    /\ Nat.iter n guint_incr c = c + Z.of_nat n.
Proof.
  induction n as [|n IH]; intros c Hc Hn.
  - split; [reflexivity | cbn; lia].
  - cbn [counter_values map seq]. rewrite guint_incr_small by lia.
    destruct (IH (c + 1)) as [Hv Hi]; [lia | lia |].
    split.
    + rewrite printf_d_small by lia. f_equal; try lia.
      rewrite Hv, <- (seq_shift n 1), map_map. apply map_ext. intros i. lia.
    + rewrite Nat.iter_succ_r. rewrite guint_incr_small by lia. rewrite Hi. lia.
Qed.

Lemma increasing_no_dup (c : Z) (n start : nat) :
  NoDup (map (fun i => c + Z.of_nat i) (seq start n)).
Proof.
  revert start; induction n as [|n IH]; intros start; cbn [seq map]; constructor.
  - intros Hin. apply list_elem_of_In, in_map_iff in Hin as (i & Heq & Hi).
    apply in_seq in Hi. lia.
  - apply IH.
Qed.

(** In one search whose behaviour is defined the bundle counter is the only
    part of the context that moves. As long as it stays below 2^31, the
    objects exported are numbered with the values that follow the counter's
    start value, one after the other in export order, so no two get the same
    number, and the counter ends at the last number given. *)
Theorem exported_objects_numbered_in_sequence
    (w : World) (cancellable : GCancellable) (mount_points : list string)
    (context : MainContext) (bundles : list Bundle) (context' : MainContext)
    (polls : nat) (evs : list event) :
  search_mount_points w cancellable mount_points [] context 0%nat
  = Some (bundles, context', polls, evs) ->
  0 <= bundle_dbus_count context ->
  bundle_dbus_count context + Z.of_nat (length (exports evs)) < 2 ^ 31 ->
  map fst (exports evs)
  = map (fun i => bundle_dbus_count context + Z.of_nat i) (seq 1 (length (exports evs)))
  /\ NoDup (map fst (exports evs))
  /\ bundle_dbus_count context'
     = bundle_dbus_count context + Z.of_nat (length (exports evs))
  /\ compatible context' = compatible context
  /\ device_count context' = device_count context
  /\ bundles_by_disk context' = bundles_by_disk context.
Proof.
  intros Hrun H0 Hsmall.
  pose proof (search_mount_points_effect w cancellable mount_points [] context 0%nat) as H.
  rewrite Hrun in H. destruct H as (_ & Hc & Hd & Hb & Hn & Hx).
  destruct (counter_values_small (length (exports evs)) (bundle_dbus_count context) H0 Hsmall)
    as [Hv Hi].
  rewrite Hx, Hn, Hv, Hi.
  repeat split; try assumption. apply increasing_no_dup.
Qed.

Lemma exported_objects_numbered_in_sequence_witness :
  exists bundles context' polls evs,
    search_mount_points (Sample.world None 0 Sample.three_files None) None
                        ["/mnt"%string] [] (main_context (Some "sys-A"%string)) 0%nat
    = Some (bundles, context', polls, evs)
    /\ map fst (exports evs) = [1; 2; 3]
    /\ bundle_dbus_count context' = 3.
Proof.
  destruct (search_mount_points (Sample.world None 0 Sample.three_files None) None
              ["/mnt"%string] [] (main_context (Some "sys-A"%string)) 0%nat)
    as [[[[bundles context'] polls] evs]|] eqn:Hrun; [|vm_compute in Hrun; discriminate].
  exists bundles, context', polls, evs. split; [reflexivity|].
  destruct (exported_objects_numbered_in_sequence _ _ _ _ _ _ _ _ Hrun)
    as (Hnum & _ & Hcount & _).
  - cbn. lia.
  - vm_compute in Hrun. injection Hrun as <- <- <- <-. vm_compute. reflexivity.
  - rewrite Hnum, Hcount.
    vm_compute in Hrun. injection Hrun as <- <- <- <-. split; reflexivity.
Defined.

(** ** The install hook, further *)

Lemma run_hook_install_installs (w : World) (bundles : list Bundle) :
  let evs := run_hook_install w bundles in
  (installs evs = [] \/ exists b, In b bundles /\ installs evs = [bundle_path b])
  /\ (script_file w = None \/ bundles = []
      \/ hook w (launcher_environment bundles) = SpawnFailed
      \/ hook w (launcher_environment bundles) = WaitFailed -> installs evs = [])
  /\ spawns evs = match script_file w, bundles with
                  | Some _, _ :: _ => 1%nat
                  | _, _ => 0%nat
                  end.
Proof.
  cbn zeta. unfold run_hook_install.
  destruct (script_file w) as [script|]; [|cbn; auto 6].
  destruct bundles as [|b0 rest] eqn:Hb; [cbn; auto 6|]. rewrite <- Hb.
  assert (Hsp : spawns (map launcher_setenv (launcher_environment bundles)) = 0%nat).
  { unfold spawns. induction (launcher_environment bundles); [reflexivity | assumption]. }
  assert (Hspawn : forall tail,
             spawns tail = 0%nat ->
             spawns (map launcher_setenv (launcher_environment bundles)
                     ++ launcher_spawn script :: tail) = 1%nat).
  { intros tail Ht. unfold spawns in *. rewrite flat_map_app, length_app, Hsp. cbn.
    now rewrite Ht. }
  rewrite installs_app, installs_setenv. cbn [app installs flat_map].
  fold (installs). destruct (hook w (launcher_environment bundles)) as [| | index] eqn:Hh.
  - cbn. split; [now left|]. split; [reflexivity|]. subst bundles. now apply Hspawn.
  - cbn. split; [now left|]. split; [reflexivity|]. subst bundles. now apply Hspawn.
  - destruct (index =? 0).
    { cbn. split; [now left|]. split; [reflexivity|]. subst bundles. now apply Hspawn. }
    unfold g_slist_nth_data.
    destruct (nth_error bundles (Z.to_nat (guint_wrap (index - 1)))) as [b|] eqn:Hnth.
    + assert (Hi : installs (g_message ("Install bundle " +:+ bundle_path b)
                             :: call_install (bundle_path b)
                             :: (if installer_install w (bundle_path b) then []
                                 else [g_warning "Failed"])) = [bundle_path b]).
      { now destruct (installer_install w (bundle_path b)). }
      unfold installs in Hi |- *. rewrite Hi. split; [|split].
      * right. exists b. split; [|reflexivity]. exact (nth_error_In _ _ Hnth).
      * intros [H | [H | [H | H]]]; congruence.
      * subst bundles. apply Hspawn. unfold spawns. cbn.
        now destruct (installer_install w (bundle_path b)).
    + cbn. split; [now left|]. split; [reflexivity|]. subst bundles. now apply Hspawn.
Qed.

(** [run_hook_install] calls Install at most once, and only with the path of
    a bundle of the list it was given; it calls it not at all when no script
    is configured, the list is empty, the hook cannot be spawned or the wait
    for it fails. The hook is spawned at most once, and only with a script
    and a non-empty list. *)
Theorem hook_installs_at_most_one_listed_bundle (w : World) (bundles : list Bundle) :
  let evs := run_hook_install w bundles in
  (installs evs = [] \/ exists b, In b bundles /\ installs evs = [bundle_path b])
  /\ (script_file w = None \/ bundles = []
      \/ hook w (launcher_environment bundles) = SpawnFailed
      \/ hook w (launcher_environment bundles) = WaitFailed -> installs evs = [])
  /\ spawns evs = match script_file w, bundles with
                  | Some _, _ :: _ => 1%nat
                  | _, _ => 0%nat
                  end.
Proof. exact (run_hook_install_installs w bundles). Qed.

Lemma hook_environment_numbered (bundles : list Bundle) :
  forall c, 0 <= c -> c + Z.of_nat (length bundles) < 2 ^ 31 ->
    hook_environment bundles c
    = (c + Z.of_nat (length bundles), numbered_environment bundles (c + 1)).
Proof.
  induction bundles as [|b rest IH]; intros c Hc Hlen.
  - cbn. f_equal. lia.
  - cbn [hook_environment numbered_environment length]. cbn [length] in Hlen.
    rewrite guint_incr_small by lia. rewrite IH by lia.
    rewrite printf_d_small by lia. f_equal. lia.
Qed.

(** For fewer than 2^31 bundles the environment of the hook is, in this
    order, [BUNDLE_PATH_<n>] and [BUNDLE_VERSION_<n>] for the bundle at
    1-based list position [n], for every position, and last [BUNDLES] with
    the number of bundles: two variables per bundle and one more. *)
Theorem hook_environment_lists_every_bundle (bundles : list Bundle) :
  Z.of_nat (length bundles) < 2 ^ 31 ->
  launcher_environment bundles
  = numbered_environment bundles 1 ++ [BUNDLES (Z.of_nat (length bundles))]
  /\ length (launcher_environment bundles) = (2 * length bundles + 1)%nat.
Proof.
  intros Hlen. unfold launcher_environment.
  rewrite (hook_environment_numbered bundles 0) by lia.
  rewrite printf_d_small by lia. cbn [Z.add]. split; [reflexivity|].
  rewrite length_app. cbn [length].
  assert (Hn : forall l n, length (numbered_environment l n) = (2 * length l)%nat).
  { induction l as [|b l IH]; intros n; [reflexivity|]. cbn [numbered_environment length].
    rewrite IH. lia. }
  rewrite Hn. lia.
Qed.

Lemma hook_environment_lists_every_bundle_witness :
  launcher_environment Sample.three_bundles
  = [BUNDLE_PATH_ 1 "/run/media/disk-updater/sda1/c.raucb"; BUNDLE_VERSION_ 1 "3.0";
     BUNDLE_PATH_ 2 "/run/media/disk-updater/sda1/b.raucb"; BUNDLE_VERSION_ 2 "2.0";
     BUNDLE_PATH_ 3 "/run/media/disk-updater/sda1/a.raucb"; BUNDLE_VERSION_ 3 "1.0";
     BUNDLES 3].
Proof.
  destruct (hook_environment_lists_every_bundle Sample.three_bundles) as [H _].
  - cbn. lia.
  - rewrite H. reflexivity.
Defined.

(** ** The attach and detach handlers, further *)

Lemma search_events_only (evs : list event) :
  forallb search_event evs = true ->
  unexports evs = [] /\ statuses evs = [] /\ syscalls evs = [] /\ installs evs = []
  /\ spawns evs = 0%nat.
Proof.
  induction evs as [|e evs IH]; [now repeat split|].
  cbn [forallb]. rewrite andb_true_iff. intros [He Hevs].
  destruct (IH Hevs) as (H1 & H2 & H3 & H4 & H5).
  destruct e; try discriminate; now repeat split.
Qed.

Lemma hook_events_only (evs : list event) :
  forallb hook_event evs = true ->
  unexports evs = [] /\ statuses evs = [] /\ syscalls evs = [] /\ exports evs = []
  /\ existsb cancel_seen evs = false.
Proof.
  induction evs as [|e evs IH]; [now repeat split|].
  cbn [forallb]. rewrite andb_true_iff. intros [He Hevs].
  destruct (IH Hevs) as (H1 & H2 & H3 & H4 & H5).
  destruct e; try discriminate; now repeat split.
Qed.

Lemma run_hook_install_hook_events (w : World) (bundles : list Bundle) :
  forallb hook_event (run_hook_install w bundles) = true.
Proof.
  unfold run_hook_install. destruct (script_file w) as [script|]; [|reflexivity].
  destruct bundles as [|b0 rest]; [reflexivity|].
  rewrite forallb_app. apply andb_true_iff. split.
  - induction (launcher_environment (b0 :: rest)); [reflexivity | assumption].
  - cbn [forallb hook_event andb]. destruct (hook w _) as [| | index]; try reflexivity.
    destruct (index =? 0); [reflexivity|].
    destruct (g_slist_nth_data _ _) as [b|]; [|reflexivity].
    cbn. now destruct (installer_install w (bundle_path b)).
Qed.

Lemma unexports_app (a b : list event) : unexports (a ++ b) = unexports a ++ unexports b.
Proof. unfold unexports. apply flat_map_app. Qed.

Lemma statuses_app (a b : list event) : statuses (a ++ b) = statuses a ++ statuses b.
Proof. unfold statuses. apply flat_map_app. Qed.

Lemma spawns_app (a b : list event) : spawns (a ++ b) = (spawns a + spawns b)%nat.
Proof. unfold spawns. now rewrite flat_map_app, length_app. Qed.

Lemma bundles_destroyed_only (l : list Bundle) :
  unexports (bundles_destroyed l) = map object_number l
  /\ statuses (bundles_destroyed l) = [] /\ syscalls (bundles_destroyed l) = []
  /\ installs (bundles_destroyed l) = [] /\ spawns (bundles_destroyed l) = 0%nat.
Proof.
  induction l as [|b l (H1 & H2 & H3 & H4 & H5)]; [now repeat split|].
  repeat split; try assumption. cbn. f_equal. exact H1.
Qed.

(** The parts [on_attach] is made of. *)
Lemma on_attach_parts (w : World) (c : GCancellable) (device : GUdevDevice)
    (mps : list string) (context context' : MainContext) (evs : list event) :
  on_attach w c device mps context = Some (context', evs) ->
  exists bundles c1 polls ev_search,
    search_mount_points w c mps []
      (set_device_count_field (guint_incr (device_count context)) context) 0%nat
    = Some (bundles, c1, polls, ev_search)
    /\ context'
       = set_bundles_by_disk (<[DISK_ID device := bundles]> (bundles_by_disk c1)) c1
    /\ evs
       = set_device_count (guint_incr (device_count context)) :: set_status "scanning"
         :: ev_search
         ++ match bundles_by_disk c1 !! DISK_ID device with
            | Some old => bundles_destroyed old
            | None => []
            end
         ++ [set_status "idle"]
         ++ (if is_cancelled c polls then [cancel_check true]
             else cancel_check false :: run_hook_install w bundles).
Proof.
  unfold on_attach.
  destruct (search_mount_points w c mps []
              (set_device_count_field (guint_incr (device_count context)) context) 0%nat)
    as [[[[bundles c1] polls] ev_search]|]; [|discriminate].
  intros [= <- <-]. now exists bundles, c1, polls, ev_search.
Qed.

Lemma on_attach_defined (w : World) (c : GCancellable) (device : GUdevDevice)
    (mps : list string) (context : MainContext) :
  is_Some (on_attach w c device mps context)
  <-> is_Some (search_mount_points w c mps []
                 (set_device_count_field (guint_incr (device_count context)) context) 0%nat).
Proof.
  unfold on_attach.
  destruct (search_mount_points w c mps []
              (set_device_count_field (guint_incr (device_count context)) context) 0%nat)
    as [[[[bundles c1] polls] ev_search]|].
  - split; eauto.
  - split; intros [x [=]].
Qed.

Lemma on_attach_bookkeeping (w : World) (cancellable : GCancellable)
    (device : GUdevDevice) (mount_points : list string) (context context' : MainContext)
    (evs : list event) :
  on_attach w cancellable device mount_points context = Some (context', evs) ->
  exists bundles c1 polls ev_search rest,
    search_mount_points w cancellable mount_points []
      (set_device_count_field (guint_incr (device_count context)) context) 0%nat
    = Some (bundles, c1, polls, ev_search)
    /\ evs = set_device_count (guint_incr (device_count context))
             :: set_status "scanning" :: ev_search ++ rest
    /\ bundles_by_disk context' = <[DISK_ID device := bundles]> (bundles_by_disk context)
    /\ statuses evs = ["scanning"%string; "idle"%string]
    /\ syscalls evs = []
    /\ device_count context' = guint_incr (device_count context)
    /\ compatible context' = compatible context
    /\ unexports evs
       = map object_number (default [] (bundles_by_disk context !! DISK_ID device)).
Proof.
  intros Hdef.
  destruct (on_attach_parts w cancellable device mount_points context context' evs Hdef)
    as (bundles & c1 & polls & ev_search & Hsearch & -> & ->).
  exists bundles, c1, polls, ev_search. eexists. split; [exact Hsearch|].
  split; [reflexivity|].
  pose proof (search_mount_points_effect w cancellable mount_points []
                (set_device_count_field (guint_incr (device_count context)) context) 0%nat)
    as Heff.
  rewrite Hsearch in Heff. destruct Heff as (Hev & Hc & Hd & Hb & _).
  cbn [compatible device_count bundles_by_disk set_device_count_field] in Hc, Hd, Hb.
  destruct (search_events_only ev_search Hev) as (Su & Ss & Sy & _).
  destruct (hook_events_only _ (run_hook_install_hook_events w bundles)) as (Hu & Hs & Hy & _).
  set (replaced := match bundles_by_disk c1 !! DISK_ID device with
                   | Some old => bundles_destroyed old
                   | None => []
                   end).
  assert (Hrep : unexports replaced
                 = map object_number (default [] (bundles_by_disk context !! DISK_ID device))
                 /\ statuses replaced = [] /\ syscalls replaced = []).
  { subst replaced. rewrite Hb. destruct (bundles_by_disk context !! DISK_ID device) as [old|].
    - destruct (bundles_destroyed_only old) as (H1 & H2 & H3 & _). now repeat split.
    - now repeat split. }
  destruct Hrep as (Ru & Rs & Ry).
  cbn [device_count compatible bundles_by_disk set_bundles_by_disk].
  split; [now rewrite Hb|].
  split.
  { change (statuses (set_device_count ?a :: set_status ?b :: ?r)) with (b :: statuses r).
    rewrite !statuses_app, Ss, Rs.
    destruct (is_cancelled cancellable polls); [reflexivity|].
    change (statuses (cancel_check false :: ?r)) with (statuses r). now rewrite Hs. }
  split.
  { change (syscalls (set_device_count ?a :: set_status ?b :: ?r)) with (syscalls r).
    rewrite !syscalls_app, Sy, Ry. cbn [app].
    destruct (is_cancelled cancellable polls); [reflexivity|].
    change (syscalls (set_status "idle" :: cancel_check false :: ?r)) with (syscalls r).
    exact Hy. }
  split; [exact Hd|]. split; [exact Hc|].
  change (unexports (set_device_count ?a :: set_status ?b :: ?r)) with (unexports r).
  rewrite !unexports_app, Su, Ru. cbn [app].
  destruct (is_cancelled cancellable polls); [now rewrite app_nil_r|].
  change (unexports (cancel_check false :: ?r)) with (unexports r).
  now rewrite Hu, app_nil_r.
Qed.

(** An [on_attach] whose behaviour is defined raises the device count by one
    (modulo 2^32) and publishes it first, sets the status to "scanning", runs
    the search and, after it, sets the status once to "idle"; it makes no
    mount or unmount syscall. It stores the list the search returned under
    the disk's id, and a list stored there before is replaced and its objects
    are withdrawn from D-Bus: those and no others. The system compatible and
    the lists of other disks stay as they are. *)
Theorem attach_bookkeeping (w : World) (cancellable : GCancellable)
    (device : GUdevDevice) (mount_points : list string) (context context' : MainContext)
    (evs : list event) :
  on_attach w cancellable device mount_points context = Some (context', evs) ->
  exists bundles c1 polls ev_search rest,
    search_mount_points w cancellable mount_points []
      (set_device_count_field (guint_incr (device_count context)) context) 0%nat
    = Some (bundles, c1, polls, ev_search)
    /\ evs = set_device_count (guint_incr (device_count context))
             :: set_status "scanning" :: ev_search ++ rest
    /\ bundles_by_disk context' = <[DISK_ID device := bundles]> (bundles_by_disk context)
    /\ statuses evs = ["scanning"%string; "idle"%string]
    /\ syscalls evs = []
    /\ device_count context' = guint_incr (device_count context)
    /\ compatible context' = compatible context
    /\ unexports evs
       = map object_number (default [] (bundles_by_disk context !! DISK_ID device)).
Proof. exact (on_attach_bookkeeping w cancellable device mount_points context context' evs). Qed.

Lemma attach_bookkeeping_witness :
  exists context' evs,
    on_attach (Sample.world None 0 Sample.three_files None) None Sample.sda
              ["/mnt"%string] (main_context (Some "sys-A"%string))
    = Some (context', evs)
    /\ map bundle_path (default [] (bundles_by_disk context' !! "uuid-a"%string))
       = ["/mnt/b.raucb"%string; "/mnt/a.raucb"%string; "/mnt/sub/c.raucb"%string]
    /\ statuses evs = ["scanning"%string; "idle"%string]
    /\ device_count context' = 1.
Proof.
  destruct (on_attach (Sample.world None 0 Sample.three_files None) None Sample.sda
              ["/mnt"%string] (main_context (Some "sys-A"%string)))
    as [[context' evs]|] eqn:Hrun; [|vm_compute in Hrun; discriminate].
  exists context', evs. split; [reflexivity|].
  destruct (attach_bookkeeping _ _ _ _ _ _ _ Hrun)
    as (bundles & c1 & polls & ev_search & rest & _ & _ & _ & Hst & _ & Hcount & _).
  split; [|split; [exact Hst | exact Hcount]].
  vm_compute in Hrun. injection Hrun as <- <-. reflexivity.
Defined.

Lemma guint_decr_incr (x : Z) : 0 <= x < 2 ^ 32 -> guint_decr (guint_incr x) = x.
Proof.
  intros H. unfold guint_decr, guint_incr, guint_wrap, GUINT_MODULUS.
  rewrite Zminus_mod_idemp_l. replace (x + 1 - 1) with x by lia.
  apply Z.mod_small. lia.
Qed.

Lemma unexports_bundles_destroyed (l : list Bundle) :
  unexports (bundles_destroyed l) = map object_number l.
Proof. apply bundles_destroyed_only. Qed.

Lemma map_fst_published (l : list Bundle) : map fst (map published l) = map object_number l.
Proof. rewrite map_map. reflexivity. Qed.

Lemma on_attach_exports (w : World) (c : GCancellable) (device : GUdevDevice)
    (bundles : list Bundle) (c1 : MainContext) (polls : nat) (ev_search : list event)
    (n : Z) :
  exports
    (set_device_count n
     :: set_status "scanning"
     :: ev_search
     ++ match bundles_by_disk c1 !! DISK_ID device with
        | Some old => bundles_destroyed old
        | None => []
        end
     ++ [set_status "idle"]
     ++ (if is_cancelled c polls then [cancel_check true]
         else cancel_check false :: run_hook_install w bundles))
  = exports ev_search.
Proof.
  change (exports (set_device_count ?a :: set_status ?b :: ?r)) with (exports r).
  rewrite !exports_app.
  replace (exports match bundles_by_disk c1 !! DISK_ID device with
                   | Some old => bundles_destroyed old
                   | None => []
                   end) with (@nil (Z * string)).
  2:{ destruct (bundles_by_disk c1 !! DISK_ID device) as [old|]; [|reflexivity].
      symmetry. apply bundles_destroyed_events. }
  destruct (is_cancelled c polls); [now rewrite app_nil_r|].
  change (exports (cancel_check false :: ?r)) with (exports r).
  destruct (run_hook_install_events w bundles) as [_ ->]. now rewrite app_nil_r.
Qed.

Lemma on_detach_after_on_attach (w : World) (cancellable : GCancellable)
    (device : GUdevDevice) (mount_points : list string) (context context' : MainContext)
    (evs : list event) :
  0 <= device_count context < 2 ^ 32 ->
  on_attach w cancellable device mount_points context = Some (context', evs) ->
  let detached := on_detach device context' in
  unexports (snd detached) ≡ₚ map fst (exports evs)
  /\ (exists withdrawn,
        snd detached = set_device_count (device_count context) :: map dbus_unexport withdrawn)
  /\ device_count (fst detached) = device_count context
  /\ bundles_by_disk (fst detached) = delete (DISK_ID device) (bundles_by_disk context)
  /\ compatible (fst detached) = compatible context
  /\ bundle_dbus_count (fst detached)
     = (if device_count context =? 0 then 0 else bundle_dbus_count context').
Proof.
  intros Hcount Hdef detached. subst detached.
  destruct (on_attach_parts w cancellable device mount_points context context' evs Hdef)
    as (bundles & c1 & polls & ev_search & Hsearch & -> & ->).
  pose proof (search_mount_points_effect w cancellable mount_points []
                (set_device_count_field (guint_incr (device_count context)) context) 0%nat)
    as Heff.
  pose proof (search_mount_points_respects w cancellable mount_points []
                (set_device_count_field (guint_incr (device_count context)) context) 0%nat)
    as Hres.
  rewrite Hsearch in Heff, Hres. destruct Heff as (_ & Hc & Hd & Hb & _).
  destruct Hres as (_ & _ & _ & Hm & _).
  cbn [compatible device_count bundles_by_disk set_device_count_field] in Hc, Hd, Hb.
  cbn [map app] in Hm.
  rewrite on_attach_exports.
  unfold on_detach.
  cbn [device_count bundles_by_disk set_bundles_by_disk set_device_count_field
       set_bundle_dbus_count compatible bundle_dbus_count fst snd].
  rewrite Hd, (guint_decr_incr _ Hcount).
  assert (Hlook : bundles_by_disk
                    (if device_count context =? 0
                     then set_bundle_dbus_count 0
                            (set_device_count_field (device_count context)
                               (set_bundles_by_disk
                                  (<[DISK_ID device := bundles]> (bundles_by_disk c1)) c1))
                     else set_device_count_field (device_count context)
                            (set_bundles_by_disk
                               (<[DISK_ID device := bundles]> (bundles_by_disk c1)) c1))
                  = <[DISK_ID device := bundles]> (bundles_by_disk context)).
  { rewrite Hb. now destruct (device_count context =? 0). }
  rewrite Hlook, lookup_insert_eq. cbn [snd fst].
  change (unexports (set_device_count ?a :: ?r)) with (unexports r).
  rewrite unexports_bundles_destroyed, <- map_fst_published.
  split; [now rewrite Hm|].
  split; [exists (map object_number bundles); unfold bundles_destroyed; now rewrite map_map|].
  destruct (device_count context =? 0);
    cbn [device_count bundles_by_disk set_bundles_by_disk set_device_count_field
         set_bundle_dbus_count compatible bundle_dbus_count];
    (repeat split; [now rewrite delete_insert_eq | exact Hc]).
Qed.

(** An attach whose behaviour is defined, followed by the detach of the same
    disk. The detach withdraws from D-Bus the objects the attach exported,
    each once and no other; it brings the device count back to what it was
    before the attach (a [guint]) and publishes that value first; it leaves
    no list under the disk's id; the system compatible is untouched. The
    bundle counter is put back to zero exactly when no device is left. *)
Theorem detach_undoes_attach (w : World) (cancellable : GCancellable)
    (device : GUdevDevice) (mount_points : list string) (context context' : MainContext)
    (evs : list event) :
  0 <= device_count context < 2 ^ 32 ->
  on_attach w cancellable device mount_points context = Some (context', evs) ->
  let detached := on_detach device context' in
  unexports (snd detached) ≡ₚ map fst (exports evs)
  /\ (exists withdrawn,
        snd detached = set_device_count (device_count context) :: map dbus_unexport withdrawn)
  /\ device_count (fst detached) = device_count context
  /\ bundles_by_disk (fst detached) = delete (DISK_ID device) (bundles_by_disk context)
  /\ compatible (fst detached) = compatible context
  /\ bundle_dbus_count (fst detached)
     = (if device_count context =? 0 then 0 else bundle_dbus_count context').
Proof.
  exact (on_detach_after_on_attach w cancellable device mount_points context context' evs).
Qed.

Lemma detach_undoes_attach_witness :
  exists context' evs,
    on_attach (Sample.world None 0 Sample.three_files None) None Sample.sda
              ["/mnt"%string] (main_context (Some "sys-A"%string))
    = Some (context', evs)
    /\ unexports (snd (on_detach Sample.sda context')) ≡ₚ map fst (exports evs)
    /\ map fst (exports evs) = [1; 2; 3].
Proof.
  destruct (on_attach (Sample.world None 0 Sample.three_files None) None Sample.sda
              ["/mnt"%string] (main_context (Some "sys-A"%string)))
    as [[context' evs]|] eqn:Hrun; [|vm_compute in Hrun; discriminate].
  exists context', evs. split; [reflexivity|]. split.
  - apply (detach_undoes_attach (Sample.world None 0 Sample.three_files None) None
             Sample.sda ["/mnt"%string] (main_context (Some "sys-A"%string)) context' evs);
      [cbn; lia | exact Hrun].
  - vm_compute in Hrun. injection Hrun as <- <-. reflexivity.
Defined.

(** ** Shutdown *)

Lemma cancel_disks_spec (l : list (string * addr)) :
  forall hp : gmap addr Disk,
    (forall ka, ka ∈ l -> is_Some (hp !! ka.2)) ->
    exists hp',
      cancel_disks l hp = Some hp'
      /\ forall a, hp' !! a
                   = if decide (a ∈ l.*2) then g_cancellable_cancel <$> hp !! a else hp !! a.
Proof.
  induction l as [|[k a] l IH]; intros hp Hlive.
  - exists hp. split; [reflexivity|]. intros a. now rewrite decide_False by set_solver.
  - destruct (Hlive (k, a)) as [disk Hdisk]; [set_solver|]. cbn in Hdisk.
    destruct (IH (<[a := g_cancellable_cancel disk]> hp)) as (hp' & Hrun & Hhp').
    { intros [k' b] Hin. cbn. destruct (decide (b = a)) as [->|Hne].
      - rewrite lookup_insert_eq. eauto.
      - rewrite lookup_insert_ne by congruence. apply (Hlive (k', b)). set_solver. }
    exists hp'. split; [cbn [cancel_disks]; now rewrite Hdisk|].
    intros b. rewrite Hhp'. cbn [fmap list_fmap snd].
    destruct (decide (b = a)) as [->|Hne].
    + rewrite lookup_insert_eq, Hdisk. rewrite (decide_True (P := a ∈ a :: l.*2)) by set_solver.
      now destruct (decide (a ∈ l.*2)).
    + rewrite lookup_insert_ne by congruence.
      destruct (decide (b ∈ l.*2)) as [Hin|Hnin];
        destruct (decide (b ∈ a :: l.*2)) as [Hin'|Hnin']; try reflexivity.
      * exfalso. apply Hnin'. apply elem_of_cons. now right.
      * exfalso. apply elem_of_cons in Hin' as [?|?]; [congruence | contradiction].
Qed.

Lemma in_table_addrs (self : UdevMonitor) (a : addr) :
  a ∈ (map_to_list (disks self)).*2 <-> in_table self a.
Proof.
  unfold in_table. rewrite list_elem_of_fmap. split.
  - intros ([id b] & -> & Hin). exists id. now apply elem_of_map_to_list in Hin.
  - intros [id Hid]. exists (id, a). split; [reflexivity|]. now apply elem_of_map_to_list.
Qed.

(** [udev_monitor_quit] on a table whose entries are live. It triggers the
    cancellable of every disk in the table and changes nothing else of any
    disk; a disk already taken out of the table, which waits in the queue for
    its detach, is not touched. The sentinel goes in front of everything
    queued, so the worker's next pass ends the thread, whatever the handlers
    are: the jobs queued before it are never processed. *)
Theorem quit_cancels_table_and_stops_worker {H : Type}
    (attach_handler : GUdevDevice -> list string -> bool -> H -> H * list event)
    (detach_handler : GUdevDevice -> H -> H * list event)
    (os : OS) (self : UdevMonitor) (h : H) :
  table_live self ->
  exists self',
    udev_monitor_quit self = Some self'
    /\ disks self' = disks self
    /\ process_device_queue self' = JobQuit :: process_device_queue self
    /\ (forall a, in_table self a ->
                  heap self' !! a = g_cancellable_cancel <$> heap self !! a)
    /\ (forall a, ~ in_table self a -> heap self' !! a = heap self !! a)
    /\ process_disk_thread_func attach_handler detach_handler os self' h = Exited.
Proof.
  intros Hlive.
  destruct (cancel_disks_spec (map_to_list (disks self)) (heap self)) as (hp & Hrun & Hhp).
  { intros [id a] Hin. apply elem_of_map_to_list in Hin. exact (Hlive id a Hin). }
  unfold udev_monitor_quit. rewrite Hrun. eexists. split; [reflexivity|].
  cbn [disks process_device_queue heap]. repeat split.
  - intros a Hin. rewrite Hhp. apply in_table_addrs in Hin.
    destruct (decide (a ∈ (map_to_list (disks self)).*2)); [reflexivity | contradiction].
  - intros a Hnin. rewrite Hhp.
    destruct (decide (a ∈ (map_to_list (disks self)).*2)) as [Hin|]; [|reflexivity].
    apply in_table_addrs in Hin. contradiction.
Qed.

Lemma quit_cancels_table_and_stops_worker_witness :
  exists self',
    udev_monitor_quit (monitor Sample.mount_pending) = Some self'
    /\ process_device_queue self' = [JobQuit; JobDisk 0%nat]
    /\ heap self' !! 0%nat = Some (g_cancellable_cancel Sample.disk_two_partitions)
    /\ daemon_step Sample.os_ok Sample.hookless
         {| monitor := self'; context := context Sample.mount_pending |} Worker
       = Some ({| monitor := self'; context := context Sample.mount_pending |}, []).
Proof.
  destruct (quit_cancels_table_and_stops_worker
              (attach_handler Sample.hookless) detach_handler Sample.os_ok
              (monitor Sample.mount_pending) (Some (context Sample.mount_pending)))
    as (self' & Hquit & _ & Hqueue & Hin & _ & Hexit).
  - intros id a Hid. cbn [Sample.mount_pending monitor Sample.monitor_with disks] in Hid.
    apply lookup_singleton_Some in Hid as [_ <-].
    cbn [Sample.mount_pending monitor Sample.monitor_with heap].
    rewrite lookup_singleton_eq. eauto.
  - exists self'. split; [exact Hquit|]. split; [exact Hqueue|]. split.
    + etrans; [apply (Hin 0%nat); exists "uuid-a"%string; reflexivity | reflexivity].
    + cbn [daemon_step monitor context]. now rewrite Hexit.
Defined.

Lemma flat_map_ext_In {A B : Type} (f g : A -> list B) (l : list A) :
  (forall x, x ∈ l -> f x = g x) -> flat_map f l = flat_map g l.
Proof.
  induction l as [|x l IH]; intros Hfg; [reflexivity|]. cbn [flat_map].
  rewrite (Hfg x) by apply list_elem_of_here. f_equal.
  apply IH. intros y Hy. apply Hfg. now apply list_elem_of_further.
Qed.

Lemma destroy_disks_spec (os : OS) (l : list (string * addr)) :
  forall hp : gmap addr Disk,
    NoDup l.*2 ->
    (forall ka, ka ∈ l -> is_Some (hp !! ka.2)) ->
    exists hp',
      destroy_disks os l hp
      = Some (hp', flat_map (fun ka : string * addr =>
                               match hp !! ka.2 with
                               | Some disk => free_disk os disk
                               | None => []
                               end) l)
      /\ forall a, hp' !! a = if decide (a ∈ l.*2) then None else hp !! a.
Proof.
  induction l as [|[k a] l IH]; intros hp Hnd Hlive.
  - exists hp. split; [reflexivity|]. intros a.
    destruct (decide (a ∈ ([] : list (string * addr)).*2)) as [Hin|]; [|reflexivity].
    now apply elem_of_nil in Hin.
  - cbn [fmap list_fmap snd] in Hnd. apply NoDup_cons in Hnd as [Hfresh Hnd].
    destruct (Hlive (k, a)) as [disk Hdisk]; [apply list_elem_of_here|]. cbn in Hdisk.
    assert (Hother : forall ka, ka ∈ l -> ka.2 <> a).
    { intros ka Hin Heq. apply Hfresh. rewrite <- Heq.
      apply list_elem_of_fmap. now exists ka. }
    destruct (IH (delete a hp) Hnd) as (hp' & Hrun & Hhp').
    { intros ka Hin. pose proof (Hother ka Hin) as Hne.
      rewrite lookup_delete_ne by congruence.
      apply Hlive. now apply list_elem_of_further. }
    exists hp'. split.
    + cbn [destroy_disks flat_map snd]. rewrite Hdisk, Hrun. do 3 f_equal.
      apply flat_map_ext_In. intros ka Hin. pose proof (Hother ka Hin) as Hne.
      now rewrite lookup_delete_ne by congruence.
    + intros b. rewrite Hhp'. cbn [fmap list_fmap snd].
      destruct (decide (b ∈ l.*2)) as [Hin|Hnin];
        destruct (decide (b ∈ a :: l.*2)) as [Hin'|Hnin']; try reflexivity.
      * exfalso. apply Hnin'. apply elem_of_cons. now right.
      * apply elem_of_cons in Hin' as [->|?]; [apply lookup_delete_eq | contradiction].
      * rewrite lookup_delete_ne; [reflexivity|]. intros <-. apply Hnin'.
        apply list_elem_of_here.
Qed.

Lemma table_addrs_NoDup (self : UdevMonitor) :
  (forall id1 id2 a, disks self !! id1 = Some a -> disks self !! id2 = Some a -> id1 = id2) ->
  NoDup (map_to_list (disks self)).*2.
Proof.
  intros Hinj. apply NoDup_fmap_2_strong; [|apply NoDup_map_to_list].
  intros [id1 a1] [id2 a2] H1 H2 Heq. cbn in Heq. subst a2.
  apply elem_of_map_to_list in H1, H2. now rewrite (Hinj id1 id2 a1 H1 H2).
Qed.

Lemma signals_free_disk (os : OS) (disk : Disk) :
  attach_signals (free_disk os disk) = [] /\ detach_signals (free_disk os disk) = [].
Proof.
  unfold free_disk. induction (mount_points disk) as [|mp l [IHa IHd]]; [now split|].
  cbn [flat_map]. unfold attach_signals, detach_signals in *.
  rewrite !flat_map_app, IHa, IHd. unfold umount_partition.
  now destruct (umount_failed (umount2_result os mp)).
Qed.

Lemma destroy_disks_events (os : OS) (hp : gmap addr Disk) (l : list (string * addr)) :
  let evs := flat_map (fun ka : string * addr =>
                         match hp !! ka.2 with
                         | Some disk => free_disk os disk
                         | None => []
                         end) l in
  syscalls evs
  = map sys_umount2 (flat_map (fun ka : string * addr =>
                                 match hp !! ka.2 with
                                 | Some disk => mount_points disk
                                 | None => []
                                 end) l)
  /\ attach_signals evs = [] /\ detach_signals evs = [].
Proof.
  induction l as [|ka l (IHs & IHa & IHd)]; [now repeat split|].
  cbn [flat_map]. unfold attach_signals, detach_signals in *.
  rewrite syscalls_app, !flat_map_app, map_app, IHs, IHa, IHd, !app_nil_r.
  destruct (hp !! ka.2) as [disk|]; [|now repeat split].
  destruct (signals_free_disk os disk) as [Ha Hd].
  repeat split; [|exact Ha | exact Hd]. now rewrite syscalls_free_disk.
Qed.

(** [udev_monitor_finalize] in a consistent state. Destroying the table calls
    [umount2] once for every mount point of every disk in the table, in the
    table's order, and makes no other syscall; no "attach" or "detach" is
    emitted for these disks. Afterwards the table and the queue are empty and
    the table's disks are freed. A disk that was taken out of the table by a
    remove event and still waited in the queue for its detach is not looked
    at: it is neither unmounted nor freed. *)
Theorem finalize_unmounts_table_disks (os : OS) (self : UdevMonitor) :
  monitor_consistent self ->
  exists self' evs,
    udev_monitor_finalize os self = Some (self', evs)
    /\ syscalls evs = map sys_umount2 (table_mount_points self)
    /\ attach_signals evs = [] /\ detach_signals evs = []
    /\ disks self' = ∅ /\ process_device_queue self' = []
    /\ (forall a, in_table self a -> heap self' !! a = None)
    /\ (forall a, ~ in_table self a -> heap self' !! a = heap self !! a).
Proof.
  intros [Hlive Hinj _ _ _].
  destruct (destroy_disks_spec os (map_to_list (disks self)) (heap self)
              (table_addrs_NoDup self Hinj)) as (hp & Hrun & Hhp).
  { intros [id a] Hin. apply elem_of_map_to_list in Hin. exact (Hlive id a Hin). }
  unfold udev_monitor_finalize. rewrite Hrun. do 2 eexists. split; [reflexivity|].
  destruct (destroy_disks_events os (heap self) (map_to_list (disks self))) as (Hs & Ha & Hd).
  split; [exact Hs|]. split; [exact Ha|]. split; [exact Hd|].
  cbn [disks process_device_queue heap]. repeat split.
  - intros a Hin. rewrite Hhp. apply in_table_addrs in Hin.
    destruct (decide (a ∈ (map_to_list (disks self)).*2)); [reflexivity | contradiction].
  - intros a Hnin. rewrite Hhp.
    destruct (decide (a ∈ (map_to_list (disks self)).*2)) as [Hin|]; [|reflexivity].
    apply in_table_addrs in Hin. contradiction.
Qed.

Lemma finalize_unmounts_table_disks_witness :
  exists d evs0 self' evs,
    daemon_run Sample.os_ok Sample.hookless (daemon_start (Some "sys-A"%string))
               Sample.a_attached = Some (d, evs0)
    /\ udev_monitor_finalize Sample.os_ok (monitor d) = Some (self', evs)
    /\ syscalls evs = [sys_umount2 "/run/media/disk-updater/sda1"].
Proof.
  destruct (daemon_run Sample.os_ok Sample.hookless (daemon_start (Some "sys-A"%string))
                       Sample.a_attached) as [[d evs0]|] eqn:Hrun;
    [|vm_compute in Hrun; discriminate].
  destruct (finalize_unmounts_table_disks Sample.os_ok (monitor d))
    as (self' & evs & Hfin & Hsys & _).
  - exact (daemon_run_consistent _ _ _ (daemon_start (Some "sys-A"%string)) _ _
             udev_monitor_new_consistent Hrun).
  - exists d, evs0, self', evs. split; [reflexivity|]. split; [exact Hfin|].
    rewrite Hsys. vm_compute in Hrun. injection Hrun as <- _. vm_compute. reflexivity.
Defined.

(** ** States the daemon can reach *)

(** Whatever uevents arrive, whenever the timeout sources fire and however
    the worker's passes fall between them: as long as no pass uses a freed
    disk, the monitor the daemon has reached from its start state is
    consistent. Every table entry points to a live disk and no two entries
    share one, no address in the heap or the queue is one still to be
    allocated, and a disk that is both in the table and in the queue is
    flagged attached, so its job is a mount job. *)
Theorem reachable_states_consistent (os : OS) (w : World) (sys : option string)
    (l : list step) (d : Daemon) (evs : list event) :
  daemon_run os w (daemon_start sys) l = Some (d, evs) ->
  monitor_consistent (monitor d).
Proof.
  intros Hrun.
  exact (daemon_run_consistent os w l (daemon_start sys) d evs
           udev_monitor_new_consistent Hrun).
Qed.

Lemma reachable_states_consistent_witness :
  exists d evs,
    daemon_run Sample.os_ok Sample.hookless (daemon_start (Some "sys-A"%string))
               (Sample.a_attached ++ Sample.b_plugged_and_pulled) = Some (d, evs)
    /\ monitor_consistent (monitor d).
Proof.
  destruct (daemon_run Sample.os_ok Sample.hookless (daemon_start (Some "sys-A"%string))
                       (Sample.a_attached ++ Sample.b_plugged_and_pulled))
    as [[d evs]|] eqn:Hrun; [|vm_compute in Hrun; discriminate].
  exists d, evs. split; [reflexivity|].
  exact (reachable_states_consistent _ _ _ _ _ _ Hrun).
Defined.

(** ** A disk announced twice, a disk pulled with its mount job queued *)

(** An add event of type "disk" whose id is already in the table, in a
    consistent state. The old [Disk] is destroyed by the table: its mount
    points are unmounted and the struct is freed, but no "detach" is emitted
    and the detach handler not run. The id now names a fresh unattached disk
    without partitions whose timer starts at the event; one more timeout
    source runs; the queue is left as it was. So if a job for the old disk was
    queued, the worker later pops a freed struct. *)
Theorem disk_added_twice {H : Type}
    (attach_handler : GUdevDevice -> list string -> bool -> H -> H * list event)
    (detach_handler : GUdevDevice -> H -> H * list event)
    (os : OS) (self : UdevMonitor) (now : Z) (device : GUdevDevice)
    (old : addr) (old_disk : Disk) :
  monitor_consistent self ->
  subsystem device = Some "block"%string ->
  DEVTYPE device = Some "disk"%string ->
  disks self !! DISK_ID device = Some old ->
  heap self !! old = Some old_disk ->
  exists self',
    on_uevent os self now (Some "add"%string) device = Some (self', free_disk os old_disk)
    /\ syscalls (free_disk os old_disk) = map sys_umount2 (mount_points old_disk)
    /\ detach_signals (free_disk os old_disk) = []
    /\ heap self' !! old = None
    /\ (exists a, disks self' !! DISK_ID device = Some a
                  /\ heap self' !! a = Some (new_disk device now))
    /\ (forall id, id <> DISK_ID device -> disks self' !! id = disks self !! id)
    /\ timeouts self' = S (timeouts self)
    /\ process_device_queue self' = process_device_queue self
    /\ (forall rest h, process_device_queue self = JobDisk old :: rest ->
          process_disk_thread_func attach_handler detach_handler os self' h = UseAfterFree).
Proof.
  intros [_ _ Hbelow _ _] Hsub Hdev Hid Hold.
  pose proof (Hbelow old old_disk Hold) as Hlt.
  assert (Hne : next_addr self <> old) by lia.
  unfold on_uevent. rewrite Hsub, Hdev. cbn [g_strcmp0].
  rewrite string_compare_refl. cbn [negb Z.eqb].
  rewrite Hid, Hold. eexists. split; [reflexivity|].
  split; [apply syscalls_free_disk|]. split; [apply signals_free_disk|].
  cbn [heap disks timeouts process_device_queue].
  split; [rewrite lookup_insert_ne by exact Hne; apply lookup_delete_eq|].
  split; [exists (next_addr self); split; apply lookup_insert_eq|].
  split; [intros id Hother; now rewrite lookup_insert_ne by congruence|].
  do 2 (split; [reflexivity|]).
  intros rest h Hq. unfold process_disk_thread_func. cbn [process_device_queue heap].
  rewrite Hq, lookup_insert_ne by exact Hne. now rewrite lookup_delete_eq.
Qed.

Lemma disk_added_twice_witness :
  exists d evs0 self',
    daemon_run Sample.os_ok Sample.hookless (daemon_start (Some "sys-A"%string))
               [Uevent 0 "add" Sample.sda; Uevent 100000 "add" Sample.sda1; Timeout 2000000]
    = Some (d, evs0)
    /\ on_uevent Sample.os_ok (monitor d) 3000000 (Some "add"%string) Sample.sda
       = Some (self', [])
    /\ daemon_step Sample.os_ok Sample.hookless
         {| monitor := self'; context := context d |} Worker = None.
Proof.
  destruct (daemon_run Sample.os_ok Sample.hookless (daemon_start (Some "sys-A"%string))
              [Uevent 0 "add" Sample.sda; Uevent 100000 "add" Sample.sda1; Timeout 2000000])
    as [[d evs0]|] eqn:Hrun; [|vm_compute in Hrun; discriminate].
  pose proof (daemon_run_consistent _ _ _ (daemon_start (Some "sys-A"%string)) _ _
                udev_monitor_new_consistent Hrun) as Hc.
  vm_compute in Hrun. injection Hrun as <- <-.
  destruct (disk_added_twice (attach_handler Sample.hookless) detach_handler Sample.os_ok
              _ 3000000 Sample.sda 0%nat
              {| attached := true; gudev_device := Sample.sda; cancellable := false;
                 partitions := [Sample.sda1]; mount_points := []; initialized := 100000 |}
              Hc eq_refl eq_refl eq_refl eq_refl)
    as (self' & Hev & _ & _ & _ & _ & _ & _ & _ & Huaf).
  do 2 eexists. exists self'. split; [reflexivity|]. split; [exact Hev|].
  cbn [daemon_step monitor context].
  now rewrite (Huaf [] _ eq_refl).
Defined.

Lemma attach_signals_on_detach (device : GUdevDevice) (context : MainContext) :
  attach_signals (snd (on_detach device context)) = [].
Proof.
  destruct (on_detach_counts device context) as (_ & _ & unexp & ->).
  cbn. induction unexp as [|n l IH]; [reflexivity | exact IH].
Qed.

Lemma attach_signals_app (a b : list event) :
  attach_signals (a ++ b) = attach_signals a ++ attach_signals b.
Proof. unfold attach_signals. apply flat_map_app. Qed.

(** A remove event for a disk of the table whose job is the next in the
    queue (the debounce check has queued its mount job and the worker has not
    taken it yet). The event flags the disk unattached and queues it a second
    time, so the worker's pass takes the first job as a detach job: nothing
    is mounted, no "attach" is emitted, "detach" is emitted for a disk that
    was never announced, and the struct is freed while its second job is
    still queued. With nothing else queued the worker's next pass pops the
    freed struct. *)
Theorem disk_pulled_with_job_queued (os : OS) (w : World) (d : Daemon) (now : Z)
    (device : GUdevDevice) (a : addr) (disk : Disk) (rest : list job) :
  subsystem device = Some "block"%string ->
  disks (monitor d) !! DISK_ID device = Some a ->
  heap (monitor d) !! a = Some disk ->
  process_device_queue (monitor d) = JobDisk a :: rest ->
  exists d',
    daemon_run os w d [Uevent now "remove" device; Worker]
    = Some (d', emit_detach (gudev_device disk)
                :: snd (on_detach (gudev_device disk) (context d)) ++ free_disk os disk)
    /\ attach_signals (emit_detach (gudev_device disk)
                       :: snd (on_detach (gudev_device disk) (context d))
                       ++ free_disk os disk) = []
    /\ syscalls (emit_detach (gudev_device disk)
                 :: snd (on_detach (gudev_device disk) (context d)) ++ free_disk os disk)
       = map sys_umount2 (mount_points disk)
    /\ context d' = fst (on_detach (gudev_device disk) (context d))
    /\ disks (monitor d') !! DISK_ID device = None
    /\ heap (monitor d') !! a = None
    /\ process_device_queue (monitor d') = rest ++ [JobDisk a]
    /\ (rest = [] ->
        daemon_run os w d [Uevent now "remove" device; Worker; Worker] = None).
Proof.
  intros Hsub Hid Hheap Hq.
  assert (Hstep1 : daemon_step os w d (Uevent now "remove" device)
                   = Some ({| monitor :=
                                {| disks := delete (DISK_ID device) (disks (monitor d));
                                   process_device_queue := JobDisk a :: rest ++ [JobDisk a];
                                   heap := <[a := g_cancellable_cancel (set_attached false disk)]>
                                             (heap (monitor d));
                                   next_addr := next_addr (monitor d);
                                   timeouts := timeouts (monitor d) |};
                              context := context d |}, [])).
  { cbn [daemon_step]. unfold on_uevent. rewrite Hsub. simpl.
    now rewrite Hid, Hheap, Hq. }
  destruct (on_detach (gudev_device disk) (context d)) as [c' evh] eqn:Hdet.
  assert (Hstep2 : daemon_step os w
                     {| monitor :=
                          {| disks := delete (DISK_ID device) (disks (monitor d));
                             process_device_queue := JobDisk a :: rest ++ [JobDisk a];
                             heap := <[a := g_cancellable_cancel (set_attached false disk)]>
                                       (heap (monitor d));
                             next_addr := next_addr (monitor d);
                             timeouts := timeouts (monitor d) |};
                        context := context d |} Worker
                   = Some ({| monitor :=
                                {| disks := delete (DISK_ID device) (disks (monitor d));
                                   process_device_queue := rest ++ [JobDisk a];
                                   heap := delete a
                                             (<[a := g_cancellable_cancel
                                                       (set_attached false disk)]>
                                                (heap (monitor d)));
                                   next_addr := next_addr (monitor d);
                                   timeouts := timeouts (monitor d) |};
                              context := c' |},
                           emit_detach (gudev_device disk) :: evh ++ free_disk os disk)).
  { cbn [daemon_step monitor context]. unfold process_disk_thread_func.
    cbn [process_device_queue heap]. rewrite lookup_insert_eq.
    cbn [attached g_cancellable_cancel set_attached gudev_device].
    unfold detach_handler. rewrite Hdet. reflexivity. }
  eexists. split.
  { cbn [daemon_run]. rewrite Hstep1, Hstep2. cbn [app snd]. now rewrite app_nil_r. }
  cbn [monitor context disks heap process_device_queue fst snd].
  pose proof (attach_signals_on_detach (gudev_device disk) (context d)) as Ha.
  pose proof (syscalls_on_detach (gudev_device disk) (context d)) as Hs.
  rewrite Hdet in Ha, Hs. cbn [snd] in Ha, Hs.
  split.
  { change (attach_signals (emit_detach ?x :: ?r)) with (attach_signals r).
    rewrite attach_signals_app, Ha. apply signals_free_disk. }
  split.
  { change (syscalls (emit_detach ?x :: ?r)) with (syscalls r).
    rewrite syscalls_app, Hs. apply syscalls_free_disk. }
  split; [reflexivity|].
  split; [apply lookup_delete_eq|]. split; [apply lookup_delete_eq|].
  split; [reflexivity|].
  intros ->. cbn [daemon_run]. rewrite Hstep1, Hstep2.
  cbn [daemon_step monitor context app]. unfold process_disk_thread_func.
  cbn [process_device_queue heap]. now rewrite lookup_delete_eq.
Qed.

Lemma disk_pulled_with_job_queued_witness :
  exists d',
    daemon_run Sample.os_ok Sample.hookless Sample.mount_pending
               [Uevent 2000001 "remove" Sample.sda; Worker]
    = Some (d', [emit_detach Sample.sda; set_device_count 4294967295])
    /\ daemon_run Sample.os_ok Sample.hookless Sample.mount_pending
                  [Uevent 2000001 "remove" Sample.sda; Worker; Worker] = None.
Proof.
  destruct (disk_pulled_with_job_queued Sample.os_ok Sample.hookless Sample.mount_pending
              2000001 Sample.sda 0%nat Sample.disk_two_partitions []
              eq_refl eq_refl eq_refl eq_refl)
    as (d' & Hrun & _ & _ & _ & _ & _ & _ & Hnext).
  exists d'. split; [exact Hrun | exact (Hnext eq_refl)].
Defined.

(** ** A disk attached and pulled again *)

Lemma handler_events_only (os : OS) (evs : list event) :
  forallb (fun e => negb (monitor_event e)) evs = true ->
  syscalls evs = [] /\ attach_signals evs = [] /\ detach_signals evs = []
  /\ mounted_dirs os evs = [] /\ unmounted_dirs evs = [].
Proof.
  induction evs as [|e evs IH]; [now repeat split|].
  cbn [forallb]. rewrite andb_true_iff. intros [He Hevs].
  destruct (IH Hevs) as (H1 & H2 & H3 & H4 & H5).
  destruct e; try discriminate; now repeat split.
Qed.

Lemma forallb_weaken {A : Type} (p q : A -> bool) (l : list A) :
  (forall x, p x = true -> q x = true) -> forallb p l = true -> forallb q l = true.
Proof.
  intros Hpq. induction l as [|x l IH]; [reflexivity|]. cbn [forallb].
  rewrite !andb_true_iff. intros [Hx Hl]. split; [now apply Hpq | now apply IH].
Qed.

Lemma bundles_destroyed_handler_events (l : list Bundle) :
  forallb (fun e => negb (monitor_event e)) (bundles_destroyed l) = true.
Proof. induction l as [|b l IH]; [reflexivity | exact IH]. Qed.

Lemma on_attach_handler_events (w : World) (c : GCancellable) (device : GUdevDevice)
    (mps : list string) (context context' : MainContext) (evs : list event) :
  on_attach w c device mps context = Some (context', evs) ->
  forallb (fun e => negb (monitor_event e)) evs = true.
Proof.
  intros Hdef.
  destruct (on_attach_parts w c device mps context context' evs Hdef)
    as (bundles & c1 & polls & ev_search & Hsearch & -> & ->).
  cbn [snd forallb monitor_event negb andb].
  pose proof (search_mount_points_effect w c mps []
                (set_device_count_field (guint_incr (device_count context)) context) 0%nat)
    as Heff.
  rewrite Hsearch in Heff. destruct Heff as (Hev & _).
  rewrite !forallb_app, !andb_true_iff. split; [|split; [|split]].
  - revert Hev. apply forallb_weaken. now intros [].
  - destruct (bundles_by_disk c1 !! DISK_ID device); [|reflexivity].
    apply bundles_destroyed_handler_events.
  - reflexivity.
  - destruct (is_cancelled c polls); [reflexivity|].
    cbn [forallb monitor_event negb andb].
    generalize (run_hook_install_hook_events w bundles).
    apply forallb_weaken. now intros [].
Qed.

Lemma on_detach_handler_events (device : GUdevDevice) (context : MainContext) :
  forallb (fun e => negb (monitor_event e)) (snd (on_detach device context)) = true.
Proof.
  destruct (on_detach_counts device context) as (_ & _ & unexp & ->).
  cbn. induction unexp as [|n l IH]; [reflexivity | exact IH].
Qed.

Lemma exports_on_detach (device : GUdevDevice) (context : MainContext) :
  exports (snd (on_detach device context)) = [].
Proof.
  destruct (on_detach_counts device context) as (_ & _ & unexp & ->).
  cbn. induction unexp as [|n l IH]; [reflexivity | exact IH].
Qed.

Lemma mounted_dirs_app (os : OS) (a b : list event) :
  mounted_dirs os (a ++ b) = mounted_dirs os a ++ mounted_dirs os b.
Proof. unfold mounted_dirs. apply flat_map_app. Qed.

Lemma unmounted_dirs_app (a b : list event) :
  unmounted_dirs (a ++ b) = unmounted_dirs a ++ unmounted_dirs b.
Proof. unfold unmounted_dirs. apply flat_map_app. Qed.

Lemma detach_signals_app (a b : list event) :
  detach_signals (a ++ b) = detach_signals a ++ detach_signals b.
Proof. unfold detach_signals. apply flat_map_app. Qed.

Lemma mount_partition_events (os : OS) (p : GUdevDevice) (disk : Disk) :
  let evs := snd (mount_partition os p disk) in
  mounted_dirs os evs = (if gets_mounted os p then [mount_dir_of p] else [])
  /\ unmounted_dirs evs = []
  /\ attach_signals evs = [] /\ detach_signals evs = []
  /\ exports evs = [] /\ unexports evs = [].
Proof.
  unfold mount_partition, gets_mounted, supported_by_os, mount_succeeds, is_in_filesystem_file.
  fold (mount_dir_of p).
  destruct (file_contents os "/proc/filesystems") as [content|]; cbn [fst snd negb andb];
    [|now repeat split].
  destruct (scan_lines (ID_FS_TYPE p) (g_strsplit content "010")); cbn [fst snd negb andb];
    [|now repeat split].
  destruct (mkdir_failed (mkdir_result os (mount_dir_of p))); cbn [fst snd negb andb];
    [now repeat split|].
  destruct (mount_result os (device_file p) (mount_dir_of p) (ID_FS_TYPE p)) eqn:Hm;
    cbn [snd app mounted_dirs flat_map]; rewrite ?Hm; now repeat split.
Qed.

Lemma mount_partitions_events (os : OS) (l : list GUdevDevice) (disk : Disk) :
  let evs := snd (mount_partitions os l disk) in
  mounted_dirs os evs = map mount_dir_of (List.filter (gets_mounted os) l)
  /\ unmounted_dirs evs = []
  /\ attach_signals evs = [] /\ detach_signals evs = []
  /\ exports evs = [] /\ unexports evs = [].
Proof.
  cbv zeta. destruct (mount_partitions_spec os l disk) as (_ & -> & _).
  induction l as [|p l (I1 & I2 & I3 & I4 & I5 & I6)]; [now repeat split|].
  destruct (mount_partition_events os p disk) as (H1 & H2 & H3 & H4 & H5 & H6).
  cbn [flat_map List.filter].
  rewrite mounted_dirs_app, unmounted_dirs_app, attach_signals_app, detach_signals_app,
    exports_app, unexports_app, H1, H2, H3, H4, H5, H6, I1, I2, I3, I4, I5, I6.
  repeat split. now destruct (gets_mounted os p).
Qed.

Lemma free_disk_events (os : OS) (disk : Disk) :
  unmounted_dirs (free_disk os disk) = mount_points disk
  /\ mounted_dirs os (free_disk os disk) = []
  /\ exports (free_disk os disk) = [] /\ unexports (free_disk os disk) = [].
Proof.
  unfold free_disk. induction (mount_points disk) as [|mp l (I1 & I2 & I3 & I4)];
    [now repeat split|].
  cbn [flat_map].
  rewrite mounted_dirs_app, unmounted_dirs_app, exports_app, unexports_app, I1, I2, I3, I4.
  unfold umount_partition. now destruct (umount_failed (umount2_result os mp)).
Qed.

(** A disk in table and heap, flagged attached, whose mount job is the only
    job queued, the device count being a [guint]: when the worker's pass over
    the mount job has defined behaviour, so have the remove event for the
    disk and the worker's pass over the detach job that follow. "attach" and
    "detach" are each emitted once for the disk; the directories unmounted
    are those on which a mount succeeded, in the reverse order, and then the
    mount points the disk had recorded before; the objects withdrawn from
    D-Bus are those of a list stored under the disk's id before and the
    objects exported, each once; the device count is back at its value, no
    list is stored under the disk's id, the lists of the other disks and the
    system compatible are as before; the disk is gone from table, heap and
    queue. *)
Theorem attached_disk_pulled (os : OS) (w : World) (d : Daemon) (now : Z)
    (a : addr) (disk : Disk) :
  subsystem (gudev_device disk) = Some "block"%string ->
  disks (monitor d) !! DISK_ID (gudev_device disk) = Some a ->
  heap (monitor d) !! a = Some disk ->
  process_device_queue (monitor d) = [JobDisk a] ->
  attached disk = true ->
  0 <= device_count (context d) < 2 ^ 32 ->
  is_Some (daemon_step os w d Worker) ->
  exists d' evs,
    daemon_run os w d [Worker; Uevent now "remove" (gudev_device disk); Worker]
    = Some (d', evs)
    /\ attach_signals evs = [DISK_ID (gudev_device disk)]
    /\ detach_signals evs = [DISK_ID (gudev_device disk)]
    /\ unmounted_dirs evs = rev (mounted_dirs os evs) ++ mount_points disk
    /\ unexports evs
       ≡ₚ map object_number
            (default [] (bundles_by_disk (context d) !! DISK_ID (gudev_device disk)))
          ++ map fst (exports evs)
    /\ device_count (context d') = device_count (context d)
    /\ bundles_by_disk (context d')
       = delete (DISK_ID (gudev_device disk)) (bundles_by_disk (context d))
    /\ compatible (context d') = compatible (context d)
    /\ disks (monitor d') !! DISK_ID (gudev_device disk) = None
    /\ heap (monitor d') !! a = None
    /\ process_device_queue (monitor d') = [].
Proof.
  intros Hsub Hid Hheap Hq Hatt Hcount Hdef.
  set (device := gudev_device disk) in *.
  set (mounted := rev (map mount_dir_of (List.filter (gets_mounted os) (partitions disk)))
                  ++ mount_points disk).
  destruct (mount_partitions_spec os (partitions disk) disk) as (Hd & _ & _).
  pose proof (mount_partitions_events os (partitions disk) disk) as Hme.
  destruct (mount_partitions os (partitions disk) disk) as [disk1 ev_mount] eqn:Hmount.
  cbn [fst snd] in Hd, Hme. fold mounted in Hd.
  destruct Hme as (M1 & M2 & M3 & M4 & M5 & M6).
  assert (Hdev1 : gudev_device disk1 = device) by now rewrite Hd.
  assert (Hmp1 : mount_points disk1 = mounted) by now rewrite Hd.
  assert (Hcan1 : Udev.cancellable disk1 = Udev.cancellable disk) by now rewrite Hd.
  assert (Hstep1 : daemon_step os w d Worker
                   = match attach_handler w device mounted (Udev.cancellable disk)
                             (Some (context d)) with
                     | (Some c1, ev_attach) =>
                         Some ({| monitor :=
                                    {| disks := disks (monitor d); process_device_queue := [];
                                       heap := <[a := disk1]> (heap (monitor d));
                                       next_addr := next_addr (monitor d);
                                       timeouts := timeouts (monitor d) |};
                                  context := c1 |},
                               ev_mount ++ emit_attach device mounted :: ev_attach)
                     | (None, _) => None
                     end).
  { cbn [daemon_step]. unfold process_disk_thread_func. rewrite Hq, Hheap, Hatt, Hmount.
    rewrite Hdev1, Hmp1, Hcan1.
    now destruct (attach_handler w device mounted (Udev.cancellable disk) (Some (context d)))
      as [[c1|] ev]. }
  revert Hstep1. unfold attach_handler.
  destruct (on_attach w _ device mounted (context d)) as [[c1 ev_attach]|] eqn:Hon;
    intros Hstep1; [|rewrite Hstep1 in Hdef; now destruct Hdef].
  pose proof (on_attach_handler_events _ _ _ _ _ _ _ Hon) as Hah.
  pose proof (on_detach_after_on_attach _ _ _ _ _ _ _ Hcount Hon) as Hround.
  destruct (on_attach_bookkeeping _ _ _ _ _ _ _ Hon)
    as (_ & _ & _ & _ & _ & _ & _ & _ & _ & _ & _ & _ & Bun).
  cbv zeta in Hround.
  pose proof (on_detach_handler_events device c1) as Hdh.
  pose proof (exports_on_detach device c1) as Hex.
  destruct (on_detach device c1) as [c2 ev_detach] eqn:Hoff.
  cbn [fst snd] in Hdh, Hround, Hex.
  destruct Hround as (Rperm & _ & Rcount & Rtable & Rcompat & _).
  destruct (handler_events_only os ev_attach Hah) as (_ & A2 & A3 & A4 & A5).
  destruct (handler_events_only os ev_detach Hdh) as (_ & D2 & D3 & D4 & D5).
  destruct (free_disk_events os (g_cancellable_cancel (set_attached false disk1)))
    as (F1 & F2 & F3 & F4).
  destruct (signals_free_disk os (g_cancellable_cancel (set_attached false disk1)))
    as (F5 & F6).
  assert (Hstep2 : daemon_step os w
                     {| monitor :=
                          {| disks := disks (monitor d); process_device_queue := [];
                             heap := <[a := disk1]> (heap (monitor d));
                             next_addr := next_addr (monitor d);
                             timeouts := timeouts (monitor d) |};
                        context := c1 |} (Uevent now "remove" device)
                   = Some ({| monitor :=
                                {| disks := delete (DISK_ID device) (disks (monitor d));
                                   process_device_queue := [JobDisk a];
                                   heap := <[a := g_cancellable_cancel
                                                    (set_attached false disk1)]>
                                             (<[a := disk1]> (heap (monitor d)));
                                   next_addr := next_addr (monitor d);
                                   timeouts := timeouts (monitor d) |};
                              context := c1 |}, [])).
  { cbn [daemon_step monitor context]. unfold on_uevent. rewrite Hsub. simpl.
    now rewrite Hid, lookup_insert_eq. }
  assert (Hstep3 : daemon_step os w
                     {| monitor :=
                          {| disks := delete (DISK_ID device) (disks (monitor d));
                             process_device_queue := [JobDisk a];
                             heap := <[a := g_cancellable_cancel (set_attached false disk1)]>
                                       (<[a := disk1]> (heap (monitor d)));
                             next_addr := next_addr (monitor d);
                             timeouts := timeouts (monitor d) |};
                        context := c1 |} Worker
                   = Some ({| monitor :=
                                {| disks := delete (DISK_ID device) (disks (monitor d));
                                   process_device_queue := [];
                                   heap := delete a
                                             (<[a := g_cancellable_cancel
                                                       (set_attached false disk1)]>
                                                (<[a := disk1]> (heap (monitor d))));
                                   next_addr := next_addr (monitor d);
                                   timeouts := timeouts (monitor d) |};
                              context := c2 |},
                           emit_detach device :: ev_detach
                           ++ free_disk os (g_cancellable_cancel (set_attached false disk1)))).
  { cbn [daemon_step monitor context]. unfold process_disk_thread_func.
    cbn [process_device_queue heap]. rewrite lookup_insert_eq.
    cbn [attached g_cancellable_cancel set_attached gudev_device].
    unfold detach_handler. rewrite Hdev1, Hoff. reflexivity. }
  do 2 eexists. split.
  { cbn [daemon_run]. rewrite Hstep1, Hstep2, Hstep3. reflexivity. }
  cbn [monitor context disks heap process_device_queue app].
  rewrite app_nil_r.
  change (emit_attach device mounted :: ev_attach)
    with ([emit_attach device mounted] ++ ev_attach).
  change (emit_detach device :: ev_detach
          ++ free_disk os (g_cancellable_cancel (set_attached false disk1)))
    with ([emit_detach device] ++ ev_detach
          ++ free_disk os (g_cancellable_cancel (set_attached false disk1))).
  rewrite !attach_signals_app, !detach_signals_app, !unmounted_dirs_app, !mounted_dirs_app,
    !unexports_app, !exports_app.
  rewrite M1, M2, M3, M4, M5, M6, A2, A3, A4, A5, D2, D3, D4, D5, F1, F2, F3, F4, F5, F6, Hex.
  cbn [attach_signals detach_signals unmounted_dirs mounted_dirs unexports exports
       flat_map app g_cancellable_cancel set_attached Udev.mount_points].
  rewrite !app_nil_r, Hmp1, Bun.
  split; [reflexivity|]. split; [reflexivity|].
  split; [reflexivity|].
  split; [now rewrite Rperm|].
  split; [exact Rcount|].
  split; [exact Rtable|].
  split; [exact Rcompat|].
  split; [apply lookup_delete_eq|]. split; [apply lookup_delete_eq | reflexivity].
Qed.

Lemma attached_disk_pulled_witness :
  exists d' evs,
    daemon_run Sample.os_ok Sample.hookless Sample.mount_pending
               [Worker; Uevent 9000000 "remove" Sample.sda; Worker] = Some (d', evs)
    /\ attach_signals evs = ["uuid-a"%string]
    /\ detach_signals evs = ["uuid-a"%string]
    /\ unmounted_dirs evs = rev (mounted_dirs Sample.os_ok evs) ++ []
    /\ device_count (context d') = 0.
Proof.
  destruct (attached_disk_pulled Sample.os_ok Sample.hookless Sample.mount_pending 9000000
              0%nat Sample.disk_two_partitions
              eq_refl eq_refl eq_refl eq_refl eq_refl)
    as (d' & evs & Hrun & Ha & Hd & Hm & Hx & Hc & _).
  - cbn. lia.
  - vm_compute. eauto.
  - exists d', evs. repeat split; assumption.
Defined.

(** ** What a stored bundle list holds *)

Lemma read_entries_accepted (w : World) (c : GCancellable) (es : list (string * node)) :
  Forall (fun e => forall path context polls,
              when_defined
                (fun r => Forall (bundle_accepted w (compatible context)) (fst (fst (fst r))))
                (find_rauc_bundles w c path (snd e) context polls)) es ->
  forall path bundles context polls,
    Forall (bundle_accepted w (compatible context)) bundles ->
    when_defined
      (fun r => Forall (bundle_accepted w (compatible context)) (fst (fst (fst r))))
      (read_entries w c path es bundles context polls).
Proof.
  induction 1 as [|[name child] es Hchild _ IH]; intros path bundles context polls Hgiven;
    unfold read_entries in *; cbn [read_entries_with];
    destruct (is_cancelled c polls); try exact Hgiven.
  cbn [snd] in Hchild. destruct child as [| entries | |].
  - specialize (IH path bundles context (S polls) Hgiven).
    now destruct (read_entries_with _ w c path es bundles context (S polls))
      as [[[[r c'] p] e]|].
  - specialize (Hchild (path +:+ "/" +:+ name) context (S polls)).
    pose proof (find_rauc_bundles_effect w c (Dir entries) (path +:+ "/" +:+ name) context
                  (S polls)) as Heff.
    destruct (find_rauc_bundles w c (path +:+ "/" +:+ name) (Dir entries) context (S polls))
      as [[[[sub c1] p1] e1]|]; [|exact I].
    destruct Heff as (_ & Hcompat & _). cbn [fst when_defined] in Hchild.
    specialize (IH path (g_slist_concat bundles sub) c1 p1). rewrite Hcompat in IH.
    assert (Hall : Forall (bundle_accepted w (compatible context)) (g_slist_concat bundles sub))
      by (unfold g_slist_concat; now apply Forall_app).
    specialize (IH Hall).
    now destruct (read_entries_with _ w c path es (g_slist_concat bundles sub) c1 p1)
      as [[[[r c'] p] e]|].
  - destruct (check_rauc_bundle w context (path +:+ "/" +:+ name))
      as [[[b c1] e1]|] eqn:Hcheck; [|exact I].
    pose proof (compatible_after_check _ _ _ _ _ _ Hcheck) as Hcompat.
    assert (Hall : Forall (bundle_accepted w (compatible context)) (g_slist_prepend bundles b)).
    { apply check_rauc_bundle_some in Hcheck as (Hsuf & (compat & Hinfo & Hsys) & Hpath & _).
      unfold g_slist_prepend. apply Forall_cons. split; [|exact Hgiven].
      split; [now rewrite Hpath|]. exists compat. now rewrite Hpath. }
    specialize (IH path (g_slist_prepend bundles b) c1 (S polls)).
    rewrite Hcompat in IH. specialize (IH Hall).
    now destruct (read_entries_with _ w c path es (g_slist_prepend bundles b) c1 (S polls))
      as [[[[r c'] p] e]|].
  - specialize (IH path bundles context (S polls) Hgiven).
    now destruct (read_entries_with _ w c path es bundles context (S polls))
      as [[[[r c'] p] e]|].
Qed.

Lemma find_rauc_bundles_accepted (w : World) (c : GCancellable) (n : node) :
  forall path context polls,
    when_defined
      (fun r => Forall (bundle_accepted w (compatible context)) (fst (fst (fst r))))
      (find_rauc_bundles w c path n context polls).
Proof.
  induction n as [ | | | | es Hes] using node_nested_ind; intros path context polls;
    try (cbn; constructor).
  rewrite find_rauc_bundles_dir.
  pose proof (read_entries_accepted w c es Hes path [] context polls ltac:(constructor)) as Hloop.
  now destruct (read_entries w c path es [] context polls) as [[[[r c'] p] e]|].
Qed.

Lemma search_mount_points_accepted (w : World) (c : GCancellable) (mps : list string) :
  forall bundles context polls,
    Forall (bundle_accepted w (compatible context)) bundles ->
    when_defined
      (fun r => Forall (bundle_accepted w (compatible context)) (fst (fst (fst r))))
      (search_mount_points w c mps bundles context polls).
Proof.
  induction mps as [|mp mps IH]; intros bundles context polls Hgiven;
    cbn [search_mount_points]; [exact Hgiven|].
  destruct (is_cancelled c polls); [exact Hgiven|].
  pose proof (find_rauc_bundles_accepted w c (fs_root w mp) mp context (S polls)) as Hf.
  pose proof (find_rauc_bundles_effect w c (fs_root w mp) mp context (S polls)) as Heff.
  destruct (find_rauc_bundles w c mp (fs_root w mp) context (S polls))
    as [[[[found c1] p1] e1]|]; [|exact I].
  destruct Heff as (_ & Hcompat & _). cbn [fst when_defined] in Hf.
  specialize (IH (g_slist_concat bundles found) c1 p1). rewrite Hcompat in IH.
  assert (Hall : Forall (bundle_accepted w (compatible context)) (g_slist_concat bundles found))
    by (unfold g_slist_concat; now apply Forall_app).
  specialize (IH Hall).
  now destruct (search_mount_points w c mps (g_slist_concat bundles found) c1 p1)
    as [[[[r c'] p] e]|].
Qed.

(** Every bundle of the list an [on_attach] with defined behaviour stores
    for the disk was accepted by [check_rauc_bundle]: its path ends with
    ".raucb" and the installer's Info on that path reports the system's
    compatible and the version the bundle carries. This holds whenever the
    search was cancelled, for directories that could not be opened and
    whatever the hook does afterwards. A system without compatible string
    stores no bundle at all. *)
Theorem stored_bundles_were_accepted (w : World) (cancellable : GCancellable)
    (device : GUdevDevice) (mount_points : list string) (context context' : MainContext)
    (evs : list event) :
  on_attach w cancellable device mount_points context = Some (context', evs) ->
  exists bundles,
    bundles_by_disk context' !! DISK_ID device = Some bundles
    /\ Forall (bundle_accepted w (compatible context)) bundles
    /\ (compatible context = None -> bundles = []).
Proof.
  intros Hdef.
  destruct (on_attach_parts w cancellable device mount_points context context' evs Hdef)
    as (bundles & c1 & polls & ev_search & Hsearch & -> & _).
  exists bundles. cbn [fst bundles_by_disk set_bundles_by_disk].
  split; [apply lookup_insert_eq|].
  pose proof (search_mount_points_accepted w cancellable mount_points []
                (set_device_count_field (guint_incr (device_count context)) context) 0%nat
                ltac:(constructor)) as Hall.
  rewrite Hsearch in Hall. cbn [fst compatible set_device_count_field when_defined] in Hall.
  split; [exact Hall|].
  intros Hnone. destruct bundles as [|b rest]; [reflexivity|].
  apply Forall_cons in Hall as [(_ & compat & _ & Hsys) _]. congruence.
Qed.

Lemma stored_bundles_were_accepted_witness :
  exists context' evs bundles,
    on_attach (Sample.world None 0 Sample.three_files (Some 3%nat)) (Some 3%nat) Sample.sda
              ["/mnt"%string] (main_context (Some "sys-A"%string))
    = Some (context', evs)
    /\ bundles_by_disk context' !! "uuid-a"%string = Some bundles
    /\ map bundle_path bundles = ["/mnt/a.raucb"%string]
    /\ Forall (bundle_accepted (Sample.world None 0 Sample.three_files (Some 3%nat))
                               (Some "sys-A"%string)) bundles.
Proof.
  destruct (on_attach (Sample.world None 0 Sample.three_files (Some 3%nat)) (Some 3%nat)
              Sample.sda ["/mnt"%string] (main_context (Some "sys-A"%string)))
    as [[context' evs]|] eqn:Hrun; [|vm_compute in Hrun; discriminate].
  destruct (stored_bundles_were_accepted _ _ _ _ _ _ _ Hrun) as (bundles & Hstored & Hall & _).
  exists context', evs, bundles. split; [reflexivity|]. split; [exact Hstored|].
  split; [|exact Hall].
  vm_compute in Hrun. injection Hrun as <- <-.
  vm_compute in Hstored. injection Hstored as <-. reflexivity.
Defined.

(** ** Timeout sources and disks that wait *)

Lemma unattached_disks_length (self : UdevMonitor) :
  length (unattached_disks self)
  = length (List.filter (waits (heap self)) (map_to_list (disks self))).
Proof. unfold unattached_disks. now rewrite length_map. Qed.

Lemma filter_length_perm {A : Type} (f : A -> bool) (l l' : list A) :
  l ≡ₚ l' -> length (List.filter f l) = length (List.filter f l').
Proof.
  induction 1 as [|x l l' _ IH|x y l|l1 l2 l3 _ IH1 _ IH2]; cbn [List.filter].
  - reflexivity.
  - destruct (f x); cbn [length]; now rewrite IH.
  - now destruct (f x), (f y).
  - now rewrite IH1.
Qed.

Lemma filter_length_mono {A : Type} (f g : A -> bool) (l : list A) :
  (forall x, x ∈ l -> f x = true -> g x = true) ->
  (length (List.filter f l) <= length (List.filter g l))%nat.
Proof.
  induction l as [|x l IH]; intros Hfg; [reflexivity|]. cbn [List.filter].
  assert (Hl : (length (List.filter f l) <= length (List.filter g l))%nat).
  { apply IH. intros y Hy. apply Hfg. now apply list_elem_of_further. }
  pose proof (Hfg x (list_elem_of_here _ _)) as Hx.
  destruct (f x); [rewrite Hx by reflexivity|destruct (g x)]; cbn [length]; lia.
Qed.

Lemma filter_length_drop {A : Type} (f g : A -> bool) (l : list A) (y : A) :
  (forall x, x ∈ l -> f x = true -> g x = true) ->
  y ∈ l -> g y = true -> f y = false ->
  (S (length (List.filter f l)) <= length (List.filter g l))%nat.
Proof.
  induction l as [|x l IH]; intros Hfg Hy Hgy Hfy; [now apply elem_of_nil in Hy|].
  cbn [List.filter].
  assert (Hrest : forall z, z ∈ l -> f z = true -> g z = true).
  { intros z Hz. apply Hfg. now apply list_elem_of_further. }
  pose proof (filter_length_mono f g l Hrest) as Hl.
  pose proof (Hfg x (list_elem_of_here _ _)) as Hx.
  apply elem_of_cons in Hy as [<-|Hy].
  - rewrite Hgy, Hfy. cbn [length]. lia.
  - specialize (IH Hrest Hy Hgy Hfy).
    destruct (f x); [rewrite Hx by reflexivity|destruct (g x)]; cbn [length]; lia.
Qed.

Lemma waiting_after_delete (hp : gmap addr Disk) (m : gmap string addr) (id : string)
    (a : addr) :
  m !! id = Some a ->
  (length (List.filter (waits hp) (map_to_list (delete id m)))
   <= length (List.filter (waits hp) (map_to_list m)))%nat.
Proof.
  intros Hid. rewrite <- (filter_length_perm _ _ _ (map_to_list_delete m id a Hid)).
  cbn [List.filter]. destruct (waits hp (id, a)); cbn [length]; lia.
Qed.

Lemma on_uevent_waiting (os : OS) (self self' : UdevMonitor) (now : Z)
    (action : option string) (device : GUdevDevice) (evs : list event) :
  monitor_consistent self ->
  on_uevent os self now action device = Some (self', evs) ->
  (length (unattached_disks self) <= timeouts self)%nat ->
  (length (unattached_disks self') <= timeouts self')%nat.
Proof.
  intros [Hlive Hinj Hheap Hqueue Hqatt]. rewrite !unattached_disks_length. unfold on_uevent.
  destruct (negb _); [intros [= <- <-]; auto|].
  destruct (g_strcmp0 action (Some "add"%string) =? 0).
  { destruct (g_strcmp0 (DEVTYPE device) (Some "disk"%string) =? 0).
    - (* new disk *)
      assert (Hfresh : forall x, x ∈ map_to_list (disks self) -> x.2 <> next_addr self).
      { intros [id a] Hin Heq. apply elem_of_map_to_list in Hin. cbn in Heq. subst a.
        destruct (Hlive id _ Hin) as [d Hd]. apply Hheap in Hd. lia. }
      assert (Hgoal : forall hp,
                 (forall a d, hp !! a = Some d -> heap self !! a = Some d) ->
                 (length (List.filter (waits (<[next_addr self := new_disk device now]> hp))
                            (map_to_list (<[DISK_ID device := next_addr self]> (disks self))))
                  <= S (length (List.filter (waits (heap self)) (map_to_list (disks self)))))%nat).
      { intros hp Hsub. rewrite <- (insert_delete_eq (disks self)).
        rewrite (filter_length_perm _ _ _
                   (map_to_list_insert (delete (DISK_ID device) (disks self)) (DISK_ID device)
                      (next_addr self) (lookup_delete_eq _ _))).
        cbn [List.filter].
        assert (Hrest : (length (List.filter
                                   (waits (<[next_addr self := new_disk device now]> hp))
                                   (map_to_list (delete (DISK_ID device) (disks self))))
                         <= length (List.filter (waits (heap self))
                                      (map_to_list (disks self))))%nat).
        { etransitivity.
          - apply (filter_length_mono _ (waits (heap self))). intros x Hx.
            assert (Hin : x ∈ map_to_list (disks self)).
            { destruct x as [id a]. apply elem_of_map_to_list in Hx.
              apply lookup_delete_Some in Hx as [_ Hx]. now apply elem_of_map_to_list. }
            unfold waits. rewrite lookup_insert_ne by (intros Heq; now apply (Hfresh x Hin)).
            destruct (hp !! x.2) as [d|] eqn:Hd; [|discriminate].
            now rewrite (Hsub _ _ Hd).
          - destruct (disks self !! DISK_ID device) as [old|] eqn:Hold.
            + exact (waiting_after_delete _ _ _ _ Hold).
            + now rewrite (delete_id _ _ Hold). }
        destruct (waits _ (DISK_ID device, next_addr self)); cbn [length]; lia. }
      destruct (disks self !! DISK_ID device) as [old|] eqn:Hold.
      + destruct (heap self !! old) as [old_disk|]; [|discriminate].
        intros [= <- <-]. cbn [disks heap timeouts]. intros Hle.
        etransitivity; [apply Hgoal | lia].
        intros a d Ha. apply lookup_delete_Some in Ha. tauto.
      + intros [= <- <-]. cbn [disks heap timeouts]. intros Hle.
        etransitivity; [apply Hgoal | lia]. auto.
    - destruct (g_strcmp0 (DEVTYPE device) (Some "partition"%string) =? 0);
        [|intros [= <- <-]; auto].
      (* new partition *)
      destruct (disks self !! DISK_ID device) as [a|] eqn:Ha; [|intros [= <- <-]; auto].
      destruct (heap self !! a) as [disk|] eqn:Hd; [|discriminate].
      destruct (attached disk) eqn:Hatt; cbn [negb]; intros [= <- <-]; [auto|].
      cbn [disks heap timeouts]. intros Hle.
      etransitivity; [|exact Hle]. apply filter_length_mono. intros x _.
      unfold waits. rewrite lookup_insert. case_decide as Hx; [|auto].
      rewrite <- Hx, Hd. cbn. now rewrite Hatt. }
  destruct (g_strcmp0 action (Some "remove"%string) =? 0); [|intros [= <- <-]; auto].
  (* remove disk *)
  destruct (disks self !! DISK_ID device) as [a|] eqn:Ha; [|intros [= <- <-]; auto].
  destruct (heap self !! a) as [disk|] eqn:Hd; [|discriminate].
  intros [= <- <-]. cbn [disks heap timeouts]. intros Hle.
  etransitivity; [|exact Hle].
  etransitivity; [|exact (waiting_after_delete _ _ _ _ Ha)].
  apply filter_length_mono. intros [id x] Hx.
  apply elem_of_map_to_list, lookup_delete_Some in Hx as [Hne Hx].
  assert (x <> a) by (intros ->; apply Hne; exact (Hinj _ _ _ Ha Hx)).
  unfold waits. cbn [snd]. now rewrite lookup_insert_ne by congruence.
Qed.

Lemma on_disk_initialized_waiting (self self' : UdevMonitor) (now : Z) (again : bool) :
  on_disk_initialized self now = Some (self', again) ->
  timeouts self' = timeouts self
  /\ (if again then self' = self
      else (S (length (unattached_disks self')) <= length (unattached_disks self))%nat).
Proof.
  rewrite !unattached_disks_length. unfold on_disk_initialized.
  destruct (find_initialized (heap self) now (map_to_list (disks self)))
    as [[a|]|] eqn:Hfind; [| intros [= <- <-]; now split | discriminate].
  apply find_initialized_found in Hfind as (id & disk & Hin & Ha & Hready).
  rewrite Ha. intros [= <- <-]. split; [reflexivity|]. cbn [disks heap].
  unfold initialized_long_enough in Hready. apply andb_true_iff in Hready as [Hatt _].
  apply (filter_length_drop _ _ _ (id, a)); [|exact Hin| |].
  - intros x _. unfold waits. rewrite lookup_insert. case_decide as Hx; [discriminate | auto].
  - unfold waits. cbn [snd]. now rewrite Ha.
  - unfold waits. cbn [snd]. now rewrite lookup_insert_eq.
Qed.

Lemma timeout_dispatch_waiting (self self' : UdevMonitor) (now : Z) :
  timeout_dispatch self now = Some self' ->
  (length (unattached_disks self) <= timeouts self)%nat ->
  (length (unattached_disks self') <= timeouts self')%nat.
Proof.
  unfold timeout_dispatch. destruct (timeouts self) as [|n] eqn:Ht; [now intros [= <-]; rewrite Ht|].
  destruct (on_disk_initialized self now) as [[self1 again]|] eqn:Hrun; [|discriminate].
  apply on_disk_initialized_waiting in Hrun as [Hsame Hcount].
  destruct again; intros [= <-].
  - subst self1. now rewrite Ht.
  - cbn [timeouts]. rewrite !unattached_disks_length in *. cbn [disks heap]. lia.
Qed.

Lemma process_disk_thread_func_waiting {H : Type}
    (attach_handler : GUdevDevice -> list string -> bool -> H -> H * list event)
    (detach_handler : GUdevDevice -> H -> H * list event)
    (os : OS) (self self' : UdevMonitor) (h h' : H) (evs : list event) :
  process_disk_thread_func attach_handler detach_handler os self h = Processed self' h' evs ->
  timeouts self' = timeouts self
  /\ (length (unattached_disks self') <= length (unattached_disks self))%nat.
Proof.
  rewrite !unattached_disks_length. unfold process_disk_thread_func.
  destruct (process_device_queue self) as [|[a|] rest]; try discriminate.
  destruct (heap self !! a) as [disk|] eqn:Ha; [|discriminate].
  destruct (attached disk) eqn:Hatt.
  - destruct (mount_partitions_spec os (partitions disk) disk) as (Hd & _).
    destruct (mount_partitions os (partitions disk) disk) as [disk1 ev_mount].
    cbn [fst] in Hd.
    destruct (attach_handler (gudev_device disk1) (mount_points disk1)
                             (Udev.cancellable disk1) h) as [h1 ev_handler].
    intros [= <- <- <-]. split; [reflexivity|]. cbn [disks heap].
    apply filter_length_mono. intros x _. unfold waits.
    rewrite lookup_insert. case_decide as Hx; [|auto].
    rewrite Hd. cbn. now rewrite Hatt.
  - destruct (detach_handler (gudev_device disk) h) as [h1 ev_handler].
    intros [= <- <- <-]. split; [reflexivity|]. cbn [disks heap].
    apply filter_length_mono. intros x _. unfold waits.
    rewrite lookup_delete. case_decide as Hx; [discriminate | auto].
Qed.

Lemma daemon_step_waiting (os : OS) (w : World) (d d' : Daemon) (s : step)
    (evs : list event) :
  monitor_consistent (monitor d) ->
  daemon_step os w d s = Some (d', evs) ->
  (length (unattached_disks (monitor d)) <= timeouts (monitor d))%nat ->
  (length (unattached_disks (monitor d')) <= timeouts (monitor d'))%nat.
Proof.
  intros Hc. destruct s as [now action device | now |]; cbn [daemon_step].
  - destruct (on_uevent os (monitor d) now (Some action) device) as [[m e]|] eqn:Hev;
      [|discriminate].
    intros [= <- <-]. exact (on_uevent_waiting _ _ _ _ _ _ _ Hc Hev).
  - destruct (timeout_dispatch (monitor d) now) as [m|] eqn:Ht; [|discriminate].
    intros [= <- <-]. exact (timeout_dispatch_waiting _ _ _ Ht).
  - destruct (process_disk_thread_func _ _ os (monitor d) (Some (context d)))
      as [| | | m [c|] e] eqn:Hw; try discriminate; try (intros [= <- <-]; auto).
    apply process_disk_thread_func_waiting in Hw as [Ht Hle]. cbn [monitor]. lia.
Qed.

Lemma daemon_run_waiting (os : OS) (w : World) (l : list step) :
  forall (d d' : Daemon) (evs : list event),
    monitor_consistent (monitor d) ->
    (length (unattached_disks (monitor d)) <= timeouts (monitor d))%nat ->
    daemon_run os w d l = Some (d', evs) ->
    (length (unattached_disks (monitor d')) <= timeouts (monitor d'))%nat.
Proof.
  induction l as [|s l IH]; intros d d' evs Hc Hle; cbn [daemon_run].
  - now intros [= <- <-].
  - destruct (daemon_step os w d s) as [[d1 e1]|] eqn:Hs; [|discriminate].
    destruct (daemon_run os w d1 l) as [[d2 e2]|] eqn:Hr; [|discriminate].
    intros [= <- <-].
    exact (IH d1 d2 e2 (daemon_step_consistent _ _ _ _ _ _ Hc Hs)
              (daemon_step_waiting _ _ _ _ _ _ Hc Hs Hle) Hr).
Qed.

(** In every state the daemon reaches from its start state there are at
    least as many timeout sources as the table has disks that are not
    attached: [on_uevent] adds a source with every disk and a source ends
    only when its check has flagged a disk attached. So no disk of the table
    waits without a check to come: when its timer reads more than the window
    and a source fires, the check queues one mount job, one disk less waits
    and that source ends. *)
Theorem waiting_disks_have_timeout_sources (os : OS) (w : World) (sys : option string)
    (l : list step) (d : Daemon) (evs : list event) :
  daemon_run os w (daemon_start sys) l = Some (d, evs) ->
  (length (unattached_disks (monitor d)) <= timeouts (monitor d))%nat
  /\ forall now id a disk,
       disks (monitor d) !! id = Some a -> heap (monitor d) !! a = Some disk ->
       attached disk = false -> UDEV_TIMEOUT < now - initialized disk ->
       exists d' a',
         daemon_step os w d (Timeout now) = Some (d', [])
         /\ process_device_queue (monitor d')
            = process_device_queue (monitor d) ++ [JobDisk a']
         /\ S (timeouts (monitor d')) = timeouts (monitor d)
         /\ (S (length (unattached_disks (monitor d')))
             <= length (unattached_disks (monitor d)))%nat.
Proof.
  intros Hrun.
  pose proof (daemon_run_consistent os w l (daemon_start sys) d evs
                udev_monitor_new_consistent Hrun) as Hc.
  assert (Hle : (length (unattached_disks (monitor d)) <= timeouts (monitor d))%nat).
  { apply (daemon_run_waiting os w l (daemon_start sys) d evs udev_monitor_new_consistent);
      [|exact Hrun].
    rewrite unattached_disks_length. cbn. rewrite map_to_list_empty. cbn. lia. }
  split; [exact Hle|].
  intros now id a disk Hid Ha Hatt Hlong.
  assert (Hone : (1 <= length (unattached_disks (monitor d)))%nat).
  { rewrite unattached_disks_length.
    enough (S (length (List.filter (fun _ => false) (map_to_list (disks (monitor d)))))
            <= length (List.filter (waits (heap (monitor d)))
                         (map_to_list (disks (monitor d)))))%nat by lia.
    apply (filter_length_drop _ _ _ (id, a)); try reflexivity.
    - discriminate.
    - now apply elem_of_map_to_list.
    - unfold waits. cbn [snd]. now rewrite Ha, Hatt. }
  destruct (on_disk_initialized_cases (monitor d) now (consistent_live _ Hc))
    as [(id' & a' & disk' & Hcheck & _) | [_ Hnone]].
  - pose proof (on_disk_initialized_waiting _ _ _ _ Hcheck) as [_ Hdrop].
    exists {| monitor :=
                {| disks := disks (promoted (monitor d) a' disk');
                   process_device_queue := process_device_queue (promoted (monitor d) a' disk');
                   heap := heap (promoted (monitor d) a' disk');
                   next_addr := next_addr (promoted (monitor d) a' disk');
                   timeouts := Nat.pred (timeouts (monitor d)) |};
              context := context d |}, a'.
    cbn [daemon_step]. unfold timeout_dispatch.
    destruct (timeouts (monitor d)) as [|n] eqn:Ht; [lia|]. rewrite Hcheck.
    cbn [monitor process_device_queue timeouts promoted Nat.pred].
    repeat split. rewrite !unattached_disks_length in *. exact Hdrop.
  - exfalso. destruct (Hnone id a disk Hid Ha); [congruence | lia].
Qed.

Lemma waiting_disks_have_timeout_sources_witness :
  exists d evs,
    daemon_run Sample.os_ok Sample.hookless (daemon_start (Some "sys-A"%string))
               [Uevent 0 "add" Sample.sda; Uevent 10 "add" Sample.sdc;
                Uevent 20 "remove" Sample.sda; Worker] = Some (d, evs)
    /\ (length (unattached_disks (monitor d)) <= timeouts (monitor d))%nat.
Proof.
  destruct (daemon_run Sample.os_ok Sample.hookless (daemon_start (Some "sys-A"%string))
              [Uevent 0 "add" Sample.sda; Uevent 10 "add" Sample.sdc;
               Uevent 20 "remove" Sample.sda; Worker])
    as [[d evs]|] eqn:Hrun; [|vm_compute in Hrun; discriminate].
  exists d, evs. split; [reflexivity|].
  exact (proj1 (waiting_disks_have_timeout_sources _ _ _ _ _ _ Hrun)).
Defined.

(** ** No disk is lost while the daemon runs *)

Lemma on_uevent_no_disk_lost (os : OS) (self self' : UdevMonitor) (now : Z)
    (action : option string) (device : GUdevDevice) (evs : list event) :
  no_disk_lost self ->
  on_uevent os self now action device = Some (self', evs) ->
  no_disk_lost self'.
Proof.
  intros Hkept. unfold on_uevent.
  destruct (negb _); [now intros [= <- <-]|].
  destruct (g_strcmp0 action (Some "add"%string) =? 0).
  { destruct (g_strcmp0 (DEVTYPE device) (Some "disk"%string) =? 0).
    - (* new disk *)
      assert (Hgoal : forall hp,
                 (forall a d, hp !! a = Some d ->
                              heap self !! a = Some d
                              /\ disks self !! DISK_ID device <> Some a) ->
                 no_disk_lost
                   {| disks := <[DISK_ID device := next_addr self]> (disks self);
                      process_device_queue := process_device_queue self;
                      heap := <[next_addr self := new_disk device now]> hp;
                      next_addr := S (next_addr self);
                      timeouts := S (timeouts self) |}).
      { intros hp Hsub a d. unfold in_table. cbn [disks heap process_device_queue].
        rewrite lookup_insert. case_decide as Ha.
        - intros _. left. exists (DISK_ID device). subst a. apply lookup_insert_eq.
        - intros Hd. destruct (Hsub a d Hd) as [Hheap Hnot].
          destruct (Hkept a d Hheap) as [[id Hid] | Hq]; [left | now right].
          exists id. rewrite lookup_insert_ne; [exact Hid|]. intros <-. contradiction. }
      destruct (disks self !! DISK_ID device) as [old|] eqn:Hold.
      + destruct (heap self !! old) as [old_disk|]; [|discriminate].
        intros [= <- <-]. apply Hgoal. intros a d Ha.
        apply lookup_delete_Some in Ha as [Hne Ha]. split; [exact Ha | congruence].
      + intros [= <- <-]. apply Hgoal. intros a d Ha. split; [exact Ha | discriminate].
    - destruct (g_strcmp0 (DEVTYPE device) (Some "partition"%string) =? 0);
        [|now intros [= <- <-]].
      (* new partition *)
      destruct (disks self !! DISK_ID device) as [a|] eqn:Ha; [|now intros [= <- <-]].
      destruct (heap self !! a) as [disk|] eqn:Hd; [|discriminate].
      destruct (attached disk) eqn:Hatt; cbn [negb]; intros [= <- <-]; [assumption|].
      intros x d. unfold in_table. cbn [disks heap process_device_queue].
      rewrite lookup_insert. case_decide as Hx; [|apply Hkept].
      intros _. left. exists (DISK_ID device). now subst x. }
  destruct (g_strcmp0 action (Some "remove"%string) =? 0); [|now intros [= <- <-]].
  (* remove disk *)
  destruct (disks self !! DISK_ID device) as [a|] eqn:Ha; [|now intros [= <- <-]].
  destruct (heap self !! a) as [disk|] eqn:Hd; [|discriminate].
  intros [= <- <-]. intros x d. unfold in_table. cbn [disks heap process_device_queue].
  rewrite lookup_insert. case_decide as Hx.
  - intros [= <-]. right. split; [|reflexivity]. apply in_or_app. right. left. now subst x.
  - intros Hdx. destruct (Hkept x d Hdx) as [[id Hid] | [Hq Hatt]].
    + left. exists id. rewrite lookup_delete_ne; [exact Hid|]. intros <-. congruence.
    + right. split; [|exact Hatt]. apply in_or_app. now left.
Qed.

Lemma timeout_dispatch_no_disk_lost (self self' : UdevMonitor) (now : Z) :
  no_disk_lost self -> timeout_dispatch self now = Some self' -> no_disk_lost self'.
Proof.
  intros Hkept. unfold timeout_dispatch.
  assert (Hcheck : forall self1 again,
             on_disk_initialized self now = Some (self1, again) ->
             forall n, no_disk_lost
                         {| disks := disks self1;
                            process_device_queue := process_device_queue self1;
                            heap := heap self1; next_addr := next_addr self1;
                            timeouts := n |}).
  { intros self1 again. unfold on_disk_initialized.
    destruct (find_initialized (heap self) now (map_to_list (disks self)))
      as [[a|]|] eqn:Hfind; [| intros [= <- <-] n; exact Hkept | discriminate].
    apply find_initialized_found in Hfind as (id & disk & Hin & Ha & _).
    apply elem_of_map_to_list in Hin.
    rewrite Ha. intros [= <- <-] n x d. unfold in_table.
    cbn [disks heap process_device_queue].
    rewrite lookup_insert. case_decide as Hx.
    - intros _. left. exists id. now subst x.
    - intros Hdx. destruct (Hkept x d Hdx) as [Hin' | [Hq Hatt]]; [now left|].
      right. split; [|exact Hatt]. apply in_or_app. now left. }
  destruct (timeouts self) as [|n]; [now intros [= <-]|].
  destruct (on_disk_initialized self now) as [[self1 again]|] eqn:Hrun; [|discriminate].
  specialize (Hcheck self1 again eq_refl).
  destruct again; intros [= <-]; [|apply Hcheck].
  specialize (Hcheck (timeouts self1)). now destruct self1.
Qed.

Lemma process_disk_thread_func_no_disk_lost {H : Type}
    (attach_handler : GUdevDevice -> list string -> bool -> H -> H * list event)
    (detach_handler : GUdevDevice -> H -> H * list event)
    (os : OS) (self self' : UdevMonitor) (h h' : H) (evs : list event) :
  no_disk_lost self ->
  process_disk_thread_func attach_handler detach_handler os self h = Processed self' h' evs ->
  no_disk_lost self'.
Proof.
  intros Hkept. unfold process_disk_thread_func.
  destruct (process_device_queue self) as [|[a|] rest] eqn:Hq; try discriminate.
  destruct (heap self !! a) as [disk|] eqn:Ha; [|discriminate].
  assert (Hrest : forall x d, x <> a -> heap self !! x = Some d ->
                              in_table self x \/ (In (JobDisk x) rest /\ attached d = false)).
  { intros x d Hx Hdx. destruct (Hkept x d Hdx) as [Hin | [Hin Hatt]]; [now left|].
    right. split; [|exact Hatt]. rewrite Hq in Hin. destruct Hin as [[= ->] | Hin]; tauto. }
  destruct (attached disk) eqn:Hatt.
  - destruct (mount_partitions os (partitions disk) disk) as [disk1 ev_mount].
    destruct (attach_handler (gudev_device disk1) (mount_points disk1)
                             (Udev.cancellable disk1) h) as [h1 ev_handler].
    intros [= <- <- <-]. intros x d. unfold in_table. cbn [disks heap process_device_queue].
    rewrite lookup_insert. case_decide as Hx; [|now apply Hrest].
    intros _. subst x. destruct (Hkept a disk Ha) as [Hin | [_ Hno]]; [now left | congruence].
  - destruct (detach_handler (gudev_device disk) h) as [h1 ev_handler].
    intros [= <- <- <-]. intros x d. unfold in_table. cbn [disks heap process_device_queue].
    rewrite lookup_delete. case_decide as Hx; [discriminate | now apply Hrest].
Qed.

Lemma daemon_run_no_disk_lost (os : OS) (w : World) (l : list step) :
  forall (d d' : Daemon) (evs : list event),
    no_disk_lost (monitor d) ->
    daemon_run os w d l = Some (d', evs) ->
    no_disk_lost (monitor d').
Proof.
  induction l as [|s l IH]; intros d d' evs Hkept; cbn [daemon_run].
  - now intros [= <- <-].
  - destruct (daemon_step os w d s) as [[d1 e1]|] eqn:Hs; [|discriminate].
    destruct (daemon_run os w d1 l) as [[d2 e2]|] eqn:Hr; [|discriminate].
    intros [= <- <-]. apply (IH d1 d2 e2); [|exact Hr].
    destruct s as [now action device | now |]; cbn [daemon_step] in Hs.
    + destruct (on_uevent os (monitor d) now (Some action) device) as [[m e]|] eqn:Hev;
        [|discriminate].
      injection Hs as <- <-. exact (on_uevent_no_disk_lost _ _ _ _ _ _ _ Hkept Hev).
    + destruct (timeout_dispatch (monitor d) now) as [m|] eqn:Ht; [|discriminate].
      injection Hs as <- <-. exact (timeout_dispatch_no_disk_lost _ _ _ Hkept Ht).
    + destruct (process_disk_thread_func _ _ os (monitor d) (Some (context d)))
        as [| | | m [c|] e] eqn:Hw; try discriminate; try (injection Hs as <- <-; exact Hkept).
      injection Hs as <- <-.
      exact (process_disk_thread_func_no_disk_lost _ _ _ _ _ _ _ _ Hkept Hw).
Qed.

(** While the daemon runs no [Disk] is lost: in every state reached from the
    start state, a live disk is the value of a table entry, or it is flagged
    unattached and a job for it is queued, so the worker will emit "detach"
    for it and free it. A disk flagged attached is therefore always in the
    table, and once the table and the queue are empty every disk has been
    freed. *)
Theorem no_disk_lost_while_running (os : OS) (w : World) (sys : option string)
    (l : list step) (d : Daemon) (evs : list event) :
  daemon_run os w (daemon_start sys) l = Some (d, evs) ->
  no_disk_lost (monitor d)
  /\ (forall a disk, heap (monitor d) !! a = Some disk -> attached disk = true ->
                     in_table (monitor d) a)
  /\ (disks (monitor d) = ∅ -> process_device_queue (monitor d) = [] ->
      heap (monitor d) = ∅).
Proof.
  intros Hrun.
  assert (Hkept : no_disk_lost (monitor d)).
  { apply (daemon_run_no_disk_lost os w l (daemon_start sys) d evs); [|exact Hrun].
    intros a disk Ha. cbn in Ha. now rewrite lookup_empty in Ha. }
  split; [exact Hkept|]. split.
  - intros a disk Ha Hatt. destruct (Hkept a disk Ha) as [Hin | [_ Hno]]; [exact Hin | congruence].
  - intros Htable Hqueue. apply map_empty. intros a.
    destruct (heap (monitor d) !! a) as [disk|] eqn:Ha; [exfalso | reflexivity].
    destruct (Hkept a disk Ha) as [[id Hid] | [Hin _]].
    + rewrite Htable, lookup_empty in Hid. discriminate.
    + now rewrite Hqueue in Hin.
Qed.

Lemma no_disk_lost_while_running_witness :
  exists d evs,
    daemon_run Sample.os_ok Sample.hookless (daemon_start (Some "sys-A"%string))
               (Sample.a_attached ++ Sample.a_pulled) = Some (d, evs)
    /\ heap (monitor d) = ∅.
Proof.
  destruct (daemon_run Sample.os_ok Sample.hookless (daemon_start (Some "sys-A"%string))
              (Sample.a_attached ++ Sample.a_pulled))
    as [[d evs]|] eqn:Hrun; [|vm_compute in Hrun; discriminate].
  exists d, evs. split; [reflexivity|].
  destruct (no_disk_lost_while_running _ _ _ _ _ _ Hrun) as (_ & _ & Hfreed).
  vm_compute in Hrun. injection Hrun as <- _.
  apply Hfreed; reflexivity.
Defined.

(** ** Shutdown as [main] performs it *)

(** [main] leaves its loop, calls [udev_monitor_quit] and drops the monitor,
    which finalizes it. In a consistent state the two together call
    [umount2] once for every mount point of every disk in the table and make
    no other syscall; no "detach" is emitted for these disks, so the detach
    handler does not run for them; the table ends up empty; and a disk that
    had left the table and waited in the queue is left as it was, mounted and
    allocated. *)
Theorem shutdown_unmounts_without_detach (os : OS) (self : UdevMonitor) :
  monitor_consistent self ->
  exists stopped final evs,
    udev_monitor_quit self = Some stopped
    /\ udev_monitor_finalize os stopped = Some (final, evs)
    /\ syscalls evs = map sys_umount2 (table_mount_points self)
    /\ attach_signals evs = [] /\ detach_signals evs = []
    /\ disks final = ∅ /\ process_device_queue final = []
    /\ (forall a, in_table self a -> heap final !! a = None)
    /\ (forall a, ~ in_table self a -> heap final !! a = heap self !! a).
Proof.
  intros [Hlive Hinj _ _ _].
  destruct (cancel_disks_spec (map_to_list (disks self)) (heap self)) as (hp1 & Hquit & Hhp1).
  { intros [id a] Hin. apply elem_of_map_to_list in Hin. exact (Hlive id a Hin). }
  destruct (destroy_disks_spec os (map_to_list (disks self)) hp1
              (table_addrs_NoDup self Hinj)) as (hp2 & Hfin & Hhp2).
  { intros [id a] Hin. rewrite Hhp1.
    rewrite decide_True by (apply list_elem_of_fmap; now exists (id, a)).
    apply elem_of_map_to_list in Hin. destruct (Hlive id a Hin) as [disk Hdisk].
    cbn [snd]. rewrite Hdisk. cbn. eauto. }
  do 3 eexists.
  split; [unfold udev_monitor_quit; rewrite Hquit; reflexivity|].
  split; [unfold udev_monitor_finalize; cbn [disks heap]; rewrite Hfin; reflexivity|].
  destruct (destroy_disks_events os hp1 (map_to_list (disks self))) as (Hs & Ha & Hd).
  split.
  { rewrite Hs. unfold table_mount_points. f_equal. apply flat_map_ext_In.
    intros ka Hin. rewrite Hhp1.
    rewrite decide_True by (apply list_elem_of_fmap; now exists ka).
    now destruct (heap self !! ka.2). }
  split; [exact Ha|]. split; [exact Hd|].
  cbn [disks process_device_queue heap]. repeat split.
  - intros a Hin. rewrite Hhp2. apply in_table_addrs in Hin.
    destruct (decide (a ∈ (map_to_list (disks self)).*2)); [reflexivity | contradiction].
  - intros a Hnin. rewrite Hhp2, Hhp1.
    destruct (decide (a ∈ (map_to_list (disks self)).*2)) as [Hin|]; [|reflexivity].
    apply in_table_addrs in Hin. contradiction.
Qed.

Lemma shutdown_unmounts_without_detach_witness :
  exists d evs0 stopped final evs,
    daemon_run Sample.os_ok Sample.hookless (daemon_start (Some "sys-A"%string))
               (Sample.a_attached ++ [Uevent 3000000 "add" Sample.sdc]) = Some (d, evs0)
    /\ udev_monitor_quit (monitor d) = Some stopped
    /\ udev_monitor_finalize Sample.os_ok stopped = Some (final, evs)
    /\ evs = [sys_umount2 "/run/media/disk-updater/sda1"].
Proof.
  destruct (daemon_run Sample.os_ok Sample.hookless (daemon_start (Some "sys-A"%string))
              (Sample.a_attached ++ [Uevent 3000000 "add" Sample.sdc]))
    as [[d evs0]|] eqn:Hrun; [|vm_compute in Hrun; discriminate].
  destruct (shutdown_unmounts_without_detach Sample.os_ok (monitor d))
    as (stopped & final & evs & Hquit & Hfin & _).
  - exact (daemon_run_consistent _ _ _ (daemon_start (Some "sys-A"%string)) _ _
             udev_monitor_new_consistent Hrun).
  - exists d, evs0, stopped, final, evs. split; [reflexivity|].
    split; [exact Hquit|]. split; [exact Hfin|].
    vm_compute in Hrun. injection Hrun as <- _.
    vm_compute in Hquit. injection Hquit as <-.
    vm_compute in Hfin. now injection Hfin as _ <-.
Defined.

(** ** The hook at attach *)

Lemma search_events_no_spawn (evs : list event) :
  forallb search_event evs = true -> spawns evs = 0%nat /\ installs evs = [].
Proof. intros H. destruct (search_events_only evs H) as (_ & _ & _ & Hi & Hs). now split. Qed.

(** An [on_attach] whose behaviour is defined runs the hook exactly when a
    script is configured, no poll of the cancellable has answered TRUE and
    the list it stored for the disk is not empty; it then spawns it once,
    after the status went back to "idle", and Install is called at most once,
    with the path of a bundle of the stored list. When a poll answered TRUE
    the hook is not spawned and nothing is installed. *)
Theorem attach_runs_hook_once (w : World) (cancellable : GCancellable)
    (device : GUdevDevice) (mount_points : list string) (context context' : MainContext)
    (evs : list event) :
  on_attach w cancellable device mount_points context = Some (context', evs) ->
  exists bundles,
    bundles_by_disk context' !! DISK_ID device = Some bundles
    /\ spawns evs = (if existsb cancel_seen evs then 0%nat
                     else match script_file w, bundles with
                          | Some _, _ :: _ => 1%nat
                          | _, _ => 0%nat
                          end)
    /\ (installs evs = [] \/ exists b, In b bundles /\ installs evs = [bundle_path b])
    /\ (existsb cancel_seen evs = true -> installs evs = [])
    /\ (exists before, evs = before ++ set_status "idle" :: cancel_check (existsb cancel_seen evs)
                                    :: (if existsb cancel_seen evs then []
                                        else run_hook_install w bundles)).
Proof.
  intros Hdef.
  destruct (on_attach_parts w cancellable device mount_points context context' evs Hdef)
    as (bundles & c1 & polls & ev_search & Hsearch & -> & ->).
  exists bundles. cbn [fst snd bundles_by_disk set_bundles_by_disk].
  split; [apply lookup_insert_eq|].
  pose proof (search_mount_points_effect w cancellable mount_points []
                (set_device_count_field (guint_incr (device_count context)) context) 0%nat)
    as Heff.
  pose proof (search_mount_points_respects w cancellable mount_points []
                (set_device_count_field (guint_incr (device_count context)) context) 0%nat)
    as Hres.
  rewrite Hsearch in Heff, Hres. destruct Heff as (Hev & _).
  destruct Hres as (_ & Hseen & _).
  destruct (search_events_no_spawn ev_search Hev) as [Sspawn Sinst].
  set (replaced := match bundles_by_disk c1 !! DISK_ID device with
                   | Some old => bundles_destroyed old
                   | None => []
                   end).
  assert (Hrep : spawns replaced = 0%nat /\ installs replaced = []
                 /\ existsb cancel_seen replaced = false).
  { subst replaced. destruct (bundles_by_disk c1 !! DISK_ID device) as [old|]; [|now repeat split].
    destruct (bundles_destroyed_only old) as (_ & _ & _ & Hi & Hs).
    destruct (bundles_destroyed_events old) as (Hc & _). now repeat split. }
  destruct Hrep as (Rspawn & Rinst & Rseen).
  destruct (run_hook_install_installs w bundles) as (Hone & _ & Hspawn). cbv zeta in Hone, Hspawn.
  destruct (run_hook_install_events w bundles) as [Hhook _].
  change (spawns (set_device_count ?a :: set_status ?b :: ?r)) with (spawns r).
  change (installs (set_device_count ?a :: set_status ?b :: ?r)) with (installs r).
  change (existsb cancel_seen (set_device_count ?a :: set_status ?b :: ?r))
    with (existsb cancel_seen r).
  rewrite !spawns_app, !installs_app, !existsb_cancel_seen_app, Sspawn, Sinst, Rspawn, Rinst,
    Rseen.
  destruct (is_cancelled cancellable polls) eqn:Hcan.
  - cbn [existsb cancel_seen orb app spawns installs flat_map length Nat.add].
    rewrite !orb_true_r.
    split; [reflexivity|]. split; [now left|]. split; [reflexivity|].
    exists (set_device_count (guint_incr (device_count context)) :: set_status "scanning"
            :: ev_search ++ replaced).
    cbn [app]. now rewrite <- !app_assoc.
  - assert (Hquiet : existsb cancel_seen ev_search = false).
    { destruct (existsb cancel_seen ev_search); [|reflexivity].
      specialize (Hseen eq_refl). congruence. }
    rewrite Hquiet.
    change (existsb cancel_seen (cancel_check false :: ?r)) with (existsb cancel_seen r).
    change (spawns (cancel_check false :: ?r)) with (spawns r).
    change (installs (cancel_check false :: ?r)) with (installs r).
    change (spawns [set_status "idle"]) with 0%nat.
    change (installs [set_status "idle"]) with (@nil string).
    rewrite Hhook. cbn [orb app Nat.add existsb cancel_seen].
    split; [exact Hspawn|]. split; [exact Hone|]. split; [discriminate|].
    exists (set_device_count (guint_incr (device_count context)) :: set_status "scanning"
            :: ev_search ++ replaced).
    cbn [app]. now rewrite <- !app_assoc.
Qed.

Lemma attach_runs_hook_once_witness :
  exists context' evs,
    on_attach (Sample.world (Some "/usr/bin/hook"%string) 2 Sample.three_files None) None
              Sample.sda ["/mnt"%string] (main_context (Some "sys-A"%string))
    = Some (context', evs)
    /\ spawns evs = 1%nat
    /\ installs evs = ["/mnt/a.raucb"%string].
Proof.
  destruct (on_attach (Sample.world (Some "/usr/bin/hook"%string) 2 Sample.three_files None)
              None Sample.sda ["/mnt"%string] (main_context (Some "sys-A"%string)))
    as [[context' evs]|] eqn:Hrun; [|vm_compute in Hrun; discriminate].
  exists context', evs. split; [reflexivity|].
  destruct (attach_runs_hook_once _ _ _ _ _ _ _ Hrun) as (bundles & Hstored & Hspawn & _).
  rewrite Hspawn.
  vm_compute in Hrun. injection Hrun as <- <-.
  vm_compute in Hstored. injection Hstored as <-. split; reflexivity.
Defined.

(** ** The device count *)

Lemma on_uevent_signals (os : OS) (self self' : UdevMonitor) (now : Z)
    (action : option string) (device : GUdevDevice) (evs : list event) :
  on_uevent os self now action device = Some (self', evs) ->
  attach_signals evs = [] /\ detach_signals evs = [].
Proof.
  unfold on_uevent.
  destruct (negb _); [now intros [= <- <-]|].
  destruct (g_strcmp0 action (Some "add"%string) =? 0).
  { destruct (g_strcmp0 (DEVTYPE device) (Some "disk"%string) =? 0).
    - destruct (disks self !! DISK_ID device) as [old|]; [|now intros [= <- <-]].
      destruct (heap self !! old) as [old_disk|]; [|discriminate].
      intros [= <- <-]. apply signals_free_disk.
    - destruct (g_strcmp0 (DEVTYPE device) (Some "partition"%string) =? 0);
        [|now intros [= <- <-]].
      destruct (disks self !! DISK_ID device) as [a|]; [|now intros [= <- <-]].
      destruct (heap self !! a) as [disk|]; [|discriminate].
      now destruct (negb (attached disk)); intros [= <- <-]. }
  destruct (g_strcmp0 action (Some "remove"%string) =? 0); [|now intros [= <- <-]].
  destruct (disks self !! DISK_ID device) as [a|]; [|now intros [= <- <-]].
  destruct (heap self !! a) as [disk|]; [|discriminate].
  now intros [= <- <-].
Qed.

Lemma guint_wrap_range (z : Z) : 0 <= guint_wrap z < 2 ^ 32.
Proof. unfold guint_wrap, GUINT_MODULUS. apply Z.mod_pos_bound. lia. Qed.

Lemma daemon_step_device_count (os : OS) (w : World) (d d' : Daemon) (s : step)
    (evs : list event) :
  0 <= device_count (context d) < 2 ^ 32 ->
  daemon_step os w d s = Some (d', evs) ->
  0 <= device_count (context d') < 2 ^ 32
  /\ device_count (context d')
     = (device_count (context d) + Z.of_nat (length (attach_signals evs))
        - Z.of_nat (length (detach_signals evs))) mod 2 ^ 32.
Proof.
  intros Hrange.
  assert (Hsame : device_count (context d)
                  = (device_count (context d) + Z.of_nat 0 - Z.of_nat 0) mod 2 ^ 32).
  { rewrite Z.mod_small; lia. }
  destruct s as [now action device | now |]; cbn [daemon_step].
  - destruct (on_uevent os (monitor d) now (Some action) device) as [[m e]|] eqn:Hev;
      [|discriminate].
    intros [= <- <-]. apply on_uevent_signals in Hev as [-> ->]. now split.
  - destruct (timeout_dispatch (monitor d) now) as [m|]; [|discriminate].
    intros [= <- <-]. now split.
  - unfold process_disk_thread_func.
    destruct (process_device_queue (monitor d)) as [|[a|] rest];
      try (intros [= <- <-]; now split).
    destruct (heap (monitor d) !! a) as [disk|]; [|discriminate].
    destruct (attached disk).
    + pose proof (mount_partitions_events os (partitions disk) disk) as Hme.
      destruct (mount_partitions os (partitions disk) disk) as [disk1 ev_mount].
      cbn [snd] in Hme. destruct Hme as (_ & _ & Ma & Md & _).
      unfold attach_handler.
      destruct (on_attach w _ (gudev_device disk1) (mount_points disk1) (context d))
        as [[c1 ev_handler]|] eqn:Hon; [|discriminate].
      pose proof (on_attach_handler_events _ _ _ _ _ _ _ Hon) as Hh.
      destruct (on_attach_bookkeeping _ _ _ _ _ _ _ Hon)
        as (_ & _ & _ & _ & _ & _ & _ & _ & _ & _ & Hcount & _).
      destruct (handler_events_only os ev_handler Hh) as (_ & Ha & Hd & _).
      intros [= <- <-]. cbn [context].
      change (emit_attach (gudev_device disk1) (mount_points disk1) :: ev_handler)
        with ([emit_attach (gudev_device disk1) (mount_points disk1)] ++ ev_handler).
      rewrite !attach_signals_app, !detach_signals_app, Ma, Md, Ha, Hd, Hcount.
      cbn [app length attach_signals detach_signals flat_map].
      split; [apply guint_wrap_range|].
      unfold guint_incr, guint_wrap, GUINT_MODULUS. f_equal. lia.
    + unfold detach_handler.
      pose proof (on_detach_handler_events (gudev_device disk) (context d)) as Hh.
      destruct (on_detach_counts (gudev_device disk) (context d)) as (Hcount & _).
      destruct (on_detach (gudev_device disk) (context d)) as [c1 ev_handler].
      cbn [fst snd] in Hh, Hcount.
      destruct (handler_events_only os ev_handler Hh) as (_ & Ha & Hd & _).
      destruct (signals_free_disk os disk) as [Fa Fd].
      intros [= <- <-]. cbn [context].
      change (emit_detach (gudev_device disk) :: ev_handler ++ free_disk os disk)
        with ([emit_detach (gudev_device disk)] ++ ev_handler ++ free_disk os disk).
      rewrite !attach_signals_app, !detach_signals_app, Ha, Hd, Fa, Fd, Hcount.
      cbn [app length attach_signals detach_signals flat_map].
      split; [apply guint_wrap_range|].
      unfold guint_decr, guint_wrap, GUINT_MODULUS. f_equal. lia.
Qed.

Lemma daemon_run_device_count (os : OS) (w : World) (l : list step) :
  forall (d d' : Daemon) (evs : list event),
    0 <= device_count (context d) < 2 ^ 32 ->
    daemon_run os w d l = Some (d', evs) ->
    0 <= device_count (context d') < 2 ^ 32
    /\ device_count (context d')
       = (device_count (context d) + Z.of_nat (length (attach_signals evs))
          - Z.of_nat (length (detach_signals evs))) mod 2 ^ 32.
Proof.
  induction l as [|s l IH]; intros d d' evs Hrange; cbn [daemon_run].
  - intros [= <- <-]. split; [exact Hrange|]. cbn. rewrite Z.mod_small; lia.
  - destruct (daemon_step os w d s) as [[d1 e1]|] eqn:Hs; [|discriminate].
    destruct (daemon_run os w d1 l) as [[d2 e2]|] eqn:Hr; [|discriminate].
    intros [= <- <-].
    destruct (daemon_step_device_count os w d d1 s e1 Hrange Hs) as [Hrange1 Hcount1].
    destruct (IH d1 d2 e2 Hrange1 Hr) as [Hrange2 Hcount2].
    split; [exact Hrange2|].
    rewrite Hcount2, Hcount1, attach_signals_app, detach_signals_app, !length_app,
      !Nat2Z.inj_add.
    rewrite <- Zminus_mod_idemp_l, <- Zplus_mod_idemp_l, Z.mod_mod by lia.
    rewrite Zplus_mod_idemp_l, Zminus_mod_idemp_l. f_equal. lia.
Qed.

(** The device count the daemon holds, a [guint], is at every moment the
    number of "attach" signals emitted so far minus the number of "detach"
    signals, modulo 2^32: [on_attach] and [on_detach] are the only code that
    changes it and each runs exactly once per signal. *)
Theorem device_count_is_attaches_minus_detaches (os : OS) (w : World)
    (sys : option string) (l : list step) (d : Daemon) (evs : list event) :
  daemon_run os w (daemon_start sys) l = Some (d, evs) ->
  device_count (context d)
  = (Z.of_nat (length (attach_signals evs)) - Z.of_nat (length (detach_signals evs)))
    mod 2 ^ 32.
Proof.
  intros Hrun.
  destruct (daemon_run_device_count os w l (daemon_start sys) d evs) as [_ Hcount];
    [cbn; lia | exact Hrun |].
  rewrite Hcount. cbn [daemon_start context main_context device_count]. f_equal.
Qed.

Lemma device_count_is_attaches_minus_detaches_witness :
  exists d evs,
    daemon_run Sample.os_ok Sample.hookless (daemon_start (Some "sys-A"%string))
               (Sample.a_attached ++ Sample.b_plugged_and_pulled ++ Sample.c_attached)
    = Some (d, evs)
    /\ device_count (context d) = 1.
Proof.
  destruct (daemon_run Sample.os_ok Sample.hookless (daemon_start (Some "sys-A"%string))
              (Sample.a_attached ++ Sample.b_plugged_and_pulled ++ Sample.c_attached))
    as [[d evs]|] eqn:Hrun; [|vm_compute in Hrun; discriminate].
  exists d, evs. split; [reflexivity|].
  rewrite (device_count_is_attaches_minus_detaches _ _ _ _ _ _ Hrun).
  vm_compute in Hrun. injection Hrun as _ <-. reflexivity.
Defined.

(** ** Objects on the bus *)










(** ** Mounted directories *)

Lemma recorded_insert (hp : gmap addr Disk) (a : addr) (disk : Disk) :
  recorded_mount_points (<[a := disk]> hp)
  ≡ₚ mount_points disk ++ recorded_mount_points (delete a hp).
Proof.
  unfold recorded_mount_points. rewrite <- (insert_delete_eq hp).
  rewrite (map_to_list_insert (delete a hp) a disk (lookup_delete_eq _ _)).
  reflexivity.
Qed.

Lemma recorded_delete (hp : gmap addr Disk) (a : addr) (disk : Disk) :
  hp !! a = Some disk ->
  recorded_mount_points hp ≡ₚ mount_points disk ++ recorded_mount_points (delete a hp).
Proof.
  intros Ha. unfold recorded_mount_points.
  now rewrite <- (map_to_list_delete hp a disk Ha).
Qed.

(** A live disk replaced by one with the same mount points. *)
Lemma recorded_update (hp : gmap addr Disk) (a : addr) (disk disk' : Disk) :
  hp !! a = Some disk -> mount_points disk' = mount_points disk ->
  recorded_mount_points (<[a := disk']> hp) ≡ₚ recorded_mount_points hp.
Proof.
  intros Ha Hsame. rewrite recorded_insert, Hsame. symmetry. now apply recorded_delete.
Qed.

Lemma on_uevent_mounts (os : OS) (self self' : UdevMonitor) (now : Z)
    (action : option string) (device : GUdevDevice) (evs : list event) :
  monitor_consistent self ->
  on_uevent os self now action device = Some (self', evs) ->
  mounted_dirs os evs = []
  /\ unmounted_dirs evs ++ recorded_mount_points (heap self')
     ≡ₚ recorded_mount_points (heap self).
Proof.
  intros [_ _ Hbelow _ _]. unfold on_uevent.
  destruct (negb _); [now intros [= <- <-]|].
  destruct (g_strcmp0 action (Some "add"%string) =? 0).
  { destruct (g_strcmp0 (DEVTYPE device) (Some "disk"%string) =? 0).
    - assert (Hfresh : heap self !! next_addr self = None).
      { destruct (heap self !! next_addr self) as [x|] eqn:Hx; [|reflexivity].
        apply Hbelow in Hx. lia. }
      destruct (disks self !! DISK_ID device) as [old|].
      + destruct (heap self !! old) as [old_disk|] eqn:Hold; [|discriminate].
        intros [= <- <-]. destruct (free_disk_events os old_disk) as (Hu & Hm & _).
        split; [exact Hm|]. cbn [heap]. rewrite Hu, recorded_insert.
        cbn [new_disk mount_points app].
        rewrite (delete_id (delete old (heap self)) (next_addr self))
          by (rewrite lookup_delete_ne by congruence; exact Hfresh).
        symmetry. now apply recorded_delete.
      + intros [= <- <-]. split; [reflexivity|]. cbn [heap unmounted_dirs flat_map app].
        rewrite recorded_insert. cbn [new_disk mount_points app].
        now rewrite (delete_id (heap self) (next_addr self) Hfresh).
    - destruct (g_strcmp0 (DEVTYPE device) (Some "partition"%string) =? 0);
        [|now intros [= <- <-]].
      destruct (disks self !! DISK_ID device) as [a|]; [|now intros [= <- <-]].
      destruct (heap self !! a) as [disk|] eqn:Ha; [|discriminate].
      destruct (negb (attached disk)); intros [= <- <-]; [|now split].
      split; [reflexivity|]. cbn [heap unmounted_dirs flat_map app].
      now apply (recorded_update _ _ disk). }
  destruct (g_strcmp0 action (Some "remove"%string) =? 0); [|now intros [= <- <-]].
  destruct (disks self !! DISK_ID device) as [a|]; [|now intros [= <- <-]].
  destruct (heap self !! a) as [disk|] eqn:Ha; [|discriminate].
  intros [= <- <-]. split; [reflexivity|]. cbn [heap unmounted_dirs flat_map app].
  now apply (recorded_update _ _ disk).
Qed.

Lemma timeout_dispatch_mounts (self self' : UdevMonitor) (now : Z) :
  timeout_dispatch self now = Some self' ->
  recorded_mount_points (heap self') ≡ₚ recorded_mount_points (heap self).
Proof.
  unfold timeout_dispatch. destruct (timeouts self); [now intros [= <-]|].
  unfold on_disk_initialized.
  destruct (find_initialized (heap self) now (map_to_list (disks self))) as [[a|]|];
    [| now intros [= <-] | discriminate].
  destruct (heap self !! a) as [disk|] eqn:Ha; [|discriminate].
  intros [= <-]. cbn [heap]. now apply (recorded_update _ _ disk).
Qed.

Lemma daemon_step_mounts (os : OS) (w : World) (d d' : Daemon) (s : step)
    (evs : list event) :
  monitor_consistent (monitor d) ->
  daemon_step os w d s = Some (d', evs) ->
  mounted_dirs os evs ++ recorded_mount_points (heap (monitor d))
  ≡ₚ unmounted_dirs evs ++ recorded_mount_points (heap (monitor d')).
Proof.
  intros Hc. destruct s as [now action device | now |]; cbn [daemon_step].
  - destruct (on_uevent os (monitor d) now (Some action) device) as [[m e]|] eqn:Hev;
      [|discriminate].
    intros [= <- <-]. apply (on_uevent_mounts _ _ _ _ _ _ _ Hc) in Hev as [-> Hev].
    cbn [monitor app]. now rewrite Hev.
  - destruct (timeout_dispatch (monitor d) now) as [m|] eqn:Ht; [|discriminate].
    intros [= <- <-]. cbn [monitor mounted_dirs unmounted_dirs flat_map app].
    symmetry. now apply timeout_dispatch_mounts in Ht.
  - unfold process_disk_thread_func.
    destruct (process_device_queue (monitor d)) as [|[a|] rest];
      try (intros [= <- <-]; reflexivity).
    destruct (heap (monitor d) !! a) as [disk|] eqn:Ha; [|discriminate].
    destruct (attached disk).
    + pose proof (mount_partitions_events os (partitions disk) disk) as Hme.
      destruct (mount_partitions_spec os (partitions disk) disk) as (Hd & _).
      destruct (mount_partitions os (partitions disk) disk) as [disk1 ev_mount].
      cbn [fst snd] in Hme, Hd. destruct Hme as (Mm & Mu & _).
      unfold attach_handler.
      destruct (on_attach w _ (gudev_device disk1) (mount_points disk1) (context d))
        as [[c1 ev_handler]|] eqn:Hon; [|discriminate].
      pose proof (on_attach_handler_events _ _ _ _ _ _ _ Hon) as Hh.
      destruct (handler_events_only os ev_handler Hh) as (_ & _ & _ & Hm & Hu).
      intros [= <- <-]. cbn [monitor heap].
      change (emit_attach (gudev_device disk1) (mount_points disk1) :: ev_handler)
        with ([emit_attach (gudev_device disk1) (mount_points disk1)] ++ ev_handler).
      rewrite !mounted_dirs_app, !unmounted_dirs_app, Mm, Mu, Hm, Hu.
      cbn [mounted_dirs unmounted_dirs flat_map app]. rewrite app_nil_r.
      rewrite recorded_insert, (recorded_delete _ _ _ Ha), Hd.
      cbn [set_mount_points mount_points]. rewrite <- app_assoc.
      apply Permutation_app_tail. apply Permutation_rev.
    + unfold detach_handler.
      pose proof (on_detach_handler_events (gudev_device disk) (context d)) as Hh.
      destruct (on_detach (gudev_device disk) (context d)) as [c1 ev_handler].
      cbn [snd] in Hh. destruct (handler_events_only os ev_handler Hh) as (_ & _ & _ & Hm & Hu).
      destruct (free_disk_events os disk) as (Fu & Fm & _).
      intros [= <- <-]. cbn [monitor heap].
      change (emit_detach (gudev_device disk) :: ev_handler ++ free_disk os disk)
        with ([emit_detach (gudev_device disk)] ++ ev_handler ++ free_disk os disk).
      rewrite !mounted_dirs_app, !unmounted_dirs_app, Hm, Hu, Fm, Fu.
      cbn [mounted_dirs unmounted_dirs flat_map app].
      now apply recorded_delete.
Qed.

Lemma daemon_run_mounts (os : OS) (w : World) (l : list step) :
  forall (d d' : Daemon) (evs : list event),
    monitor_consistent (monitor d) ->
    daemon_run os w d l = Some (d', evs) ->
    mounted_dirs os evs ++ recorded_mount_points (heap (monitor d))
    ≡ₚ unmounted_dirs evs ++ recorded_mount_points (heap (monitor d')).
Proof.
  induction l as [|s l IH]; intros d d' evs Hc; cbn [daemon_run].
  - intros [= <- <-]. reflexivity.
  - destruct (daemon_step os w d s) as [[d1 e1]|] eqn:Hs; [|discriminate].
    destruct (daemon_run os w d1 l) as [[d2 e2]|] eqn:Hr; [|discriminate].
    intros [= <- <-].
    pose proof (daemon_step_mounts os w d d1 s e1 Hc Hs) as H1.
    pose proof (IH d1 d2 e2 (daemon_step_consistent _ _ _ _ _ _ Hc Hs) Hr) as H2.
    rewrite mounted_dirs_app, unmounted_dirs_app, <- !app_assoc.
    rewrite (Permutation_app_swap_app (mounted_dirs os e1)), H1.
    rewrite (Permutation_app_swap_app (mounted_dirs os e2)), H2.
    reflexivity.
Qed.

(** At every moment of a run from the start state, the directories on which
    a mount has succeeded and that were not unmounted since are exactly the
    mount points recorded in the live disks: no mounted partition is
    forgotten while its disk is alive, and [umount2] is called only on
    directories the daemon had mounted. *)
Theorem mounted_directories_are_recorded (os : OS) (w : World) (sys : option string)
    (l : list step) (d : Daemon) (evs : list event) :
  daemon_run os w (daemon_start sys) l = Some (d, evs) ->
  mounted_dirs os evs
  ≡ₚ unmounted_dirs evs ++ recorded_mount_points (heap (monitor d)).
Proof.
  intros Hrun.
  pose proof (daemon_run_mounts os w l (daemon_start sys) d evs
                udev_monitor_new_consistent Hrun) as H.
  cbn [daemon_start monitor udev_monitor_new heap] in H.
  unfold recorded_mount_points in H at 1. rewrite map_to_list_empty in H.
  cbn [flat_map] in H. now rewrite app_nil_r in H.
Qed.

Lemma mounted_directories_are_recorded_witness :
  exists d evs,
    daemon_run Sample.os_ok Sample.hookless (daemon_start (Some "sys-A"%string))
               (Sample.a_attached ++ Sample.c_attached ++ Sample.a_pulled) = Some (d, evs)
    /\ mounted_dirs Sample.os_ok evs
       ≡ₚ unmounted_dirs evs ++ recorded_mount_points (heap (monitor d))
    /\ unmounted_dirs evs = ["/run/media/disk-updater/sda1"%string]
    /\ recorded_mount_points (heap (monitor d)) = ["/run/media/disk-updater/sdc1"%string].
Proof.
  destruct (daemon_run Sample.os_ok Sample.hookless (daemon_start (Some "sys-A"%string))
              (Sample.a_attached ++ Sample.c_attached ++ Sample.a_pulled))
    as [[d evs]|] eqn:Hrun; [|vm_compute in Hrun; discriminate].
  exists d, evs. split; [reflexivity|].
  split; [exact (mounted_directories_are_recorded _ _ _ _ _ _ Hrun)|].
  vm_compute in Hrun. injection Hrun as <- <-.
  split; vm_compute; reflexivity.
Defined.
